(** * dashboard_new.py: the retrying, cached market-data fetch layer

    A shallow embedding of [src/dashboard_new.py]: the three fetch
    functions with their retry loops, the [st.cache_data] decorator that
    wraps them, and the two dashboards that call them.

    Numbers: the values of [Ticker.info] are Python values, and a Python
    float among them is an IEEE 754 binary64 number with the arithmetic
    of the Standard Library's [SpecFloat]: the dividend yield is
    multiplied and formatted as Python does it, bit for bit.  A pandas
    cell is [option Q], with [None] standing for NaN: the prices of a
    frame are exact rationals, and what is proved of them is which cells
    are defined and which closes a window or a recurrence combines. *)

From Stdlib Require Import ZArith QArith Qabs String Ascii List Lia.
From Stdlib Require Import Decimal DecimalString DecimalN SpecFloat.
From stdpp Require Import gmap strings list fin_maps.

Local Close Scope Q_scope.
Local Open Scope string_scope.
Local Open Scope list_scope.

(** ** Exceptions and fallible computations *)

(** Instances of Python's [Exception], the class the three [except]
    clauses catch.  [ProviderError] stands for whatever the provider
    library raises on a network error or a rate limit. *)
Inductive exn : Type :=
  | ProviderError (msg : string)
  | KeyError (key : string)
  | ValueError (msg : string)
  | TypeError (msg : string)
  | OverflowError (msg : string).

(** [str(e)], as interpolated in the warning messages. *)
Definition exn_str (e : exn) : string :=
  match e with
  | ProviderError msg => msg
  | KeyError key => "'" ++ key ++ "'"
  | ValueError msg => msg
  | TypeError msg => msg
  | OverflowError msg => msg
  end.

Inductive result (A : Type) : Type :=
  | Ok (a : A)
  | Raise (e : exn).
Arguments Ok {A} a.
Arguments Raise {A} e.

Global Instance result_ret : MRet result := fun A a => Ok a.
Global Instance result_bind : MBind result := fun A B k r =>
  match r with
  | Ok a => k a
  | Raise e => Raise e
  end.

Definition raised {A} (r : result A) : bool :=
  match r with Ok _ => false | Raise _ => true end.

(** ** Python values found in [Ticker.info] *)

(** [Ticker.info] is a decoded JSON object: its values are [None],
    booleans, integers, floats, strings, lists and dictionaries. *)
#[warnings="-register-all"] Inductive pyval : Type :=
  | PNone
  | PBool (b : bool)
  | PInt (z : Z)
  | PFloat (x : spec_float)
  | PStr (s : string)
  | PList (items : list pyval)
  | PDict (entries : list (string * pyval)).

(** *** Floats *)

(** A Python float is a binary64 number: 53 bits of precision, and 1024
    for the exponent of the infinities. *)
Definition prec64 : Z := 53.
Definition emax64 : Z := 1024.

(** [float(z)]: the nearest float, ties to even; an infinity past the
    largest float. *)
Definition float_of_int (z : Z) : spec_float := binary_normalize prec64 emax64 z 0 false.

(** [x * y] and [x / y] on floats. *)
Definition float_mul : spec_float -> spec_float -> spec_float := SFmul prec64 emax64.
Definition float_div : spec_float -> spec_float -> spec_float := SFdiv prec64 emax64.

(** The float a decimal literal denotes: [float_literal 123 10000] is
    Python's [0.0123], the float nearest to 123/10000 (the numerator
    below 2^53, the denominator a power of ten up to 10^22, so that both
    are floats and the quotient is rounded once). *)
Definition float_literal (num den : Z) : spec_float :=
  float_div (float_of_int num) (float_of_int den).

Definition is_infinite (x : spec_float) : bool :=
  match x with S754_infinity _ => true | _ => false end.

(** The absolute value of the finite float of mantissa [m] and exponent
    [e], which is [m * 2^e]. *)
Definition float_magnitude (m : positive) (e : Z) : Q :=
  match e with
  | Zneg p => Z.pos m # Pos.pow 2 p
  | _ => inject_Z (Z.pos m * 2 ^ e)
  end.

(** *** Truth, product and format *)

(** Truthiness, as tested by [if info.get('dividendYield')]: NaN and the
    infinities are true, both zeros are false. *)
Definition truthy (v : pyval) : bool :=
  match v with
  | PNone => false
  | PBool b => b
  | PInt z => negb (z =? 0)%Z
  | PFloat (S754_zero _) => false
  | PFloat _ => true
  | PStr s => negb (String.eqb s "")
  | PList [] => false
  | PList _ => true
  | PDict [] => false
  | PDict _ => true
  end.

Fixpoint str_repeat (s : string) (n : nat) : string :=
  match n with
  | O => ""
  | S n' => s ++ str_repeat s n'
  end.

(** [v * 100]: the product of numbers (a boolean counts as 0 or 1), the
    repetition of a string or of a list. *)
Definition py_mul_100 (v : pyval) : result pyval :=
  match v with
  | PNone => Raise (TypeError "unsupported operand type(s) for *: 'NoneType' and 'int'")
  | PBool b => Ok (PInt (if b then 100 else 0))
  | PInt z => Ok (PInt (z * 100))
  | PFloat x => Ok (PFloat (float_mul x (float_of_int 100)))
  | PStr s => Ok (PStr (str_repeat s 100))
  | PList items => Ok (PList (concat (repeat items 100)))
  | PDict _ => Raise (TypeError "unsupported operand type(s) for *: 'dict' and 'int'")
  end.

(** *** The format specification [.2f] *)

(** The integer nearest to a rational, ties to even. *)
Definition round_half_even (q : Q) : Z :=
  let n := Qnum q in
  let d := Z.pos (Qden q) in
  let fl := (n / d)%Z in
  let r2 := (2 * (n mod d))%Z in
  if (r2 <? d)%Z then fl
  else if (d <? r2)%Z then (fl + 1)%Z
  else if Z.even fl then fl else (fl + 1)%Z.

Definition digit_char (d : Z) : ascii := ascii_of_nat (48 + Z.to_nat d).

Definition decimal_of_Z (z : Z) : string :=
  NilZero.string_of_uint (N.to_uint (Z.to_N z)).

(** [n] hundredths written out: a minus sign if asked, the integer
    part, a point and two digits. *)
Definition hundredths (neg : bool) (n : Z) : string :=
  (if neg then "-" else "")
  ++ decimal_of_Z (n / 100)
  ++ String "." (String (digit_char (n mod 100 / 10))
                   (String (digit_char (n mod 10)) "")).

(** [format(x, '.2f')] for a float: the exact value of [x], rounded to
    the nearest hundredth, ties to even; the sign is the sign bit, also
    of a zero and of what rounds to zero. *)
Definition float_format_2f (x : spec_float) : string :=
  match x with
  | S754_nan => "nan"
  | S754_infinity neg => if neg then "-inf" else "inf"
  | S754_zero neg => hundredths neg 0
  | S754_finite neg m e => hundredths neg (round_half_even (float_magnitude m e * 100)%Q)
  end.

(** [format(z, '.2f')] for an integer: [float(z)] is formatted, and an
    integer too large for a float raises [OverflowError]. *)
Definition int_format_2f (z : Z) : result string :=
  if is_infinite (float_of_int z)
  then Raise (OverflowError "int too large to convert to float")
  else Ok (float_format_2f (float_of_int z)).

Definition py_format_2f (v : pyval) : result string :=
  match v with
  | PNone => Raise (TypeError "unsupported format string passed to NoneType.__format__")
  | PBool b => int_format_2f (if b then 1 else 0)
  | PInt z => int_format_2f z
  | PFloat x => Ok (float_format_2f x)
  | PStr _ => Raise (ValueError "Unknown format code 'f' for object of type 'str'")
  | PList _ => Raise (TypeError "unsupported format string passed to list.__format__")
  | PDict _ => Raise (TypeError "unsupported format string passed to dict.__format__")
  end.

(** ** Data frames *)

Definition cell : Type := option Q.

(** A frame is its row labels and its labelled columns, in order; every
    column of a frame the provider returns has one cell per row label. *)
Record DataFrame : Type := mkFrame {
  index : list string;
  columns : list (string * list cell)
}.

(** [pd.DataFrame()] *)
Definition empty_frame : DataFrame := mkFrame [] [].

(** [df.empty]: some axis has length 0. *)
Definition empty (df : DataFrame) : bool :=
  (length (index df) =? 0)%nat || (length (columns df) =? 0)%nat.

Definition column_labels (df : DataFrame) : list string := map fst (columns df).

Definition has_label (l : string) (c : string * list cell) : bool :=
  String.eqb (fst c) l.

(** [df[label]] for a label that one column carries: the column, and
    [KeyError] when no column has the label.  Where several columns
    carry the label this is the first of them, while pandas hands back
    all of them as a frame: what is stated below of the provider's data
    asks for the label to occur once. *)
Definition getitem (df : DataFrame) (label : string) : result (list cell) :=
  match List.find (has_label label) (columns df) with
  | Some c => Ok (snd c)
  | None => Raise (KeyError label)
  end.

Fixpoint replace_column (label : string) (col : list cell)
    (cs : list (string * list cell)) : list (string * list cell) :=
  match cs with
  | [] => []
  | c :: cs' =>
      (if has_label label c then (label, col) else c) :: replace_column label col cs'
  end.

(** [df[label] = col]: overwrite the column in place, or append it. *)
Definition setitem (df : DataFrame) (label : string) (col : list cell) : DataFrame :=
  if existsb (has_label label) (columns df)
  then mkFrame (index df) (replace_column label col (columns df))
  else mkFrame (index df) (columns df ++ [(label, col)]).

(** [df[[l1, ..., ln]]]: the columns carrying each label, in the order
    asked; [KeyError] when some label is carried by no column.  The
    message of pandas names every missing label; the key kept here is
    the first of them, and what is stated below of the exception leaves
    its message open. *)
Fixpoint select_columns (cs : list (string * list cell)) (labels : list string)
    : result (list (string * list cell)) :=
  match labels with
  | [] => Ok []
  | l :: ls =>
      match List.filter (has_label l) cs with
      | [] => Raise (KeyError l)
      | found => rest ← select_columns cs ls; Ok (found ++ rest)
      end
  end.

Definition getitem_list (df : DataFrame) (labels : list string) : result DataFrame :=
  cs ← select_columns (columns df) labels; Ok (mkFrame (index df) cs).

Definition nth_cell (i : nat) (col : list cell) : cell := nth i col None.

(** [df.T] *)
Definition transpose (df : DataFrame) : DataFrame :=
  mkFrame (column_labels df)
    (map (fun ir => (snd ir, map (fun c => nth_cell (fst ir) (snd c)) (columns df)))
         (combine (seq 0 (length (index df))) (index df))).

Fixpoint position (l : string) (ls : list string) : option nat :=
  match ls with
  | [] => None
  | x :: ls' => if String.eqb x l then Some O else option_map S (position l ls')
  end.

(** [left.join(right)]: a left join on the row labels; rows of [left]
    absent from [right] get NaN; overlapping column labels are refused.
    A row of [left] is paired with the first row of [right] carrying its
    label, while pandas repeats it for every such row: what is stated
    below of the shape of a joined frame asks for the row labels of
    [right] to be distinct. *)
Definition join (left right : DataFrame) : result DataFrame :=
  if existsb (fun l => existsb (String.eqb l) (column_labels right)) (column_labels left)
  then Raise (ValueError "columns overlap but no suffix specified")
  else Ok (mkFrame (index left)
             (columns left ++
              map (fun c => (fst c,
                     map (fun r => match position r (index right) with
                                   | Some j => nth_cell j (snd c)
                                   | None => None
                                   end) (index left)))
                  (columns right))).

(** ** Window statistics of pandas *)

Definition Qsum (xs : list Q) : Q := fold_right Qplus 0%Q xs.

Definition Qmean (xs : list Q) : Q :=
  Qred (Qsum xs / inject_Z (Z.of_nat (length xs)))%Q.

(** Sample variance (ddof = 1). *)
Definition Qvar (xs : list Q) : Q :=
  let m := Qmean xs in
  Qred (Qsum (map (fun x => (x - m) * (x - m))%Q xs)
        / inject_Z (Z.of_nat (length xs) - 1))%Q.

(** Square root of a non-negative rational, cut to nine decimals.  It
    stands for the float pandas computes; only whether a cell of
    Volatility is defined is stated with it. *)
Definition Qsqrt (q : Q) : Q :=
  Qred (Z.sqrt (Qnum q * 10 ^ 18 / Z.pos (Qden q)) # 10 ^ 9).

(** Rows [i-n+1 .. i], clipped at the first row. *)
Definition window (n i : nat) (xs : list cell) : list cell :=
  skipn (i + 1 - n) (firstn (i + 1) xs).

(** The non-NaN cells. *)
Definition observations (w : list cell) : list Q := omap id w.

(** [s.rolling(window=n)]: [min_periods] defaults to [n], so a row has
    a value only when its window holds [n] observations. *)
Definition rolling (n : nat) (stat : list Q -> cell) (xs : list cell) : list cell :=
  map (fun i =>
         let obs := observations (window n i xs) in
         if (n <=? length obs)%nat then stat obs else None)
      (seq 0 (length xs)).

Definition rolling_mean (n : nat) : list cell -> list cell :=
  rolling n (fun obs => Some (Qmean obs)).

Definition rolling_std (n : nat) : list cell -> list cell :=
  rolling n (fun obs =>
    if (length obs <=? 1)%nat then None else Some (Qsqrt (Qvar obs))).

(** [s.ewm(span=n, adjust=False).mean()]: [min_periods] defaults to 0 and
    [ignore_na] to [False].  The running average starts at the first
    observation; a NaN row repeats the running average and ages its
    weight. *)
Fixpoint ewm_go (alpha : Q) (weighted : cell) (old_wt : Q) (xs : list cell)
    : list cell :=
  match xs with
  | [] => []
  | cur :: rest =>
      let '(weighted', old_wt') :=
        match weighted, cur with
        | Some w, Some c =>
            let ow := (old_wt * (1 - alpha))%Q in
            (Some (if Qeq_bool w c then w
                   else Qred ((ow * w + alpha * c) / (ow + alpha))%Q), 1%Q)
        | Some w, None => (Some w, (old_wt * (1 - alpha))%Q)
        | None, Some c => (Some c, old_wt)
        | None, None => (None, old_wt)
        end in
      weighted' :: ewm_go alpha weighted' old_wt' rest
  end.

Definition ewm_mean (span : nat) (xs : list cell) : list cell :=
  match xs with
  | [] => []
  | x :: rest => x :: ewm_go (2 # Pos.of_nat (span + 1)) x 1%Q rest
  end.

(** ** The world the program runs in *)

Inductive fn_id : Type := FetchIndex | FetchStock | MetricsTable.

Global Instance fn_id_eq_dec : EqDecision fn_id.
Proof. solve_decision. Defined.

(** What an observer of a run sees, in order. *)
Inductive event : Type :=
  | EAttempt (ticker : string) (contact : nat)
  | EWarning (msg : string)
  | EError (msg : string)
  | ESleep (secs : Z)
  | ECall (f : fn_id) (ticker : string)
  | ERun (f : fn_id) (ticker : string)
  | ECacheClear
  | ETitle (text : string)
  | EWrite (text : string)
  | EDataframe (df : DataFrame)
  | ELineChart (df : DataFrame)
  | EMetric (label : string) (value : pyval).

Record world : Type := mkWorld {
  clock : Z;                       (* seconds *)
  contacts : nat;                  (* provider handles built so far *)
  index_cache : gmap string (DataFrame * Z);
  stock_cache : gmap string ((DataFrame * gmap string pyval) * Z);
  table_cache : gmap string (DataFrame * Z);
  choice : string -> nat;          (* option picked in the widget of that label *)
  clicked : string -> bool;        (* was the button of that label pressed *)
  log : list event
}.

Definition emit (e : event) (w : world) : world :=
  mkWorld (clock w) (contacts w) (index_cache w) (stock_cache w) (table_cache w)
          (choice w) (clicked w) (log w ++ [e]).

Definition advance (secs : Z) (w : world) : world :=
  mkWorld (clock w + secs) (contacts w) (index_cache w) (stock_cache w)
          (table_cache w) (choice w) (clicked w) (log w).

Definition set_index_cache (c : gmap string (DataFrame * Z)) (w : world) : world :=
  mkWorld (clock w) (contacts w) c (stock_cache w) (table_cache w)
          (choice w) (clicked w) (log w).

Definition set_stock_cache (c : gmap string ((DataFrame * gmap string pyval) * Z))
    (w : world) : world :=
  mkWorld (clock w) (contacts w) (index_cache w) c (table_cache w)
          (choice w) (clicked w) (log w).

Definition set_table_cache (c : gmap string (DataFrame * Z)) (w : world) : world :=
  mkWorld (clock w) (contacts w) (index_cache w) (stock_cache w) c
          (choice w) (clicked w) (log w).

(** A computation that reads and changes the world and may raise. *)
Definition M (A : Type) : Type := world -> result A * world.

Global Instance M_ret : MRet M := fun A a w => (Ok a, w).
Global Instance M_bind : MBind M := fun A B k m w =>
  match m w with
  | (Ok a, w') => k a w'
  | (Raise e, w') => (Raise e, w')
  end.
Global Instance M_fmap : FMap M := fun A B f m w =>
  match m w with
  | (Ok a, w') => (Ok (f a), w')
  | (Raise e, w') => (Raise e, w')
  end.

Definition lift {A} (r : result A) : M A := fun w => (r, w).

(** [try: body except Exception as e: handler(e)] *)
Definition try_except {A} (body : M A) (handler : exn -> M A) : M A := fun w =>
  match body w with
  | (Ok a, w') => (Ok a, w')
  | (Raise e, w') => handler e w'
  end.

Definition st_warning (msg : string) : M unit := fun w => (Ok tt, emit (EWarning msg) w).
Definition st_error (msg : string) : M unit := fun w => (Ok tt, emit (EError msg) w).
Definition st_title (text : string) : M unit := fun w => (Ok tt, emit (ETitle text) w).
Definition st_write (text : string) : M unit := fun w => (Ok tt, emit (EWrite text) w).
Definition st_dataframe (df : DataFrame) : M unit := fun w => (Ok tt, emit (EDataframe df) w).
Definition st_line_chart (df : DataFrame) : M unit := fun w => (Ok tt, emit (ELineChart df) w).
Definition st_metric (label : string) (value : pyval) : M unit :=
  fun w => (Ok tt, emit (EMetric label value) w).

(** [time.sleep(secs)] blocks: the clock moves on. *)
Definition time_sleep (secs : Z) : M unit := fun w =>
  (Ok tt, advance secs (emit (ESleep secs) w)).

(** [st.selectbox(label, options)] and [st.radio]: the option picked. *)
Definition st_selectbox (label : string) (options : list string) : M string :=
  fun w => (Ok (nth (choice w label) options (hd "" options)), w).

(** [st.button(label)] *)
Definition st_button (label : string) : M bool := fun w => (Ok (clicked w label), w).

(** ** The data provider *)

(** [yf.Ticker(ticker)]: a handle on one symbol.  Every attempt builds a
    fresh handle; [contact] numbers the handles in the order they are
    built, so that the provider may answer each attempt differently. *)
Record Ticker : Type := mkTicker { symbol : string; contact : nat }.

(** What the provider answers to the four queries of the program. *)
Record provider : Type := mkProvider {
  history : Ticker -> result DataFrame;          (* .history(period="1y") *)
  info : Ticker -> result (gmap string pyval);   (* .info *)
  financials : Ticker -> result DataFrame;       (* .financials *)
  balance_sheet : Ticker -> result DataFrame     (* .balance_sheet *)
}.

Definition yf_Ticker (ticker : string) : M Ticker := fun w =>
  (Ok (mkTicker ticker (contacts w)),
   emit (EAttempt ticker (contacts w))
     (mkWorld (clock w) (S (contacts w)) (index_cache w) (stock_cache w)
              (table_cache w) (choice w) (clicked w) (log w))).

(** ** The retry loop

    [for attempt in range(5): try: return body() except Exception as e:
    on_error(e)], followed by [after] when the loop runs out.  The three
    fetch functions are this loop around three different bodies. *)
Fixpoint for_attempts {A} (attempts : list nat) (body : M A)
    (on_error : exn -> M unit) (after : M A) : M A :=
  match attempts with
  | [] => after
  | _ :: rest =>
      r ← try_except (Some <$> body) (fun e => on_error e;; mret None);
      match r with
      | Some v => mret v
      | None => for_attempts rest body on_error after
      end
  end.

Section Program.

Variable P : provider.

(** *** fetch_index_data_safe *)

(** The [try] block, once the handle is built. *)
Definition index_attempt (index : Ticker) : result DataFrame :=
  hist ← history P index;
  close ← getitem hist "Close";
  let hist := setitem hist "SMA_20" (rolling_mean 20 close) in
  close ← getitem hist "Close";
  let hist := setitem hist "EMA_20" (ewm_mean 20 close) in
  close ← getitem hist "Close";
  let hist := setitem hist "Volatility" (rolling_std 20 close) in
  Ok hist.

(** The function under the decorator. *)
Definition fetch_index_data_safe_wrapped (ticker : string) : M DataFrame :=
  for_attempts (seq 0 5)
    (index ← yf_Ticker ticker; lift (index_attempt index))
    (fun e =>
       st_warning ("Error fetching " ++ ticker ++ ": " ++ exn_str e
                   ++ ". Retrying in 60 seconds...");;
       time_sleep 60)
    (st_error ("Could not fetch data for " ++ ticker ++ " after multiple attempts.");;
     mret empty_frame).

(** *** fetch_stock_data_safe *)

Definition dividend_yield_entry (info : gmap string pyval) : result pyval :=
  if truthy (default PNone (info !! "dividendYield"))
  then v ← py_mul_100 (default (PInt 0) (info !! "dividendYield"));
       s ← py_format_2f v;
       Ok (PStr (s ++ "%"))
  else Ok (PStr "N/A").

Definition stock_metrics (info : gmap string pyval) : result (gmap string pyval) :=
  dy ← dividend_yield_entry info;
  Ok (<["Market Cap" := default (PStr "N/A") (info !! "marketCap")]>
     (<["Beta" := default (PStr "N/A") (info !! "beta")]>
     (<["Dividend Yield" := dy]>
     (<["PE Ratio" := default (PStr "N/A") (info !! "trailingPE")]> ∅)))).

Definition stock_attempt (stock : Ticker)
    : result (DataFrame * gmap string pyval) :=
  hist ← history P stock;
  info ← info P stock;
  metrics ← stock_metrics info;
  Ok (hist, metrics).

Definition fetch_stock_data_safe_wrapped (ticker : string)
    : M (DataFrame * gmap string pyval) :=
  for_attempts (seq 0 5)
    (stock ← yf_Ticker ticker; lift (stock_attempt stock))
    (fun e =>
       st_warning ("Error fetching " ++ ticker ++ ": " ++ exn_str e
                   ++ ". Retrying in 60 seconds...");;
       time_sleep 60)
    (st_error ("Could not fetch data for " ++ ticker ++ " after multiple attempts.");;
     mret (empty_frame, ∅)).

(** *** metrics_table_safe *)

Definition balance_items : list string := ["Total Assets"; "Total Debt"].
Definition income_items : list string :=
  ["Total Revenue"; "EBITDA"; "Basic EPS"; "Operating Income"; "Operating Expense"].

Definition table_attempt (stock : Ticker) : result DataFrame :=
  financials ← financials P stock;
  balance_sheet ← balance_sheet P stock;
  output1 ← getitem_list (transpose balance_sheet) balance_items;
  output2 ← getitem_list (transpose financials) income_items;
  output ← join output1 output2;
  Ok (transpose output).

Definition metrics_table_safe_wrapped (ticker : string) : M DataFrame :=
  for_attempts (seq 0 5)
    (stock ← yf_Ticker ticker; lift (table_attempt stock))
    (fun e =>
       st_warning ("Error fetching financial data for " ++ ticker ++ ": "
                   ++ exn_str e ++ ". Retrying in 60 seconds...");;
       time_sleep 60)
    (st_error ("Could not fetch financial data for " ++ ticker
               ++ " after multiple attempts.");;
     mret empty_frame).

End Program.

(** ** The cache decorator *)

(** [ttl=3600] *)
Definition ttl : Z := 3600.

(** Modelled from the spec: the freshness test of Streamlit's
    [st.cache_data], whose code is not part of the repository.  An entry
    holds a result and its creation time and is "invalid once age exceeds
    TTL". *)
Definition fresh (now created : Z) : bool := (now - created <=? ttl)%Z.

Definition cache_hit {V} (store : gmap string (V * Z)) (arg : string) (now : Z)
    : option V :=
  match store !! arg with
  | Some (v, created) => if fresh now created then Some v else None
  | None => None
  end.

(** Modelled from the spec: [@st.cache_data(ttl=3600)] around a function
    of one argument; Streamlit's code is not part of the repository.  Each
    decorated function has a store of its own, keyed on the argument.  A
    hit returns the stored result without running the function; a miss
    runs it and stores whatever it returns, stamped with the time of the
    return.  [get] and [set] name the store of the function. *)
Definition cache_data {V} (f : fn_id)
    (get : world -> gmap string (V * Z))
    (set : gmap string (V * Z) -> world -> world)
    (wrapped : string -> M V) (arg : string) : M V := fun w0 =>
  let w := emit (ECall f arg) w0 in
  match cache_hit (get w) arg (clock w) with
  | Some v => (Ok v, w)
  | None =>
      match wrapped arg (emit (ERun f arg) w) with
      | (Ok v, w') => (Ok v, set (<[arg := (v, clock w')]> (get w')) w')
      | (Raise e, w') => (Raise e, w')
      end
  end.

(** Modelled from the spec: [st.cache_data.clear()], of Streamlit: "clears
    the entire cache", the stores of all decorated functions. *)
Definition cache_clear : M unit := fun w =>
  (Ok tt, emit ECacheClear
            (mkWorld (clock w) (contacts w) ∅ ∅ ∅ (choice w) (clicked w) (log w))).

Section Dashboards.

Variable P : provider.

Definition fetch_index_data_safe : string -> M DataFrame :=
  cache_data FetchIndex index_cache set_index_cache (fetch_index_data_safe_wrapped P).

Definition fetch_stock_data_safe : string -> M (DataFrame * gmap string pyval) :=
  cache_data FetchStock stock_cache set_stock_cache (fetch_stock_data_safe_wrapped P).

Definition metrics_table_safe : string -> M DataFrame :=
  cache_data MetricsTable table_cache set_table_cache (metrics_table_safe_wrapped P).

(** [df['Close']] handed to a chart: the one column, with the row labels. *)
Definition series_frame (df : DataFrame) (label : string) : result DataFrame :=
  col ← getitem df label; Ok (mkFrame (index df) [(label, col)]).

Definition display_index_dashboard : M unit :=
  st_title "Industry Indices Dashboard";;
  let indices := ["^DJI"; "^GSPC"; "^IXIC"; "^RUT"] in
  selected_index ← st_selectbox "Select an Index" indices;
  pressed ← st_button "Retry Fetch Index Data";
  (if pressed : bool then cache_clear else mret tt);;
  index_data ← fetch_index_data_safe selected_index;
  if empty index_data then st_warning "No data available."
  else
    st_write ("Data for " ++ selected_index);;
    table ← lift (getitem_list index_data
               ["Open"; "High"; "Low"; "Close"; "Volume"; "SMA_20"; "EMA_20"; "Volatility"]);
    st_dataframe table;;
    chart ← lift (getitem_list index_data ["Close"; "SMA_20"; "EMA_20"]);
    st_line_chart chart.

Definition display_stock_dashboard : M unit :=
  st_title "Stocks Dashboard";;
  let stocks := ["AAPL"; "MSFT"; "GOOGL"; "AMZN"; "TSLA"] in
  selected_stock ← st_selectbox "Select a Stock" stocks;
  pressed ← st_button "Retry Fetch Stock Data";
  (if pressed : bool then cache_clear else mret tt);;
  '(stock_data, metrics) ← fetch_stock_data_safe selected_stock;
  metr ← metrics_table_safe selected_stock;
  if empty stock_data then st_warning "No stock data available."
  else
    st_write ("Data for " ++ selected_stock);;
    table ← lift (getitem_list stock_data ["Open"; "High"; "Low"; "Close"; "Volume"]);
    st_dataframe table;;
    st_title ("Financials for " ++ selected_stock);;
    st_dataframe metr;;
    st_metric "PE Ratio" (default (PStr "N/A") (metrics !! "PE Ratio"));;
    st_metric "Dividend Yield" (default (PStr "N/A") (metrics !! "Dividend Yield"));;
    st_metric "Beta" (default (PStr "N/A") (metrics !! "Beta"));;
    st_metric "Market Cap" (default (PStr "N/A") (metrics !! "Market Cap"));;
    chart ← lift (series_frame stock_data "Close");
    st_line_chart chart.

Definition main : M unit :=
  st_title "Dashboard Selection";;
  dashboard_type ← st_selectbox "Choose a Dashboard" ["Industry Indices"; "Stocks"];
  if String.eqb dashboard_type "Industry Indices"
  then display_index_dashboard
  else display_stock_dashboard.

End Dashboards.

(** ** Reading a run *)

(** The events a computation adds to the log. *)
Definition new_events (before after : world) : list event :=
  skipn (length (log before)) (log after).

Definition is_sleep (e : event) : bool :=
  match e with ESleep _ => true | _ => false end.

(** The delays of a trace, in order. *)
Definition delays (tr : list event) : list Z :=
  omap (fun e => match e with ESleep s => Some s | _ => None end) tr.

Definition is_attempt (e : event) : bool :=
  match e with EAttempt _ _ => true | _ => false end.

(** How many times the provider is contacted in a trace. *)
Definition provider_attempts (tr : list event) : nat :=
  length (List.filter is_attempt tr).

Definition is_run (e : event) : bool :=
  match e with ERun _ _ => true | _ => false end.

(** How many times a decorated function's body runs in a trace. *)
Definition body_runs (tr : list event) : nat :=
  length (List.filter is_run tr).

Definition is_call_of (f : fn_id) (ticker : string) (e : event) : bool :=
  match e with
  | ECall g t =>
      match f, g with
      | FetchIndex, FetchIndex | FetchStock, FetchStock
      | MetricsTable, MetricsTable => String.eqb t ticker
      | _, _ => false
      end
  | _ => false
  end.

Definition calls_of (f : fn_id) (ticker : string) (tr : list event) : nat :=
  length (List.filter (is_call_of f ticker) tr).

(** A world at rest: nothing cached, nothing logged, no button pressed,
    the first option picked in every widget. *)
Definition initial_world : world :=
  mkWorld 0 0 ∅ ∅ ∅ (fun _ => O) (fun _ => false) [].

(** ** The three functions, by name *)

(** What each function returns. *)
Definition payload (f : fn_id) : Type :=
  match f with
  | FetchStock => (DataFrame * gmap string pyval)%type
  | _ => DataFrame
  end.

(** The [try] block of each function. *)
Definition attempt (P : provider) (f : fn_id) : Ticker -> result (payload f) :=
  match f with
  | FetchIndex => index_attempt P
  | FetchStock => stock_attempt P
  | MetricsTable => table_attempt P
  end.

(** What each function returns when the loop runs out. *)
Definition sentinel (f : fn_id) : payload f :=
  match f with
  | FetchIndex => empty_frame
  | FetchStock => (empty_frame, ∅)
  | MetricsTable => empty_frame
  end.

Definition wrapped (P : provider) (f : fn_id) : string -> M (payload f) :=
  match f with
  | FetchIndex => fetch_index_data_safe_wrapped P
  | FetchStock => fetch_stock_data_safe_wrapped P
  | MetricsTable => metrics_table_safe_wrapped P
  end.

Definition fetch (P : provider) (f : fn_id) : string -> M (payload f) :=
  match f with
  | FetchIndex => fetch_index_data_safe P
  | FetchStock => fetch_stock_data_safe P
  | MetricsTable => metrics_table_safe P
  end.

Definition store (f : fn_id) : world -> gmap string (payload f * Z) :=
  match f with
  | FetchIndex => index_cache
  | FetchStock => stock_cache
  | MetricsTable => table_cache
  end.

Definition set_store (f : fn_id) : gmap string (payload f * Z) -> world -> world :=
  match f with
  | FetchIndex => set_index_cache
  | FetchStock => set_stock_cache
  | MetricsTable => set_table_cache
  end.

Definition warning_text (f : fn_id) (ticker : string) (e : exn) : string :=
  match f with
  | MetricsTable =>
      "Error fetching financial data for " ++ ticker ++ ": " ++ exn_str e
      ++ ". Retrying in 60 seconds..."
  | _ => "Error fetching " ++ ticker ++ ": " ++ exn_str e
         ++ ". Retrying in 60 seconds..."
  end.

Definition error_text (f : fn_id) (ticker : string) : string :=
  match f with
  | MetricsTable =>
      "Could not fetch financial data for " ++ ticker ++ " after multiple attempts."
  | _ => "Could not fetch data for " ++ ticker ++ " after multiple attempts."
  end.

(** ** What a run of the retry loop amounts to *)

Section Retry.

Context {A : Type}.
Variable ticker : string.
Variable att : Ticker -> result A.
Variable warn : exn -> string.
Variable err : string.
Variable nothing : A.

Definition retry_loop (attempts : list nat) : M A :=
  for_attempts attempts
    (tk ← yf_Ticker ticker; lift (att tk))
    (fun e => st_warning (warn e);; time_sleep 60)
    (st_error err;; mret nothing).

(** The first of [n] attempts, from contact [c] on, that succeeds. *)
Fixpoint first_success (n c : nat) : option A :=
  match n with
  | O => None
  | S n' =>
      match att (mkTicker ticker c) with
      | Ok v => Some v
      | Raise _ => first_success n' (S c)
      end
  end.

(** The exceptions of the attempts that fail before it. *)
Fixpoint failures (n c : nat) : list exn :=
  match n with
  | O => []
  | S n' =>
      match att (mkTicker ticker c) with
      | Ok _ => []
      | Raise e => e :: failures n' (S c)
      end
  end.

(** What failed attempts leave in the log: the attempt, the warning, the
    delay. *)
Fixpoint failure_events (c : nat) (es : list exn) : list event :=
  match es with
  | [] => []
  | e :: es' =>
      EAttempt ticker c :: EWarning (warn e) :: ESleep 60 :: failure_events (S c) es'
  end.

(** How the loop ends: the attempt that succeeds, or the error message. *)
Definition closing_event (n c : nat) : event :=
  match first_success n c with
  | Some _ => EAttempt ticker (c + length (failures n c))
  | None => EError err
  end.

Definition loop_trace (n c : nat) : list event :=
  failure_events c (failures n c) ++ [closing_event n c].

Definition loop_world (n : nat) (w : world) : world :=
  mkWorld (clock w + 60 * Z.of_nat (length (failures n (contacts w))))
          (contacts w + length (failures n (contacts w))
           + match first_success n (contacts w) with Some _ => 1 | None => 0 end)
          (index_cache w) (stock_cache w) (table_cache w)
          (choice w) (clicked w)
          (log w ++ loop_trace n (contacts w)).

End Retry.

(** ** The functions under the decorator, as runs of the loop *)

(** The result of a run whose first handle is number [c]. *)
Definition outcome (P : provider) (f : fn_id) (ticker : string) (c : nat) : payload f :=
  default (sentinel f) (first_success ticker (attempt P f) 5 c).

(** The events of that run. *)
Definition run_trace (P : provider) (f : fn_id) (ticker : string) (c : nat) : list event :=
  loop_trace ticker (attempt P f) (warning_text f ticker) (error_text f ticker) 5 c.

(** The world it leaves. *)
Definition run_world (P : provider) (f : fn_id) (ticker : string) (w : world) : world :=
  loop_world ticker (attempt P f) (warning_text f ticker) (error_text f ticker) 5 w.

(** The world a miss leaves: the run, then the new entry. *)
Definition miss_world (P : provider) (f : fn_id) (ticker : string) (w : world) : world :=
  let w' := run_world P f ticker (emit (ERun f ticker) (emit (ECall f ticker) w)) in
  set_store f (<[ticker := (outcome P f ticker (contacts w), clock w')]> (store f w')) w'.

(** ** The vocabulary of the claims *)

(** A value a function can return: its empty result, or the result of its
    [try] block on some handle. *)
Definition produced (P : provider) (f : fn_id) (ticker : string) (v : payload f) : Prop :=
  v = sentinel f \/ exists c, attempt P f (mkTicker ticker c) = Ok v.

(** Every stored value was returned by the function it is stored for. *)
Definition cache_sound (P : provider) (w : world) : Prop :=
  forall f ticker v created,
    store f w !! ticker = Some (v, created) -> produced P f ticker v.

Definition is_digit (a : ascii) : bool :=
  (48 <=? nat_of_ascii a)%nat && (nat_of_ascii a <=? 57)%nat.

Fixpoint all_digits (s : string) : bool :=
  match s with
  | EmptyString => true
  | String a s' => is_digit a && all_digits s'
  end.

(** A number written with exactly two decimal places: an optional minus
    sign, at least one digit, a point, two digits. *)
Definition two_decimals (s : string) : Prop :=
  exists (sign whole : string) (d1 d2 : ascii),
    s = (sign ++ whole ++ String "." (String d1 (String d2 "")))%string /\
    (sign = "" \/ sign = "-") /\
    whole <> "" /\ all_digits whole = true /\
    is_digit d1 = true /\ is_digit d2 = true.

(** The number a digit, and a string of digits read from the left,
    stands for. *)
Definition digit_value (a : ascii) : Z := (Z.of_nat (nat_of_ascii a) - 48)%Z.

Fixpoint digits_value (acc : Z) (s : string) : Z :=
  match s with
  | EmptyString => acc
  | String a s' => digits_value (10 * acc + digit_value a) s'
  end.

(** [s] is written with two decimal places and stands for [n]
    hundredths, with a minus sign in front exactly when [neg]. *)
Definition denotes_hundredths (s : string) (neg : bool) (n : Z) : Prop :=
  exists (whole : string) (d1 d2 : ascii),
    s = ((if neg then "-" else "") ++ whole
         ++ String "." (String d1 (String d2 "")))%string /\
    whole <> "" /\ all_digits whole = true /\
    is_digit d1 = true /\ is_digit d2 = true /\
    n = (100 * digits_value 0 whole + 10 * digit_value d1 + digit_value d2)%Z.

(** [n] is the integer nearest to [q], and the even one of the two
    nearest when [q] lies halfway between them. *)
Definition nearest_even (q : Q) (n : Z) : Prop :=
  (Qabs (q - inject_Z n) <= 1 # 2)%Q /\
  ((Qabs (q - inject_Z n) == 1 # 2)%Q -> Z.even n = true).

(** The provider's table lacks one of the line items asked of it. *)
Definition omits (table : result DataFrame) (items : list string) : Prop :=
  exists df item, table = Ok df /\ In item items /\ ~ In item (index df).

(** Two providers answer alike on two handles. *)
Definition same_answers (P1 P2 : provider) (tk1 tk2 : Ticker) : Prop :=
  history P1 tk1 = history P2 tk2 /\ info P1 tk1 = info P2 tk2 /\
  financials P1 tk1 = financials P2 tk2 /\ balance_sheet P1 tk1 = balance_sheet P2 tk2.

(** Events that only show something on the page. *)
Definition is_output (e : event) : bool :=
  match e with
  | ETitle _ | EWrite _ | EDataframe _ | ELineChart _ | EMetric _ _ | EWarning _ => true
  | _ => false
  end.

Definition append_log (tr : list event) (w : world) : world :=
  mkWorld (clock w) (contacts w) (index_cache w) (stock_cache w) (table_cache w)
          (choice w) (clicked w) (log w ++ tr).

(** A computation that only shows things: it leaves the clock, the
    provider and the stores alone. *)
Definition renders {A} (m : M A) : Prop :=
  forall w, exists tr,
    snd (m w) = append_log tr w /\ forallb is_output tr = true.

(** The part of display_stock_dashboard that follows its two fetches:
    the emptiness check and what it lets through. *)
Definition render_stock (selected_stock : string) (stock_data : DataFrame)
    (metrics : gmap string pyval) (metr : DataFrame) : M unit :=
  if empty stock_data then st_warning "No stock data available."
  else
    st_write ("Data for " ++ selected_stock);;
    table ← lift (getitem_list stock_data ["Open"; "High"; "Low"; "Close"; "Volume"]);
    st_dataframe table;;
    st_title ("Financials for " ++ selected_stock);;
    st_dataframe metr;;
    st_metric "PE Ratio" (default (PStr "N/A") (metrics !! "PE Ratio"));;
    st_metric "Dividend Yield" (default (PStr "N/A") (metrics !! "Dividend Yield"));;
    st_metric "Beta" (default (PStr "N/A") (metrics !! "Beta"));;
    st_metric "Market Cap" (default (PStr "N/A") (metrics !! "Market Cap"));;
    chart ← lift (series_frame stock_data "Close");
    st_line_chart chart.

(** The part of display_index_dashboard that follows its fetch. *)
Definition render_index (selected_index : string) (index_data : DataFrame) : M unit :=
  if empty index_data then st_warning "No data available."
  else
    st_write ("Data for " ++ selected_index);;
    table ← lift (getitem_list index_data
               ["Open"; "High"; "Low"; "Close"; "Volume"; "SMA_20"; "EMA_20"; "Volatility"]);
    st_dataframe table;;
    chart ← lift (getitem_list index_data ["Close"; "SMA_20"; "EMA_20"]);
    st_line_chart chart.

(** What the user picked. *)
Definition selected_index (w : world) : string :=
  nth (choice w "Select an Index") ["^DJI"; "^GSPC"; "^IXIC"; "^RUT"] "^DJI".

Definition selected_stock (w : world) : string :=
  nth (choice w "Select a Stock") ["AAPL"; "MSFT"; "GOOGL"; "AMZN"; "TSLA"] "AAPL".

(** The world when a dashboard reaches its first fetch: the title is
    shown and, if the retry button was pressed, the stores are cleared. *)
Definition before_fetch (title button : string) (w : world) : world :=
  let w0 := emit (ETitle title) w in
  if clicked w button then snd (cache_clear w0) else w0.

Definition is_call (e : event) : bool :=
  match e with ECall _ _ => true | _ => false end.

(** A trace in which no decorated function is invoked. *)
Definition no_calls (tr : list event) : bool := forallb (fun e => negb (is_call e)) tr.

(** ** Sample providers *)

Definition sample_history : DataFrame :=
  mkFrame ["2024-01-02"; "2024-01-03"; "2024-01-04"]
    [("Open", [Some 100%Q; Some 101%Q; Some 103%Q]);
     ("High", [Some 102%Q; Some 104%Q; Some 105%Q]);
     ("Low", [Some 99%Q; Some 100%Q; Some 102%Q]);
     ("Close", [Some 101%Q; Some 103%Q; Some 104%Q]);
     ("Volume", [Some 5000%Q; Some 5200%Q; Some 4800%Q])].

Definition sample_info : gmap string pyval :=
  <["dividendYield" := PFloat (float_literal 123 10000)]>
    (<["beta" := PFloat (float_literal 12 10)]> ∅).

Definition sample_balance_sheet : DataFrame :=
  mkFrame ["Total Assets"; "Total Debt"; "Cash"]
    [("2023-09-30", [Some 352%Q; Some 111%Q; Some 30%Q]);
     ("2022-09-30", [Some 353%Q; Some 120%Q; Some 24%Q])].

Definition sample_financials : DataFrame :=
  mkFrame ["Total Revenue"; "EBITDA"; "Basic EPS"; "Operating Income"; "Operating Expense"]
    [("2023-09-30", [Some 383%Q; Some 126%Q; Some 6%Q; Some 114%Q; Some 55%Q]);
     ("2022-09-30", [Some 394%Q; Some 130%Q; Some 6%Q; Some 119%Q; Some 51%Q])].

(** The provider refuses every query. *)
Definition down : provider :=
  mkProvider (fun _ => Raise (ProviderError "Too Many Requests"))
             (fun _ => Raise (ProviderError "Too Many Requests"))
             (fun _ => Raise (ProviderError "Too Many Requests"))
             (fun _ => Raise (ProviderError "Too Many Requests")).

(** The provider answers every query. *)
Definition steady : provider :=
  mkProvider (fun _ => Ok sample_history) (fun _ => Ok sample_info)
             (fun _ => Ok sample_financials) (fun _ => Ok sample_balance_sheet).

(** The provider refuses the first handle and answers the later ones. *)
Definition flaky : provider :=
  mkProvider
    (fun tk => match contact tk with
               | O => Raise (ProviderError "Too Many Requests")
               | _ => Ok sample_history
               end)
    (fun _ => Ok sample_info)
    (fun _ => Ok sample_financials) (fun _ => Ok sample_balance_sheet).

(** The provider's balance sheet has no "Total Debt" line on the first
    handle. *)
Definition debt_free_once : provider :=
  mkProvider (fun _ => Ok sample_history) (fun _ => Ok sample_info)
    (fun _ => Ok sample_financials)
    (fun tk => match contact tk with
               | O => Ok (mkFrame ["Total Assets"; "Cash"]
                            [("2023-09-30", [Some 352%Q; Some 30%Q])])
               | _ => Ok sample_balance_sheet
               end).

(** The same world with one button pressed. *)
Definition press (button : string) (w : world) : world :=
  mkWorld (clock w) (contacts w) (index_cache w) (stock_cache w) (table_cache w)
          (choice w) (String.eqb button) (log w).

(** ** Further vocabulary *)

(** An [st.error] message. *)
Definition is_error (e : event) : bool :=
  match e with EError _ => true | _ => false end.

(** [df.loc[row, col]]: the cell at a row label and a column label (the
    first of each, if repeated); nothing when either label is absent. *)
Definition loc (df : DataFrame) (row col : string) : option cell :=
  match getitem df col, position row (index df) with
  | Ok cells, Some i => Some (nth_cell i cells)
  | _, _ => None
  end.

(** The label is carried once, and only once, among the labels [ls]. *)
Definition occurs_once (l : string) (ls : list string) : Prop :=
  length (List.filter (String.eqb l) ls) = 1%nat.

(** The values of a yield that are true and that the f-string cannot
    render: a non-empty string, a non-empty list or dictionary, and an
    integer whose product with 100 is too large for a float. *)
Definition unrenderable (v : pyval) : bool :=
  match v with
  | PStr s => negb (String.eqb s "")
  | PList [] => false
  | PList _ => true
  | PDict [] => false
  | PDict _ => true
  | PInt z => is_infinite (float_of_int (z * 100))
  | _ => false
  end.

(** The provider's summary gives the yield in words. *)
Definition worded_yield : provider :=
  mkProvider (fun _ => Ok sample_history)
    (fun _ => Ok (<["dividendYield" := PStr "1.23%"]> ∅))
    (fun _ => Ok sample_financials) (fun _ => Ok sample_balance_sheet).



(** The provider's history has closing prices and nothing else. *)
Definition close_only : provider :=
  mkProvider
    (fun _ => Ok (mkFrame ["2024-01-02"; "2024-01-03"]
                    [("Close", [Some 101%Q; Some 103%Q])]))
    (fun _ => Ok sample_info)
    (fun _ => Ok sample_financials) (fun _ => Ok sample_balance_sheet).

(** The columns the two dashboards show. *)
Definition index_columns : list string :=
  ["Open"; "High"; "Low"; "Close"; "Volume"; "SMA_20"; "EMA_20"; "Volatility"].

Definition stock_columns : list string := ["Open"; "High"; "Low"; "Close"; "Volume"].

(** The dashboard picked in the sidebar. *)
Definition selected_dashboard (w : world) : string :=
  nth (choice w "Choose a Dashboard") ["Industry Indices"; "Stocks"] "Industry Indices".

(** * Facts about the retry loop *)

Section RetryFacts.

Context {A : Type}.
Variable ticker : string.
Variable att : Ticker -> result A.
Variable warn : exn -> string.
Variable err : string.
Variable nothing : A.

Lemma retry_loop_run (attempts : list nat) (w : world) :
  retry_loop ticker att warn err nothing attempts w =
  (Ok (default nothing (first_success ticker att (length attempts) (contacts w))),
   loop_world ticker att warn err (length attempts) w).
Proof.
  revert w. induction attempts as [|a rest IH]; intros w.
  - unfold loop_world, loop_trace, closing_event. simpl.
    unfold retry_loop. simpl. unfold mbind, M_bind, st_error, emit. simpl.
    do 2 f_equal; [lia | lia].
  - unfold retry_loop in *. simpl for_attempts.
    unfold loop_world, loop_trace, closing_event. simpl.
    unfold mbind at 1. unfold M_bind at 1.
    unfold try_except, fmap, M_fmap, mbind, M_bind, yf_Ticker, lift. simpl.
    destruct (att (mkTicker ticker (contacts w))) as [v|e] eqn:Hatt.
    + simpl. unfold mret, M_ret, emit. simpl.
      do 2 f_equal; [lia | lia |].
      by rewrite Nat.add_0_r.
    + simpl. unfold st_warning, time_sleep, mret, M_ret. simpl.
      fold (retry_loop ticker att warn err nothing rest). unfold retry_loop. rewrite IH.
      unfold loop_world, loop_trace, closing_event, advance, emit. simpl.
      do 2 f_equal; [lia | lia |].
      rewrite <- !app_assoc. simpl.
      replace (contacts w + S (length (failures ticker att (length rest) (S (contacts w)))))%nat
        with (S (contacts w + length (failures ticker att (length rest) (S (contacts w)))))%nat by lia.
      reflexivity.
Qed.

Lemma first_success_Some (n c : nat) (v : A) :
  first_success ticker att n c = Some v ->
  exists k, (k < n)%nat /\ att (mkTicker ticker (c + k)) = Ok v /\
            length (failures ticker att n c) = k /\
            forall j, (j < k)%nat -> raised (att (mkTicker ticker (c + j))) = true.
Proof.
  revert c. induction n as [|n IH]; intros c H; simpl in H; [discriminate|].
  simpl. destruct (att (mkTicker ticker c)) as [v'|e] eqn:Hatt.
  - inversion H; subst. exists O. rewrite Nat.add_0_r.
    repeat split; [lia | done | intros j Hj; lia].
  - destruct (IH _ H) as (k & Hk & Hv & Hlen & Hbefore).
    exists (S k). replace (c + S k)%nat with (S c + k)%nat by lia.
    repeat split; [lia | done | simpl; lia |].
    intros [|j] Hj.
    + rewrite Nat.add_0_r, Hatt. reflexivity.
    + replace (c + S j)%nat with (S c + j)%nat by lia. apply Hbefore. lia.
Qed.

Lemma all_fail_first_success (n c : nat) :
  (forall k, (k < n)%nat -> raised (att (mkTicker ticker (c + k))) = true) ->
  first_success ticker att n c = None /\ length (failures ticker att n c) = n.
Proof.
  revert c. induction n as [|n IH]; intros c H; simpl; [done|].
  pose proof (H O ltac:(lia)) as H0. rewrite Nat.add_0_r in H0.
  destruct (att (mkTicker ticker c)); [discriminate|].
  destruct (IH (S c)) as [Hn Hl].
  - intros k Hk. replace (S c + k)%nat with (c + S k)%nat by lia. apply H. lia.
  - split; [done | simpl; lia].
Qed.

Lemma first_success_None (n c : nat) :
  first_success ticker att n c = None ->
  forall k, (k < n)%nat -> raised (att (mkTicker ticker (c + k))) = true.
Proof.
  revert c. induction n as [|n IH]; intros c H k Hk; [lia|].
  simpl in H. destruct (att (mkTicker ticker c)) eqn:Hatt; [discriminate|].
  destruct k as [|k].
  - by rewrite Nat.add_0_r, Hatt.
  - replace (c + S k)%nat with (S c + k)%nat by lia. apply IH; [done | lia].
Qed.

Lemma failures_length_le (n c : nat) : (length (failures ticker att n c) <= n)%nat.
Proof.
  revert c. induction n as [|n IH]; intros c; simpl; [lia|].
  destruct (att (mkTicker ticker c)); simpl; [lia|]. specialize (IH (S c)). lia.
Qed.

Lemma delays_failure_events (c : nat) (es : list exn) :
  delays (failure_events ticker warn c es) = repeat 60%Z (length es).
Proof.
  revert c. induction es as [|e es IH]; intros c; [done|].
  simpl. unfold delays in *. simpl. by rewrite IH.
Qed.

Lemma delays_app (tr1 tr2 : list event) :
  delays (tr1 ++ tr2) = delays tr1 ++ delays tr2.
Proof. unfold delays. apply omap_app. Qed.

Lemma delays_loop_trace (n c : nat) :
  delays (loop_trace ticker att warn err n c) = repeat 60%Z (length (failures ticker att n c)).
Proof.
  unfold loop_trace. rewrite delays_app, delays_failure_events.
  unfold closing_event. destruct (first_success ticker att n c); simpl; by rewrite app_nil_r.
Qed.

Lemma attempts_failure_events (c : nat) (es : list exn) :
  provider_attempts (failure_events ticker warn c es) = length es.
Proof.
  revert c. induction es as [|e es IH]; intros c; [done|].
  unfold provider_attempts in *. simpl. by rewrite IH.
Qed.

Lemma provider_attempts_app (tr1 tr2 : list event) :
  provider_attempts (tr1 ++ tr2) = (provider_attempts tr1 + provider_attempts tr2)%nat.
Proof. unfold provider_attempts. by rewrite List.filter_app, length_app. Qed.

Lemma attempts_loop_trace (n c : nat) :
  provider_attempts (loop_trace ticker att warn err n c) =
  (length (failures ticker att n c)
   + match first_success ticker att n c with Some _ => 1 | None => 0 end)%nat.
Proof.
  unfold loop_trace. rewrite provider_attempts_app, attempts_failure_events.
  unfold closing_event. by destruct (first_success ticker att n c).
Qed.

End RetryFacts.

(** * The fetch functions as runs of the loop *)

Lemma wrapped_run (P : provider) (f : fn_id) (ticker : string) (w : world) :
  wrapped P f ticker w = (Ok (outcome P f ticker (contacts w)), run_world P f ticker w).
Proof.
  destruct f; exact (retry_loop_run ticker _ _ _ _ (seq 0 5) w).
Qed.

Lemma fetch_unfold (P : provider) (f : fn_id) :
  fetch P f = cache_data f (store f) (set_store f) (wrapped P f).
Proof. by destruct f. Qed.

Lemma store_emit (f : fn_id) (e : event) (w : world) : store f (emit e w) = store f w.
Proof. by destruct f. Qed.

Lemma store_run_world (P : provider) (f g : fn_id) (ticker : string) (w : world) :
  store g (run_world P f ticker w) = store g w.
Proof. by destruct g. Qed.

Lemma store_set_store_eq (f : fn_id) (c : gmap string (payload f * Z)) (w : world) :
  store f (set_store f c w) = c.
Proof. by destruct f. Qed.

Lemma store_set_store_ne (f g : fn_id) (c : gmap string (payload f * Z)) (w : world) :
  f <> g -> store g (set_store f c w) = store g w.
Proof. by destruct f, g. Qed.

Lemma fetch_hit (P : provider) (f : fn_id) (ticker : string) (w : world) (v : payload f) :
  cache_hit (store f w) ticker (clock w) = Some v ->
  fetch P f ticker w = (Ok v, emit (ECall f ticker) w).
Proof.
  intros H. rewrite fetch_unfold. unfold cache_data.
  rewrite store_emit. simpl clock. by rewrite H.
Qed.

Lemma fetch_miss (P : provider) (f : fn_id) (ticker : string) (w : world) :
  cache_hit (store f w) ticker (clock w) = None ->
  fetch P f ticker w = (Ok (outcome P f ticker (contacts w)), miss_world P f ticker w).
Proof.
  intros H. rewrite fetch_unfold. unfold cache_data.
  rewrite store_emit. simpl clock. rewrite H, wrapped_run. reflexivity.
Qed.

Lemma log_set_store (f : fn_id) (c : gmap string (payload f * Z)) (w : world) :
  log (set_store f c w) = log w.
Proof. by destruct f. Qed.

Lemma contacts_set_store (f : fn_id) (c : gmap string (payload f * Z)) (w : world) :
  contacts (set_store f c w) = contacts w.
Proof. by destruct f. Qed.

Lemma clock_set_store (f : fn_id) (c : gmap string (payload f * Z)) (w : world) :
  clock (set_store f c w) = clock w.
Proof. by destruct f. Qed.

Lemma new_events_app (w w' : world) (tr : list event) :
  log w' = log w ++ tr -> new_events w w' = tr.
Proof. intros H. unfold new_events. rewrite H. apply drop_app_length. Qed.

Lemma log_miss_world (P : provider) (f : fn_id) (ticker : string) (w : world) :
  log (miss_world P f ticker w) =
  log w ++ ECall f ticker :: ERun f ticker :: run_trace P f ticker (contacts w).
Proof.
  unfold miss_world. rewrite log_set_store. unfold run_world, loop_world, run_trace.
  simpl. by rewrite <- !app_assoc.
Qed.

Lemma clock_miss_world (P : provider) (f : fn_id) (ticker : string) (w : world) :
  clock (miss_world P f ticker w) =
  (clock w + 60 * Z.of_nat (length (failures ticker (attempt P f) 5 (contacts w))))%Z.
Proof. unfold miss_world. by rewrite clock_set_store. Qed.

Lemma contacts_miss_world (P : provider) (f : fn_id) (ticker : string) (w : world) :
  contacts (miss_world P f ticker w) =
  (contacts w + length (failures ticker (attempt P f) 5 (contacts w))
   + match first_success ticker (attempt P f) 5 (contacts w) with
     | Some _ => 1 | None => 0 end)%nat.
Proof. unfold miss_world. by rewrite contacts_set_store. Qed.

(** Whatever the provider does, a fetch returns. *)
Lemma fetch_returns (P : provider) (f : fn_id) (ticker : string) (w : world) :
  exists v w', fetch P f ticker w = (Ok v, w').
Proof.
  destruct (cache_hit (store f w) ticker (clock w)) as [v|] eqn:H.
  - eexists _, _. by apply fetch_hit.
  - eexists _, _. by apply fetch_miss.
Qed.

(** * Exhausted retries *)

Lemma failure_events_snoc (ticker : string) (warn : exn -> string)
    (c : nat) (es : list exn) (e : exn) :
  failure_events ticker warn c (es ++ [e]) =
  failure_events ticker warn c es
  ++ [EAttempt ticker (c + length es); EWarning (warn e); ESleep 60].
Proof.
  revert c. induction es as [|e' es IH]; intros c; simpl.
  - by rewrite Nat.add_0_r.
  - rewrite IH. by replace (S c + length es)%nat with (c + S (length es))%nat by lia.
Qed.

Lemma exhausted_run (P : provider) (f : fn_id) (ticker : string) (c : nat) :
  (forall k, (k < 5)%nat -> raised (attempt P f (mkTicker ticker (c + k))) = true) ->
  outcome P f ticker c = sentinel f /\
  length (failures ticker (attempt P f) 5 c) = 5%nat /\
  exists tr msg,
    run_trace P f ticker c =
    tr ++ [EAttempt ticker (c + 4); EWarning msg; ESleep 60; EError (error_text f ticker)].
Proof.
  intros H. destruct (all_fail_first_success ticker (attempt P f) 5 c H) as [Hn Hl].
  unfold outcome, run_trace, loop_trace, closing_event. rewrite Hn.
  split; [done|]. split; [done|].
  destruct (failures ticker (attempt P f) 5 c) as [|e es] using rev_ind;
    [discriminate|].
  rewrite length_app in Hl. simpl in Hl.
  rewrite failure_events_snoc, <- app_assoc. simpl.
  replace (length es) with 4%nat by lia. eauto.
Qed.

(** C1, as the code has it: when the stored result cannot be used and the
    provider fails on all 5 attempts, each of the three fetch functions
    returns its empty result after exactly 5 delays of 60 seconds, one
    after each failed attempt: the last delay follows the fifth attempt
    and precedes the error message. *)
Theorem exhausted_fetch_five_delays (P : provider) (f : fn_id) (ticker : string)
    (w : world) :
  cache_hit (store f w) ticker (clock w) = None ->
  (forall k, (k < 5)%nat ->
     raised (attempt P f (mkTicker ticker (contacts w + k))) = true) ->
  fst (fetch P f ticker w) = Ok (sentinel f) /\
  delays (new_events w (snd (fetch P f ticker w))) = repeat 60%Z 5 /\
  provider_attempts (new_events w (snd (fetch P f ticker w))) = 5%nat /\
  clock (snd (fetch P f ticker w)) = (clock w + 300)%Z /\
  exists tr msg,
    new_events w (snd (fetch P f ticker w)) =
    tr ++ [EAttempt ticker (contacts w + 4); EWarning msg; ESleep 60;
           EError (error_text f ticker)].
Proof.
  intros Hmiss Hfail. rewrite (fetch_miss _ _ _ _ Hmiss). simpl fst. simpl snd.
  destruct (exhausted_run P f ticker (contacts w) Hfail) as (Hout & Hlen & tr & msg & Htr).
  rewrite (new_events_app _ _ _ (log_miss_world P f ticker w)).
  split; [by rewrite Hout|].
  split.
  { change (ECall f ticker :: ERun f ticker :: run_trace P f ticker (contacts w))
      with ([ECall f ticker; ERun f ticker] ++ run_trace P f ticker (contacts w)).
    rewrite delays_app. unfold run_trace. rewrite delays_loop_trace, Hlen. reflexivity. }
  split.
  { change (ECall f ticker :: ERun f ticker :: run_trace P f ticker (contacts w))
      with ([ECall f ticker; ERun f ticker] ++ run_trace P f ticker (contacts w)).
    rewrite provider_attempts_app. unfold run_trace. rewrite attempts_loop_trace, Hlen.
    destruct (all_fail_first_success ticker (attempt P f) 5 (contacts w) Hfail) as [-> _].
    reflexivity. }
  split.
  { rewrite clock_miss_world, Hlen. lia. }
  exists (ECall f ticker :: ERun f ticker :: tr), msg. by rewrite Htr.
Qed.

Lemma exhausted_fetch_five_delays_witness :
  fst (fetch down FetchIndex "^DJI" initial_world) = Ok (sentinel FetchIndex) /\
  delays (new_events initial_world (snd (fetch down FetchIndex "^DJI" initial_world)))
  = repeat 60%Z 5 /\
  provider_attempts
    (new_events initial_world (snd (fetch down FetchIndex "^DJI" initial_world))) = 5%nat /\
  clock (snd (fetch down FetchIndex "^DJI" initial_world)) = (clock initial_world + 300)%Z /\
  exists tr msg,
    new_events initial_world (snd (fetch down FetchIndex "^DJI" initial_world)) =
    tr ++ [EAttempt "^DJI" (contacts initial_world + 4); EWarning msg; ESleep 60;
           EError (error_text FetchIndex "^DJI")].
Proof.
  apply (exhausted_fetch_five_delays down FetchIndex "^DJI" initial_world).
  - reflexivity.
  - intros k Hk. reflexivity.
Defined.

(** C1 as the spec states it fails: with the provider down and nothing
    cached, fetch_index_data_safe sleeps five times, not four. *)
Lemma four_delays_refuted :
  cache_hit (index_cache initial_world) "^DJI" (clock initial_world) = None /\
  (forall k, (k < 5)%nat -> raised (index_attempt down (mkTicker "^DJI" k)) = true) /\
  fst (fetch_index_data_safe down "^DJI" initial_world) = Ok empty_frame /\
  delays (log (snd (fetch_index_data_safe down "^DJI" initial_world)))
  = [60; 60; 60; 60; 60]%Z /\
  delays (log (snd (fetch_index_data_safe down "^DJI" initial_world)))
  <> repeat 60%Z 4.
Proof.
  split; [reflexivity|]. split; [intros k Hk; reflexivity|].
  split; [reflexivity|]. split; [reflexivity|].
  vm_compute. discriminate.
Qed.

(** * No exception leaves the fetch layer *)

(** C2: whatever the provider does on each attempt (raise, or answer with
    any frame or mapping), each of the three fetch functions returns a
    value and raises nothing; and when all 5 attempts of a run fail, the
    value returned is the empty result (an empty frame, or an empty frame
    with an empty mapping). *)
Theorem no_exception_escapes (P : provider) (f : fn_id) (ticker : string) (w : world) :
  (exists v w', wrapped P f ticker w = (Ok v, w') /\
     ((forall k, (k < 5)%nat ->
         raised (attempt P f (mkTicker ticker (contacts w + k))) = true) ->
      v = sentinel f)) /\
  (exists v w', fetch P f ticker w = (Ok v, w') /\
     (cache_hit (store f w) ticker (clock w) = None ->
      (forall k, (k < 5)%nat ->
         raised (attempt P f (mkTicker ticker (contacts w + k))) = true) ->
      v = sentinel f)).
Proof.
  split.
  - eexists _, _. split; [apply wrapped_run|].
    intros H. by destruct (exhausted_run P f ticker (contacts w) H).
  - destruct (cache_hit (store f w) ticker (clock w)) as [v|] eqn:Hc.
    + eexists _, _. split; [by apply fetch_hit | done].
    + eexists _, _. split; [by apply fetch_miss|].
      intros _ H. by destruct (exhausted_run P f ticker (contacts w) H).
Qed.

Lemma no_exception_escapes_witness :
  (exists v w', fetch down MetricsTable "AAPL" initial_world = (Ok v, w') /\ v = empty_frame)
  /\ (exists v w', fetch flaky FetchStock "AAPL" initial_world = (Ok v, w')).
Proof.
  split.
  - destruct (no_exception_escapes down MetricsTable "AAPL" initial_world)
      as [_ (v & w' & Hrun & Hv)].
    exists v, w'. split; [exact Hrun|].
    apply Hv; [reflexivity | intros k Hk; reflexivity].
  - destruct (no_exception_escapes flaky FetchStock "AAPL" initial_world)
      as [_ (v & w' & Hrun & _)].
    exists v, w'. exact Hrun.
Defined.

(** * Two fetches in a row *)

Lemma body_runs_app (tr1 tr2 : list event) :
  body_runs (tr1 ++ tr2) = (body_runs tr1 + body_runs tr2)%nat.
Proof. unfold body_runs. by rewrite List.filter_app, length_app. Qed.

Lemma body_runs_failure_events (ticker : string) (warn : exn -> string)
    (c : nat) (es : list exn) :
  body_runs (failure_events ticker warn c es) = O.
Proof. revert c. induction es as [|e es IH]; intros c; [done|]. apply IH. Qed.

Lemma body_runs_run_trace (P : provider) (f : fn_id) (ticker : string) (c : nat) :
  body_runs (run_trace P f ticker c) = O.
Proof.
  unfold run_trace, loop_trace. rewrite body_runs_app, body_runs_failure_events.
  unfold closing_event. by destruct (first_success _ _ _ _).
Qed.

Lemma provider_attempts_run_trace (P : provider) (f : fn_id) (ticker : string) (c : nat) :
  (1 <= provider_attempts (run_trace P f ticker c) <= 5)%nat.
Proof.
  unfold run_trace. rewrite attempts_loop_trace.
  destruct (first_success ticker (attempt P f) 5 c) as [v|] eqn:H.
  - destruct (first_success_Some _ _ _ _ _ H) as (k & Hk & _ & Hlen & _). lia.
  - pose proof (first_success_None _ _ _ _ H) as Hall.
    destruct (all_fail_first_success _ _ _ _ Hall) as [_ Hlen]. lia.
Qed.

(** After a fetch the store holds the value returned, whether it was
    found there or just computed. *)
Lemma fetch_stores (P : provider) (f : fn_id) (ticker : string) (w : world) :
  exists v created,
    fst (fetch P f ticker w) = Ok v /\
    store f (snd (fetch P f ticker w)) !! ticker = Some (v, created).
Proof.
  destruct (cache_hit (store f w) ticker (clock w)) as [v|] eqn:Hc.
  - rewrite (fetch_hit _ _ _ _ _ Hc). simpl. rewrite store_emit.
    unfold cache_hit in Hc. destruct (store f w !! ticker) as [[v' c]|]; [|done].
    destruct (fresh (clock w) c); [|done]. inversion Hc; subst. eauto.
  - rewrite (fetch_miss _ _ _ _ Hc). simpl. unfold miss_world.
    rewrite store_set_store_eq, lookup_insert_eq. eauto.
Qed.

(** C3, as the code has it: after a fetch, a second fetch of the same
    function and symbol, made while the stored entry is at most 3600
    seconds old and has not been invalidated, runs nothing: it returns the
    stored result, equal to the first, without contacting the provider.
    The body of the function runs at most once over the two fetches, and
    that one run contacts the provider at most 5 times. *)
Theorem second_fetch_is_a_hit (P : provider) (f : fn_id) (ticker : string)
    (w w2 : world) :
  store f w2 !! ticker = store f (snd (fetch P f ticker w)) !! ticker ->
  (forall v created,
     store f (snd (fetch P f ticker w)) !! ticker = Some (v, created) ->
     (clock w2 - created <= ttl)%Z) ->
  exists v,
    fst (fetch P f ticker w) = Ok v /\
    fetch P f ticker w2 = (Ok v, emit (ECall f ticker) w2) /\
    provider_attempts (new_events w2 (snd (fetch P f ticker w2))) = O /\
    (body_runs (new_events w (snd (fetch P f ticker w)))
     + body_runs (new_events w2 (snd (fetch P f ticker w2))) <= 1)%nat /\
    (provider_attempts (new_events w (snd (fetch P f ticker w))) <= 5)%nat.
Proof.
  intros Hsame Hwindow.
  destruct (fetch_stores P f ticker w) as (v & created & Hv & Hentry).
  assert (Hhit : cache_hit (store f w2) ticker (clock w2) = Some v).
  { unfold cache_hit. rewrite Hsame, Hentry. unfold fresh.
    specialize (Hwindow _ _ Hentry).
    destruct (Z.leb_spec (clock w2 - created) ttl); [done | lia]. }
  exists v. split; [done|].
  rewrite (fetch_hit _ _ _ _ _ Hhit). split; [done|]. simpl snd.
  assert (Hnew2 : new_events w2 (emit (ECall f ticker) w2) = [ECall f ticker])
    by (by apply new_events_app).
  rewrite Hnew2. split; [done|].
  destruct (cache_hit (store f w) ticker (clock w)) as [v0|] eqn:Hc.
  - rewrite (fetch_hit _ _ _ _ _ Hc). simpl snd.
    assert (Hnew : new_events w (emit (ECall f ticker) w) = [ECall f ticker])
      by (by apply new_events_app).
    rewrite Hnew. unfold body_runs, provider_attempts. simpl. lia.
  - rewrite (fetch_miss _ _ _ _ Hc). simpl snd.
    rewrite (new_events_app _ _ _ (log_miss_world P f ticker w)).
    change (ECall f ticker :: ERun f ticker :: run_trace P f ticker (contacts w))
      with ([ECall f ticker; ERun f ticker] ++ run_trace P f ticker (contacts w)).
    rewrite body_runs_app, provider_attempts_app, body_runs_run_trace.
    pose proof (provider_attempts_run_trace P f ticker (contacts w)).
    change (body_runs [ECall f ticker; ERun f ticker]) with 1%nat.
    change (body_runs [ECall f ticker]) with 0%nat.
    change (provider_attempts [ECall f ticker; ERun f ticker]) with 0%nat. lia.
Qed.

Lemma second_fetch_is_a_hit_witness :
  exists v,
    fst (fetch flaky FetchIndex "^GSPC" initial_world) = Ok v /\
    fetch flaky FetchIndex "^GSPC"
      (advance 1800 (snd (fetch flaky FetchIndex "^GSPC" initial_world)))
    = (Ok v, emit (ECall FetchIndex "^GSPC")
               (advance 1800 (snd (fetch flaky FetchIndex "^GSPC" initial_world)))).
Proof.
  destruct (second_fetch_is_a_hit flaky FetchIndex "^GSPC" initial_world
              (advance 1800 (snd (fetch flaky FetchIndex "^GSPC" initial_world))))
    as (v & Hv & Hsecond & _).
  - reflexivity.
  - intros v created H. vm_compute in H. injection H as _ <-. vm_compute. discriminate.
  - exists v. split; [exact Hv | exact Hsecond].
Defined.

(** C3 as the spec states it fails: with a provider that refuses the first
    attempt and answers the second, two fetches of the same index within
    the hour contact the provider twice, both times in the first fetch. *)
Lemma two_contacts_in_two_fetches :
  let first := fetch_index_data_safe flaky "^GSPC" initial_world in
  let second := fetch_index_data_safe flaky "^GSPC" (advance 1800 (snd first)) in
  (clock (advance 1800 (snd first)) - clock initial_world <= ttl)%Z /\
  fst second = fst first /\
  provider_attempts (log (snd second)) = 2%nat /\
  ~ (provider_attempts (log (snd second)) <= 1)%nat.
Proof.
  split; [vm_compute; discriminate|].
  split; [reflexivity|].
  split; [reflexivity|].
  vm_compute. lia.
Qed.

(** * What the stores hold *)

Lemma outcome_produced (P : provider) (f : fn_id) (ticker : string) (c : nat) :
  produced P f ticker (outcome P f ticker c).
Proof.
  unfold outcome. destruct (first_success ticker (attempt P f) 5 c) as [v|] eqn:H.
  - destruct (first_success_Some _ _ _ _ _ H) as (k & _ & Hv & _). right. eauto.
  - by left.
Qed.

Lemma cache_sound_initial (P : provider) : cache_sound P initial_world.
Proof. intros f ticker v created H. by destruct f. Qed.

Lemma cache_sound_clear (P : provider) (w : world) : cache_sound P (snd (cache_clear w)).
Proof. intros f ticker v created H. by destruct f. Qed.

Lemma fetch_sound (P : provider) (f : fn_id) (ticker : string) (w : world) :
  cache_sound P w ->
  cache_sound P (snd (fetch P f ticker w)) /\
  forall v, fst (fetch P f ticker w) = Ok v -> produced P f ticker v.
Proof.
  intros Hs. destruct (cache_hit (store f w) ticker (clock w)) as [v|] eqn:Hc.
  - rewrite (fetch_hit _ _ _ _ _ Hc). simpl. split.
    + intros g t v' c. rewrite store_emit. apply Hs.
    + intros v' Hv. inversion Hv; subst. unfold cache_hit in Hc.
      destruct (store f w !! ticker) as [[v0 c]|] eqn:He; [|done].
      destruct (fresh (clock w) c); [|done]. inversion Hc; subst. by eapply Hs.
  - rewrite (fetch_miss _ _ _ _ Hc). simpl. split.
    + intros g t v' c. unfold miss_world.
      destruct (decide (f = g)) as [<-|Hne].
      * rewrite store_set_store_eq, store_run_world, !store_emit.
        destruct (decide (ticker = t)) as [<-|Ht].
        -- rewrite lookup_insert_eq. intros H. inversion H; subst.
           apply outcome_produced.
        -- rewrite lookup_insert_ne by done. apply Hs.
      * rewrite store_set_store_ne by done.
        rewrite store_run_world, !store_emit. apply Hs.
    + intros v' Hv. inversion Hv; subst. apply outcome_produced.
Qed.

(** * Frames: reading back what was written *)

Lemma has_label_eq (l : string) (col : list cell) : has_label l (l, col) = true.
Proof. unfold has_label. simpl. apply String.eqb_refl. Qed.

Lemma find_replace_column (l : string) (col : list cell) (cs : list (string * list cell)) :
  existsb (has_label l) cs = true ->
  List.find (has_label l) (replace_column l col cs) = Some (l, col).
Proof.
  induction cs as [|c cs IH]; simpl; [done|].
  destruct (has_label l c) eqn:Hc; simpl.
  - by rewrite has_label_eq.
  - rewrite Hc. exact IH.
Qed.

Lemma find_replace_column_ne (l l' : string) (col : list cell)
    (cs : list (string * list cell)) :
  l <> l' ->
  List.find (has_label l') (replace_column l col cs) = List.find (has_label l') cs.
Proof.
  intros Hne. induction cs as [|c cs IH]; simpl; [done|].
  destruct (has_label l c) eqn:Hc.
  - assert (Hl : has_label l' (l, col) = false).
    { unfold has_label. simpl. by apply String.eqb_neq. }
    assert (Hl' : has_label l' c = false).
    { unfold has_label in *. apply String.eqb_eq in Hc. rewrite Hc.
      by apply String.eqb_neq. }
    by rewrite Hl, Hl'.
  - by rewrite IH.
Qed.

Lemma find_app_none (l : string) (cs : list (string * list cell)) (col : list cell) :
  existsb (has_label l) cs = false ->
  List.find (has_label l) (cs ++ [(l, col)]) = Some (l, col).
Proof.
  induction cs as [|c cs IH]; simpl.
  - by rewrite has_label_eq.
  - destruct (has_label l c); [done | exact IH].
Qed.

Lemma find_app_other (l l' : string) (cs : list (string * list cell)) (col : list cell) :
  l <> l' ->
  List.find (has_label l') (cs ++ [(l, col)]) = List.find (has_label l') cs.
Proof.
  intros Hne. induction cs as [|c cs IH]; simpl.
  - unfold has_label. simpl. by apply String.eqb_neq in Hne as ->.
  - by destruct (has_label l' c).
Qed.

Lemma getitem_setitem_eq (df : DataFrame) (l : string) (col : list cell) :
  getitem (setitem df l col) l = Ok col.
Proof.
  unfold getitem, setitem. destruct (existsb (has_label l) (columns df)) eqn:He; simpl.
  - by rewrite find_replace_column.
  - by rewrite find_app_none.
Qed.

Lemma getitem_setitem_ne (df : DataFrame) (l l' : string) (col : list cell) :
  l <> l' -> getitem (setitem df l col) l' = getitem df l'.
Proof.
  intros Hne. unfold getitem, setitem.
  destruct (existsb (has_label l) (columns df)); simpl.
  - by rewrite find_replace_column_ne.
  - by rewrite find_app_other.
Qed.

(** A successful attempt of fetch_index_data_safe returns the provider's
    frame with the three derived columns computed from its closes. *)
Lemma index_attempt_columns (P : provider) (tk : Ticker) (df : DataFrame) :
  index_attempt P tk = Ok df ->
  exists hist close,
    history P tk = Ok hist /\ getitem hist "Close" = Ok close /\
    getitem df "Close" = Ok close /\
    getitem df "SMA_20" = Ok (rolling_mean 20 close) /\
    getitem df "EMA_20" = Ok (ewm_mean 20 close) /\
    getitem df "Volatility" = Ok (rolling_std 20 close).
Proof.
  unfold index_attempt. intros H.
  destruct (history P tk) as [hist|] eqn:Hh; [|done]. simpl in H.
  destruct (getitem hist "Close") as [close|] eqn:Hc; [|done]. simpl in H.
  rewrite getitem_setitem_ne, Hc in H by done. simpl in H.
  rewrite !getitem_setitem_ne, Hc in H by done. simpl in H.
  inversion H; subst. exists hist, close.
  split; [done|]. split; [done|].
  split; [by rewrite 3!getitem_setitem_ne by done|].
  split; [by rewrite 2!getitem_setitem_ne, getitem_setitem_eq by done|].
  split; [by rewrite getitem_setitem_ne, getitem_setitem_eq by done|].
  by rewrite getitem_setitem_eq.
Qed.

(** * Which derived cells are defined *)

Lemma length_observations (cells : list cell) :
  (length (observations cells) <= length cells)%nat.
Proof.
  unfold observations, omap.
  induction cells as [|[q|] cells IH]; simpl in *; lia.
Qed.

Lemma length_window (n i : nat) (xs : list cell) :
  (length (window n i xs) <= i + 1)%nat.
Proof. unfold window. rewrite length_drop, length_take. lia. Qed.

(** A rolling statistic over [n] rows has no value on the first [n-1]
    rows. *)
Lemma rolling_undefined (n : nat) (stat : list Q -> cell) (xs : list cell) (i : nat) :
  (i + 1 < n)%nat -> nth_cell i (rolling n stat xs) = None.
Proof.
  intros Hi. unfold nth_cell, rolling.
  destruct (Nat.lt_ge_cases i (length xs)) as [Hlt|Hge].
  - set (f := fun i0 => _).
    rewrite (nth_indep _ None (f O)) by (by rewrite length_map, length_seq).
    rewrite map_nth, seq_nth by done. subst f. simpl.
    pose proof (length_observations (window n i xs)).
    pose proof (length_window n i xs).
    destruct (Nat.leb_spec n (length (observations (window n i xs)))); [lia | done].
  - apply nth_overflow. by rewrite length_map, length_seq.
Qed.

Lemma ewm_mean_first_row (span : nat) (xs : list cell) :
  nth_cell 0 (ewm_mean span xs) = nth_cell 0 xs.
Proof. by destruct xs. Qed.

Lemma ewm_go_defined (alpha : Q) (xs : list cell) (w old_wt : Q) (i : nat) :
  (i < length xs)%nat -> is_Some (nth_cell i (ewm_go alpha (Some w) old_wt xs)).
Proof.
  revert w old_wt i. induction xs as [|cur rest IH]; intros w old_wt i Hi; simpl in Hi.
  - lia.
  - destruct cur as [c|]; simpl; destruct i as [|i]; simpl; eauto;
      apply IH; lia.
Qed.

Lemma ewm_go_from (alpha : Q) (xs : list cell) (old_wt : Q) (j i : nat) (q : Q) :
  nth_cell j xs = Some q -> (j <= i)%nat -> (i < length xs)%nat ->
  is_Some (nth_cell i (ewm_go alpha None old_wt xs)).
Proof.
  revert old_wt j i. induction xs as [|cur rest IH]; intros old_wt j i Hj Hji Hi;
    simpl in Hi; [lia|].
  destruct cur as [c|]; simpl.
  - destruct i as [|i]; simpl; [eauto|]. apply ewm_go_defined. lia.
  - destruct j as [|j]; [discriminate|]. destruct i as [|i]; [lia|].
    simpl. eapply IH; [exact Hj | lia | lia].
Qed.

(** The exponential average has a value on every row from the first
    observed close onward. *)
Lemma ewm_mean_defined (span : nat) (xs : list cell) (j i : nat) (q : Q) :
  nth_cell j xs = Some q -> (j <= i)%nat -> (i < length xs)%nat ->
  is_Some (nth_cell i (ewm_mean span xs)).
Proof.
  destruct xs as [|x rest]; intros Hj Hji Hi; simpl in Hi; [lia|].
  unfold ewm_mean. destruct i as [|i].
  - destruct j; [simpl in *; eauto | lia].
  - destruct x as [c|].
    + apply ewm_go_defined. lia.
    + destruct j as [|j]; [discriminate|].
      change (is_Some (nth_cell i (ewm_go (2 # Pos.of_nat (span + 1)) None 1%Q rest))).
      eapply ewm_go_from; [exact Hj | lia | lia].
Qed.

(** C5, as the code has it: in every series fetch_index_data_safe returns
    other than the empty one, SMA_20 and Volatility are undefined on each
    of the first 19 rows; EMA_20 is not: its first row is the first close,
    and it is defined on every row from the first defined close onward. *)
Theorem derived_columns_definedness (P : provider) (ticker : string) (w : world)
    (df : DataFrame) :
  cache_sound P w ->
  fst (fetch_index_data_safe P ticker w) = Ok df ->
  df <> empty_frame ->
  exists close sma ema vol,
    getitem df "Close" = Ok close /\
    getitem df "SMA_20" = Ok sma /\
    getitem df "EMA_20" = Ok ema /\
    getitem df "Volatility" = Ok vol /\
    (forall i, (i < 19)%nat -> nth_cell i sma = None /\ nth_cell i vol = None) /\
    nth_cell 0 ema = nth_cell 0 close /\
    (forall j i q, nth_cell j close = Some q -> (j <= i)%nat -> (i < length close)%nat ->
                   is_Some (nth_cell i ema)).
Proof.
  intros Hs Hrun Hne.
  destruct (fetch_sound P FetchIndex ticker w Hs) as [_ Hprod].
  destruct (Hprod df Hrun) as [Hempty | [c Hatt]]; [done|].
  destruct (index_attempt_columns P _ df Hatt)
    as (hist & close & _ & _ & Hclose & Hsma & Hema & Hvol).
  exists close, (rolling_mean 20 close), (ewm_mean 20 close), (rolling_std 20 close).
  repeat split; try done.
  - apply rolling_undefined. lia.
  - apply rolling_undefined. lia.
  - apply ewm_mean_first_row.
  - apply ewm_mean_defined.
Qed.

Lemma derived_columns_definedness_witness :
  exists close sma ema vol,
    getitem (outcome steady FetchIndex "^GSPC" 0) "Close" = Ok close /\
    getitem (outcome steady FetchIndex "^GSPC" 0) "SMA_20" = Ok sma /\
    getitem (outcome steady FetchIndex "^GSPC" 0) "EMA_20" = Ok ema /\
    getitem (outcome steady FetchIndex "^GSPC" 0) "Volatility" = Ok vol /\
    (forall i, (i < 19)%nat -> nth_cell i sma = None /\ nth_cell i vol = None) /\
    nth_cell 0 ema = nth_cell 0 close /\
    (forall j i q, nth_cell j close = Some q -> (j <= i)%nat -> (i < length close)%nat ->
                   is_Some (nth_cell i ema)).
Proof.
  apply (derived_columns_definedness steady "^GSPC" initial_world).
  - apply cache_sound_initial.
  - reflexivity.
  - vm_compute. discriminate.
Defined.

(** C5 as the spec states it fails for EMA_20: on the sample history the
    first row of EMA_20, one of the first 19 rows, holds the first close. *)
Lemma ema_defined_on_first_row :
  exists df ema,
    fst (fetch_index_data_safe steady "^GSPC" initial_world) = Ok df /\
    getitem df "EMA_20" = Ok ema /\
    (0 < 19)%nat /\
    nth_cell 0 ema = Some 101%Q /\
    nth_cell 0 ema <> None.
Proof.
  eexists _, _. split; [reflexivity|]. split; [reflexivity|].
  split; [lia|]. split; [reflexivity | discriminate].
Qed.

(** * The metrics mapping *)

Lemma stock_attempt_inv (P : provider) (tk : Ticker) (hist : DataFrame)
    (metrics : gmap string pyval) :
  stock_attempt P tk = Ok (hist, metrics) ->
  exists summary dy,
    history P tk = Ok hist /\ info P tk = Ok summary /\
    dividend_yield_entry summary = Ok dy /\
    metrics =
      <["Market Cap" := default (PStr "N/A") (summary !! "marketCap")]>
      (<["Beta" := default (PStr "N/A") (summary !! "beta")]>
      (<["Dividend Yield" := dy]>
      (<["PE Ratio" := default (PStr "N/A") (summary !! "trailingPE")]> ∅))).
Proof.
  unfold stock_attempt, stock_metrics. intros H.
  destruct (history P tk) as [h|]; [|done]. simpl in H.
  destruct (info P tk) as [summary|]; [|done]. simpl in H.
  destruct (dividend_yield_entry summary) as [dy|] eqn:Hdy; [|done]. simpl in H.
  inversion H; subst. eauto 10.
Qed.

Lemma dividend_yield_float (summary : gmap string pyval) (y : spec_float) :
  summary !! "dividendYield" = Some (PFloat y) -> truthy (PFloat y) = true ->
  dividend_yield_entry summary
  = Ok (PStr (float_format_2f (float_mul y (float_of_int 100)) ++ "%")).
Proof.
  intros Hy Ht. unfold dividend_yield_entry. rewrite Hy.
  change (truthy (default PNone (Some (PFloat y)))) with (truthy (PFloat y)).
  by rewrite Ht.
Qed.

Lemma dividend_yield_int (summary : gmap string pyval) (z : Z) :
  summary !! "dividendYield" = Some (PInt z) -> z <> 0%Z ->
  is_infinite (float_of_int (z * 100)) = false ->
  dividend_yield_entry summary
  = Ok (PStr (float_format_2f (float_of_int (z * 100)) ++ "%")).
Proof.
  intros Hz Hnz Hfin. unfold dividend_yield_entry. rewrite Hz.
  change (truthy (default PNone (Some (PInt z)))) with (negb (z =? 0)%Z).
  destruct (Z.eqb_spec z 0); [done|].
  change (negb false) with true. cbv iota.
  change (py_mul_100 (default (PInt 0) (Some (PInt z)))) with (Ok (PInt (z * 100))).
  change (Ok (PInt (z * 100)) ≫= ?k) with (k (PInt (z * 100))). cbv beta.
  change (py_format_2f (PInt (z * 100))) with (int_format_2f (z * 100)).
  unfold int_format_2f. by rewrite Hfin.
Qed.

Lemma dividend_yield_falsy (summary : gmap string pyval) (v : pyval) :
  summary !! "dividendYield" = Some v -> truthy v = false ->
  dividend_yield_entry summary = Ok (PStr "N/A").
Proof.
  intros Hv Ht. unfold dividend_yield_entry. rewrite Hv.
  change (truthy (default PNone (Some v))) with (truthy v). by rewrite Ht.
Qed.

Lemma dividend_yield_missing (summary : gmap string pyval) :
  summary !! "dividendYield" = None \/ summary !! "dividendYield" = Some PNone ->
  dividend_yield_entry summary = Ok (PStr "N/A").
Proof. unfold dividend_yield_entry. by intros [-> | ->]. Qed.

(** C4, as the code has it: the mapping fetch_stock_data_safe returns is
    either the empty mapping, returned with the empty frame when the
    attempts run out, or the mapping built by a successful attempt, which
    has exactly the four keys 'PE Ratio', 'Dividend Yield', 'Beta' and
    'Market Cap'; there 'PE Ratio', 'Beta' and 'Market Cap' hold the
    provider's value, or 'N/A' when the provider's summary has no such
    key, and 'Dividend Yield' holds 'N/A' when the summary has no yield.
    When nothing usable is stored and all 5 attempts fail, the mapping
    is the empty one. *)
Theorem metrics_keys_or_empty (P : provider) (ticker : string) (w : world)
    (hist : DataFrame) (metrics : gmap string pyval) :
  cache_sound P w ->
  fst (fetch_stock_data_safe P ticker w) = Ok (hist, metrics) ->
  ((hist = empty_frame /\ metrics = ∅) \/
   (exists c summary,
      info P (mkTicker ticker c) = Ok summary /\
      dom metrics = {[ "PE Ratio"; "Dividend Yield"; "Beta"; "Market Cap" ]} /\
      metrics !! "PE Ratio" = Some (default (PStr "N/A") (summary !! "trailingPE")) /\
      metrics !! "Beta" = Some (default (PStr "N/A") (summary !! "beta")) /\
      metrics !! "Market Cap" = Some (default (PStr "N/A") (summary !! "marketCap")) /\
      is_Some (metrics !! "Dividend Yield") /\
      (summary !! "dividendYield" = None ->
       metrics !! "Dividend Yield" = Some (PStr "N/A")))) /\
  (cache_hit (stock_cache w) ticker (clock w) = None ->
   (forall k, (k < 5)%nat ->
      raised (stock_attempt P (mkTicker ticker (contacts w + k))) = true) ->
   metrics = ∅).
Proof.
  intros Hs Hrun. split.
  - destruct (fetch_sound P FetchStock ticker w Hs) as [_ Hprod].
    destruct (Hprod (hist, metrics) Hrun) as [Hempty | [c Hatt]].
    + left. by inversion Hempty.
    + right. destruct (stock_attempt_inv P _ _ _ Hatt)
        as (summary & dy & _ & Hinfo & Hdy & ->).
      exists c, summary. split; [done|].
      split; [rewrite !dom_insert_L, dom_empty_L; set_solver|].
      split; [by rewrite !lookup_insert_ne, lookup_insert_eq by done|].
      split; [by rewrite lookup_insert_ne, lookup_insert_eq by done|].
      split; [by rewrite lookup_insert_eq|].
      split; [by rewrite 2!lookup_insert_ne, lookup_insert_eq by done|].
      intros Hnone. rewrite 2!lookup_insert_ne, lookup_insert_eq by done.
      rewrite dividend_yield_missing in Hdy by auto. by inversion Hdy.
  - intros Hmiss Hfail.
    change (fst (fetch P FetchStock ticker w) = Ok (hist, metrics)) in Hrun.
    rewrite (fetch_miss P FetchStock ticker w Hmiss) in Hrun.
    destruct (exhausted_run P FetchStock ticker (contacts w) Hfail) as [Hout _].
    change (Ok (outcome P FetchStock ticker (contacts w)) = Ok (hist, metrics)) in Hrun.
    rewrite Hout in Hrun. by inversion Hrun.
Qed.

Lemma metrics_keys_or_empty_witness :
  ((fst (outcome steady FetchStock "AAPL" 0) = empty_frame /\
    snd (outcome steady FetchStock "AAPL" 0) = ∅) \/
   (exists c summary,
      info steady (mkTicker "AAPL" c) = Ok summary /\
      dom (snd (outcome steady FetchStock "AAPL" 0))
      = {[ "PE Ratio"; "Dividend Yield"; "Beta"; "Market Cap" ]} /\
      snd (outcome steady FetchStock "AAPL" 0) !! "PE Ratio"
      = Some (default (PStr "N/A") (summary !! "trailingPE")) /\
      snd (outcome steady FetchStock "AAPL" 0) !! "Beta"
      = Some (default (PStr "N/A") (summary !! "beta")) /\
      snd (outcome steady FetchStock "AAPL" 0) !! "Market Cap"
      = Some (default (PStr "N/A") (summary !! "marketCap")) /\
      is_Some (snd (outcome steady FetchStock "AAPL" 0) !! "Dividend Yield") /\
      (summary !! "dividendYield" = None ->
       snd (outcome steady FetchStock "AAPL" 0) !! "Dividend Yield"
       = Some (PStr "N/A")))).
Proof.
  apply (metrics_keys_or_empty steady "AAPL" initial_world
           (fst (outcome steady FetchStock "AAPL" 0))
           (snd (outcome steady FetchStock "AAPL" 0))).
  - apply cache_sound_initial.
  - reflexivity.
Defined.

(** C4 as the spec states it fails: with the provider down, the mapping
    returned has no 'PE Ratio' key (nor any other). *)
Lemma no_keys_when_exhausted :
  (forall k, (k < 5)%nat -> raised (stock_attempt down (mkTicker "AAPL" k)) = true) /\
  exists hist metrics,
    fst (fetch_stock_data_safe down "AAPL" initial_world) = Ok (hist, metrics) /\
    metrics !! "PE Ratio" = None /\
    ~ is_Some (metrics !! "PE Ratio").
Proof.
  split; [intros k Hk; reflexivity|].
  eexists _, _. split; [reflexivity|]. split; [reflexivity|].
  intros [v Hv]. vm_compute in Hv. discriminate.
Qed.

(** * The rendering of the dividend yield *)

Lemma float_of_int_100 : float_of_int 100 = S754_finite false 7036874417766400 (-46).
Proof. reflexivity. Qed.

Lemma all_digits_uint (d : uint) : all_digits (NilEmpty.string_of_uint d) = true.
Proof. induction d; simpl; auto. Qed.

Lemma decimal_of_Z_digits (z : Z) :
  decimal_of_Z z <> "" /\ all_digits (decimal_of_Z z) = true.
Proof.
  unfold decimal_of_Z, NilZero.string_of_uint.
  destruct (N.to_uint (Z.to_N z)) as [|d|d|d|d|d|d|d|d|d|d] eqn:E;
    (split; [discriminate | try reflexivity]);
    rewrite <- E; apply all_digits_uint.
Qed.

Lemma digit_char_is_digit (d : Z) : (0 <= d < 10)%Z -> is_digit (digit_char d) = true.
Proof.
  intros H.
  assert (Hd : (d = 0 \/ d = 1 \/ d = 2 \/ d = 3 \/ d = 4 \/ d = 5 \/ d = 6
                \/ d = 7 \/ d = 8 \/ d = 9)%Z) by lia.
  repeat (destruct Hd as [-> | Hd]; [reflexivity|]). by subst.
Qed.

Lemma digit_value_char (d : Z) : (0 <= d < 10)%Z -> digit_value (digit_char d) = d.
Proof.
  intros H.
  assert (Hd : (d = 0 \/ d = 1 \/ d = 2 \/ d = 3 \/ d = 4 \/ d = 5 \/ d = 6
                \/ d = 7 \/ d = 8 \/ d = 9)%Z) by lia.
  repeat (destruct Hd as [-> | Hd]; [reflexivity|]). by subst.
Qed.

(** Reading back what the library writes. *)
Lemma digits_value_of_uint_acc (d : uint) (acc : positive) :
  digits_value (Z.pos acc) (NilEmpty.string_of_uint d) = Z.pos (Pos.of_uint_acc d acc).
Proof.
  revert acc. induction d; intros acc; simpl; try reflexivity;
    rewrite <- IHd; f_equal;
    match goal with
    | |- context [digit_value ?c] =>
        let v := eval vm_compute in (digit_value c) in change (digit_value c) with v
    end; lia.
Qed.

Lemma digits_value_of_uint (d : uint) :
  digits_value 0 (NilEmpty.string_of_uint d) = Z.of_N (Pos.of_uint d).
Proof.
  induction d; simpl; try reflexivity; try exact IHd;
    rewrite <- digits_value_of_uint_acc; reflexivity.
Qed.

Lemma digits_value_decimal (z : Z) : (0 <= z)%Z -> digits_value 0 (decimal_of_Z z) = z.
Proof.
  intros Hz. unfold decimal_of_Z, NilZero.string_of_uint.
  assert (H : digits_value 0 (NilEmpty.string_of_uint (N.to_uint (Z.to_N z))) = z).
  { rewrite digits_value_of_uint.
    change (Pos.of_uint (N.to_uint (Z.to_N z))) with (N.of_uint (N.to_uint (Z.to_N z))).
    rewrite DecimalN.Unsigned.of_to. lia. }
  destruct (N.to_uint (Z.to_N z)); exact H.
Qed.

Lemma hundredths_denotes (neg : bool) (n : Z) :
  (0 <= n)%Z -> denotes_hundredths (hundredths neg n) neg n.
Proof.
  intros Hn. unfold hundredths.
  exists (decimal_of_Z (n / 100)), (digit_char (n mod 100 / 10)), (digit_char (n mod 10)).
  destruct (decimal_of_Z_digits (n / 100)) as [Hne Hall].
  assert (H1 : (0 <= n mod 100 / 10 < 10)%Z).
  { pose proof (Z.mod_pos_bound n 100 ltac:(lia)).
    split; [apply Z.div_pos; lia | apply Z.div_lt_upper_bound; lia]. }
  assert (H0 : (0 <= n mod 10 < 10)%Z) by (apply Z.mod_pos_bound; lia).
  split; [done|]. split; [done|]. split; [done|].
  split; [by apply digit_char_is_digit|]. split; [by apply digit_char_is_digit|].
  rewrite digits_value_decimal by (apply Z.div_pos; lia).
  rewrite !digit_value_char by done.
  clear. Z.div_mod_to_equations. lia.
Qed.

Lemma denotes_two_decimals (s : string) (neg : bool) (n : Z) :
  denotes_hundredths s neg n -> two_decimals s.
Proof.
  intros (whole & d1 & d2 & -> & Hne & Hall & H1 & H2 & _).
  exists (if neg then "-" else ""), whole, d1, d2.
  split; [done|]. split; [destruct neg; auto | done].
Qed.

(** The rounding of the format is to the nearest, ties to even. *)
Lemma round_half_even_nearest (q : Q) : nearest_even q (round_half_even q).
Proof.
  destruct q as [n d]. unfold nearest_even, round_half_even. cbn [Qnum Qden].
  pose proof (Z.div_mod n (Z.pos d) ltac:(lia)) as Hdm.
  pose proof (Z.mod_pos_bound n (Z.pos d) ltac:(lia)) as Hb.
  set (fl := (n / Z.pos d)%Z) in *. set (r := (n mod Z.pos d)%Z) in *.
  assert (Habs : forall k : Z,
            (Qabs ((n # d) - inject_Z k) == Z.abs (n - k * Z.pos d) # d)%Q).
  { intros k. rewrite <- (Qabs_wd ((n - k * Z.pos d) # d)); [reflexivity|].
    unfold Qeq, Qminus, Qplus, Qopp, inject_Z. simpl. lia. }
  assert (Hle : forall k : Z, (Qabs ((n # d) - inject_Z k) <= 1 # 2)%Q
                              <-> (2 * Z.abs (n - k * Z.pos d) <= Z.pos d)%Z).
  { intros k. rewrite (Habs k). unfold Qle. simpl. lia. }
  assert (Heq : forall k : Z, (Qabs ((n # d) - inject_Z k) == 1 # 2)%Q
                              <-> (2 * Z.abs (n - k * Z.pos d) = Z.pos d)%Z).
  { intros k. rewrite (Habs k). unfold Qeq. simpl. lia. }
  destruct (Z.ltb_spec (2 * r) (Z.pos d)) as [Hlt|Hge].
  - split; [apply Hle; lia|]. intros H. apply Heq in H. lia.
  - destruct (Z.ltb_spec (Z.pos d) (2 * r)) as [Hgt|Hle'].
    + split; [apply Hle; lia|]. intros H. apply Heq in H. lia.
    + destruct (Z.even fl) eqn:He.
      * split; [apply Hle; lia | done].
      * split; [apply Hle; lia|]. intros _.
        rewrite Z.even_add, He. reflexivity.
Qed.

Lemma round_half_even_nonneg (q : Q) : (0 <= q)%Q -> (0 <= round_half_even q)%Z.
Proof.
  destruct q as [n d]. unfold Qle, round_half_even. cbn [Qnum Qden]. intros H.
  assert (Hn : (0 <= n)%Z) by lia.
  pose proof (Z.div_pos n (Z.pos d) Hn ltac:(lia)).
  repeat destruct (_ <? _)%Z; try destruct (Z.even _); lia.
Qed.

Lemma float_magnitude_nonneg (m : positive) (e : Z) : (0 <= float_magnitude m e * 100)%Q.
Proof.
  unfold float_magnitude. destruct e; unfold Qle, Qmult, inject_Z; simpl; try lia.
Qed.

(** The format of a finite float: its exact value, rounded to the
    nearest hundredth, written with two decimals. *)
Lemma float_format_2f_finite (neg : bool) (m : positive) (e : Z) :
  exists n,
    denotes_hundredths (float_format_2f (S754_finite neg m e)) neg n /\
    nearest_even (float_magnitude m e * 100) n.
Proof.
  exists (round_half_even (float_magnitude m e * 100)). split.
  - apply hundredths_denotes, round_half_even_nonneg, float_magnitude_nonneg.
  - apply round_half_even_nearest.
Qed.

Lemma finite_product_truthy (y : spec_float) (neg : bool) (m : positive) (e : Z) :
  float_mul y (float_of_int 100) = S754_finite neg m e -> truthy (PFloat y) = true.
Proof.
  rewrite float_of_int_100. destruct y as [s|s| |s my ey]; [| | |done];
    unfold float_mul, SFmul; discriminate.
Qed.

Lemma finite_float_of_int (z : Z) (neg : bool) (m : positive) (e : Z) :
  float_of_int (z * 100) = S754_finite neg m e ->
  z <> 0%Z /\ is_infinite (float_of_int (z * 100)) = false.
Proof.
  intros H. split.
  - intros ->. discriminate H.
  - by rewrite H.
Qed.

(** The products and the ties are Python's: 0.01015 * 100 is the float
    just below 1.015, 0.00065 * 100 the float just above 0.065, and
    0.00125 * 100 is 0.125 exactly, a tie that goes to the even
    hundredth. *)
Lemma float_format_2f_examples :
  float_format_2f (float_mul (float_literal 1015 100000) (float_of_int 100)) = "1.01" /\
  float_format_2f (float_mul (float_literal 65 100000) (float_of_int 100)) = "0.07" /\
  float_format_2f (float_mul (float_literal 125 100000) (float_of_int 100)) = "0.12" /\
  float_format_2f (float_mul (float_literal (-1) 100000) (float_of_int 100)) = "-0.00".
Proof. repeat split; reflexivity. Qed.

(** Outside the finite products: NaN and the infinities are true, and
    are formatted as Python formats them; so is a product that
    overflows. *)
Lemma dividend_yield_not_finite (summary : gmap string pyval) :
  (summary !! "dividendYield" = Some (PFloat S754_nan) ->
   dividend_yield_entry summary = Ok (PStr "nan%")) /\
  (forall neg, summary !! "dividendYield" = Some (PFloat (S754_infinity neg)) ->
   dividend_yield_entry summary = Ok (PStr (if neg then "-inf%" else "inf%"))) /\
  float_format_2f (float_mul (float_of_int (10 ^ 307)) (float_of_int 100)) = "inf".
Proof.
  split; [|split; [|reflexivity]].
  - intros Hy. by rewrite (dividend_yield_float _ _ Hy).
  - intros neg Hy. rewrite (dividend_yield_float _ _ Hy) by done. by destruct neg.
Qed.

(** C6: in every result of fetch_stock_data_safe other than the empty
    one, the 'Dividend Yield' entry follows the provider's raw yield y.
    When y*100, the product Python computes (of floats for a float y, of
    integers for an integer y), is a finite non-zero float, the entry is
    that product rounded to the nearest hundredth, ties to even, written
    with exactly two decimal places and a percent sign (0.0123 gives
    '1.23%'); a missing, None or zero yield gives 'N/A'. *)
Theorem dividend_yield_rendering (P : provider) (ticker : string) (w : world)
    (hist : DataFrame) (metrics : gmap string pyval) :
  cache_sound P w ->
  fst (fetch_stock_data_safe P ticker w) = Ok (hist, metrics) ->
  (hist, metrics) <> (empty_frame, ∅) ->
  (exists c summary,
     info P (mkTicker ticker c) = Ok summary /\
     (forall y neg m e,
        summary !! "dividendYield" = Some (PFloat y) ->
        float_mul y (float_of_int 100) = S754_finite neg m e ->
        exists s n,
          metrics !! "Dividend Yield" = Some (PStr (s ++ "%")) /\
          two_decimals s /\ denotes_hundredths s neg n /\
          nearest_even (float_magnitude m e * 100) n) /\
     (forall z neg m e,
        summary !! "dividendYield" = Some (PInt z) ->
        float_of_int (z * 100) = S754_finite neg m e ->
        exists s n,
          metrics !! "Dividend Yield" = Some (PStr (s ++ "%")) /\
          two_decimals s /\ denotes_hundredths s neg n /\
          nearest_even (float_magnitude m e * 100) n) /\
     (summary !! "dividendYield" = None \/
      summary !! "dividendYield" = Some PNone \/
      summary !! "dividendYield" = Some (PInt 0) \/
      (exists neg, summary !! "dividendYield" = Some (PFloat (S754_zero neg))) ->
      metrics !! "Dividend Yield" = Some (PStr "N/A"))) /\
  (float_format_2f (float_mul (float_literal 123 10000) (float_of_int 100)) ++ "%")%string
  = "1.23%".
Proof.
  intros Hs Hrun Hne. split; [|reflexivity].
  destruct (fetch_sound P FetchStock ticker w Hs) as [_ Hprod].
  destruct (Hprod (hist, metrics) Hrun) as [Hempty | [c Hatt]]; [done|].
  destruct (stock_attempt_inv P _ _ _ Hatt) as (summary & dy & _ & Hinfo & Hdy & ->).
  exists c, summary. split; [done|].
  rewrite 2!lookup_insert_ne, lookup_insert_eq by done.
  split; [|split].
  - intros y neg m e Hy Hp.
    rewrite (dividend_yield_float _ _ Hy (finite_product_truthy _ _ _ _ Hp)), Hp in Hdy.
    inversion Hdy; subst.
    destruct (float_format_2f_finite neg m e) as (n & Hden & Hnear).
    exists (float_format_2f (S754_finite neg m e)), n.
    split; [done|]. split; [by eapply denotes_two_decimals | by split].
  - intros z neg m e Hz Hp.
    destruct (finite_float_of_int _ _ _ _ Hp) as [Hnz Hfin].
    rewrite (dividend_yield_int _ _ Hz Hnz Hfin), Hp in Hdy.
    inversion Hdy; subst.
    destruct (float_format_2f_finite neg m e) as (n & Hden & Hnear).
    exists (float_format_2f (S754_finite neg m e)), n.
    split; [done|]. split; [by eapply denotes_two_decimals | by split].
  - intros Hm.
    assert (Hna : dividend_yield_entry summary = Ok (PStr "N/A")).
    { destruct Hm as [Hm | [Hm | [Hm | [neg Hm]]]].
      - apply dividend_yield_missing. by left.
      - apply dividend_yield_missing. by right.
      - by apply (dividend_yield_falsy _ _ Hm).
      - by apply (dividend_yield_falsy _ _ Hm). }
    rewrite Hna in Hdy. by inversion Hdy.
Qed.

Lemma dividend_yield_rendering_witness :
  snd (outcome steady FetchStock "AAPL" 0) !! "Dividend Yield" = Some (PStr "1.23%") /\
  exists s n,
    snd (outcome steady FetchStock "AAPL" 0) !! "Dividend Yield" = Some (PStr (s ++ "%")) /\
    two_decimals s /\ denotes_hundredths s false n /\
    nearest_even (float_magnitude 5539427541665710 (-52) * 100) n.
Proof.
  split; [reflexivity|].
  destruct (dividend_yield_rendering steady "AAPL" initial_world
              (fst (outcome steady FetchStock "AAPL" 0))
              (snd (outcome steady FetchStock "AAPL" 0)))
    as [(c & summary & Hinfo & Hfloat & _) _].
  - apply cache_sound_initial.
  - reflexivity.
  - vm_compute. discriminate.
  - injection Hinfo as <-.
    apply (Hfloat (float_literal 123 10000) false 5539427541665710%positive (-52)%Z);
      reflexivity.
Defined.

(** * The financial snapshot *)

Lemma column_labels_transpose (df : DataFrame) :
  column_labels (transpose df) = index df.
Proof.
  unfold column_labels, transpose. simpl. rewrite map_map. simpl.
  generalize 0%nat. induction (index df) as [|r rs IH]; intros s; simpl; [done|].
  by rewrite IH.
Qed.

Lemma filter_has_label (l : string) (cs : list (string * list cell)) :
  Forall (fun c => fst c = l) (List.filter (has_label l) cs).
Proof.
  apply List.Forall_forall. intros c Hc. apply List.filter_In in Hc as [_ Hc].
  unfold has_label in Hc. by apply String.eqb_eq.
Qed.

Lemma filter_has_label_nil (l : string) (cs : list (string * list cell)) :
  ~ In l (map fst cs) -> List.filter (has_label l) cs = [].
Proof.
  intros Hl. induction cs as [|c cs IH]; simpl in *; [done|].
  destruct (has_label l c) eqn:Hc.
  - unfold has_label in Hc. apply String.eqb_eq in Hc. tauto.
  - apply IH. tauto.
Qed.

Lemma select_columns_labels (cs : list (string * list cell)) (labels : list string)
    (found : list (string * list cell)) :
  select_columns cs labels = Ok found ->
  forall l, In l labels -> In l (map fst found).
Proof.
  revert found. induction labels as [|l0 ls IH]; intros found H l Hl; [done|].
  simpl in H.
  pose proof (filter_has_label l0 cs) as Hall.
  destruct (List.filter (has_label l0) cs) as [|c cs0] eqn:Hf; [done|].
  destruct (select_columns cs ls) as [rest|] eqn:Hrest; [|done].
  simpl in H. inversion H; subst.
  change (In l (map fst ((c :: cs0) ++ rest))). rewrite map_app, in_app_iff.
  destruct Hl as [<- | Hl].
  - left. simpl. left. by inversion Hall.
  - right. by eapply IH.
Qed.

Lemma select_columns_missing (cs : list (string * list cell)) (labels : list string)
    (l : string) :
  In l labels -> ~ In l (map fst cs) -> raised (select_columns cs labels) = true.
Proof.
  intros Hl Hmiss. induction labels as [|l0 ls IH]; [done|]. simpl.
  destruct (List.filter (has_label l0) cs) as [|c cs0] eqn:Hf; [done|].
  destruct Hl as [-> | Hl].
  - by rewrite filter_has_label_nil in Hf.
  - specialize (IH Hl). by destruct (select_columns cs ls).
Qed.

Lemma bind_Ok {A B} (a : A) (k : A -> result B) : (Ok a ≫= k) = k a.
Proof. reflexivity. Qed.

Lemma getitem_list_missing (df : DataFrame) (labels : list string) (l : string) :
  In l labels -> ~ In l (column_labels df) -> raised (getitem_list df labels) = true.
Proof.
  intros Hl Hmiss. unfold getitem_list.
  pose proof (select_columns_missing _ _ _ Hl Hmiss) as Hr.
  by destruct (select_columns (columns df) labels).
Qed.

Lemma getitem_list_labels (df found : DataFrame) (labels : list string) :
  getitem_list df labels = Ok found ->
  forall l, In l labels -> In l (column_labels found).
Proof.
  unfold getitem_list. intros H l Hl.
  destruct (select_columns (columns df) labels) as [cs|] eqn:Hcs; [|done].
  inversion H; subst. by eapply select_columns_labels.
Qed.

Lemma join_labels (left right joined : DataFrame) :
  join left right = Ok joined ->
  column_labels joined = column_labels left ++ column_labels right.
Proof.
  unfold join. destruct (existsb _ _); [done|]. intros H. inversion H; subst.
  unfold column_labels. simpl. by rewrite map_app, map_map.
Qed.

Lemma table_attempt_omitted (P : provider) (tk : Ticker) :
  omits (balance_sheet P tk) balance_items \/ omits (financials P tk) income_items ->
  raised (table_attempt P tk) = true.
Proof.
  unfold table_attempt. intros H.
  destruct (financials P tk) as [fin|] eqn:Hfin; [|done]. rewrite bind_Ok.
  destruct (balance_sheet P tk) as [bs|] eqn:Hbs; [|done]. rewrite bind_Ok.
  destruct H as [(df & item & Heq & Hin & Hout) | (df & item & Heq & Hin & Hout)];
    inversion Heq; subst.
  - rewrite <- column_labels_transpose in Hout.
    pose proof (getitem_list_missing _ _ _ Hin Hout) as Hr.
    by destruct (getitem_list (transpose df) balance_items).
  - destruct (getitem_list (transpose bs) balance_items); [|done]. rewrite bind_Ok.
    rewrite <- column_labels_transpose in Hout.
    pose proof (getitem_list_missing _ _ _ Hin Hout) as Hr.
    by destruct (getitem_list (transpose df) income_items).
Qed.

Lemma table_attempt_complete (P : provider) (tk : Ticker) (df : DataFrame) :
  table_attempt P tk = Ok df ->
  forall item, In item (balance_items ++ income_items) -> In item (index df).
Proof.
  unfold table_attempt. intros H item Hitem.
  destruct (financials P tk) as [fin|]; [|done]. rewrite bind_Ok in H.
  destruct (balance_sheet P tk) as [bs|]; [|done]. rewrite bind_Ok in H.
  destruct (getitem_list (transpose bs) balance_items) as [o1|] eqn:H1; [|done].
  rewrite bind_Ok in H.
  destruct (getitem_list (transpose fin) income_items) as [o2|] eqn:H2; [|done].
  rewrite bind_Ok in H.
  destruct (join o1 o2) as [o|] eqn:Hj; [|done]. rewrite bind_Ok in H.
  inversion H; subst.
  change (In item (column_labels o)). rewrite (join_labels _ _ _ Hj), in_app_iff.
  apply in_app_iff in Hitem as [Hb | Hi].
  - left. by eapply getitem_list_labels.
  - right. by eapply getitem_list_labels.
Qed.

Section RetryTrace.

Context {A : Type}.
Variable ticker : string.
Variable att : Ticker -> result A.
Variable warn : exn -> string.
Variable err : string.

Lemma loop_trace_fail (n c : nat) (e : exn) :
  att (mkTicker ticker c) = Raise e ->
  loop_trace ticker att warn err (S n) c =
  EAttempt ticker c :: EWarning (warn e) :: ESleep 60
    :: loop_trace ticker att warn err n (S c).
Proof.
  intros H. unfold loop_trace, closing_event. simpl. rewrite H. simpl.
  by replace (c + S (length (failures ticker att n (S c))))%nat
    with (S c + length (failures ticker att n (S c)))%nat by lia.
Qed.

Lemma loop_trace_ok (n c : nat) (v : A) :
  att (mkTicker ticker c) = Ok v ->
  loop_trace ticker att warn err (S n) c = [EAttempt ticker c].
Proof.
  intros H. unfold loop_trace, closing_event. simpl. rewrite H. simpl.
  by rewrite Nat.add_0_r.
Qed.

Lemma loop_trace_head (n c : nat) :
  exists rest, loop_trace ticker att warn err (S n) c = EAttempt ticker c :: rest.
Proof.
  destruct (att (mkTicker ticker c)) as [v|e] eqn:H.
  - rewrite (loop_trace_ok _ _ _ H). eauto.
  - rewrite (loop_trace_fail _ _ _ H). eauto.
Qed.

(** A failed attempt that is not the last one is followed by a warning, a
    delay of 60 seconds and the next attempt. *)
Lemma retry_follows (k n c : nat) :
  (k + 1 < n)%nat ->
  (forall j, (j <= k)%nat -> raised (att (mkTicker ticker (c + j))) = true) ->
  exists pre msg post,
    loop_trace ticker att warn err n c =
    pre ++ [EAttempt ticker (c + k); EWarning msg; ESleep 60;
            EAttempt ticker (c + k + 1)] ++ post.
Proof.
  revert n c. induction k as [|k IH]; intros n c Hn Hfail.
  - destruct n as [|[|n]]; [lia | lia |].
    pose proof (Hfail O ltac:(lia)) as H0. rewrite Nat.add_0_r in H0.
    destruct (att (mkTicker ticker c)) as [|e] eqn:Hatt; [done|].
    rewrite (loop_trace_fail _ _ _ Hatt).
    destruct (loop_trace_head n (S c)) as [rest ->].
    exists [], (warn e), rest. simpl.
    by rewrite Nat.add_0_r, Nat.add_1_r.
  - destruct n as [|n]; [lia|].
    pose proof (Hfail O ltac:(lia)) as H0. rewrite Nat.add_0_r in H0.
    destruct (att (mkTicker ticker c)) as [|e] eqn:Hatt; [done|].
    rewrite (loop_trace_fail _ _ _ Hatt).
    destruct (IH n (S c)) as (pre & msg & post & ->); [lia | |].
    { intros j Hj. replace (S c + j)%nat with (c + S j)%nat by lia. apply Hfail. lia. }
    exists (EAttempt ticker c :: EWarning (warn e) :: ESleep 60 :: pre), msg, post.
    by replace (c + S k)%nat with (S c + k)%nat by lia.
Qed.

End RetryTrace.

(** C8: an attempt of metrics_table_safe on a balance sheet or income
    statement that lacks one of the selected line items raises; when that
    attempt is not the last of the five, the loop warns, waits 60 seconds
    and makes the next attempt; and the function returns either the empty
    frame or a snapshot that has all seven selected line items, never a
    partial one. *)
Theorem omitted_line_item_fails_attempt (P : provider) (ticker : string) (w : world) :
  (forall tk,
     omits (balance_sheet P tk) balance_items \/ omits (financials P tk) income_items ->
     raised (table_attempt P tk) = true) /\
  (forall k,
     (k < 4)%nat ->
     cache_hit (table_cache w) ticker (clock w) = None ->
     (forall j, (j < k)%nat ->
        raised (table_attempt P (mkTicker ticker (contacts w + j))) = true) ->
     omits (balance_sheet P (mkTicker ticker (contacts w + k))) balance_items \/
     omits (financials P (mkTicker ticker (contacts w + k))) income_items ->
     exists pre msg post,
       new_events w (snd (metrics_table_safe P ticker w)) =
       pre ++ [EAttempt ticker (contacts w + k); EWarning msg; ESleep 60;
               EAttempt ticker (contacts w + k + 1)] ++ post) /\
  (cache_sound P w ->
   forall df, fst (metrics_table_safe P ticker w) = Ok df ->
     df = empty_frame \/
     forall item, In item (balance_items ++ income_items) -> In item (index df)).
Proof.
  split; [apply table_attempt_omitted|]. split.
  - intros k Hk Hmiss Hbefore Homit.
    pose proof (fetch_miss P MetricsTable ticker w Hmiss) as Hrun.
    change (fetch P MetricsTable ticker w) with (metrics_table_safe P ticker w) in Hrun.
    assert (Hsnd : snd (metrics_table_safe P ticker w) = miss_world P MetricsTable ticker w)
      by (by rewrite Hrun).
    rewrite Hsnd, (new_events_app _ _ _ (log_miss_world P MetricsTable ticker w)).
    destruct (retry_follows ticker (attempt P MetricsTable)
                (warning_text MetricsTable ticker) (error_text MetricsTable ticker)
                k 5 (contacts w)) as (pre & msg & post & Htr); [lia | |].
    { intros j Hj. destruct (decide (j = k)) as [->|Hne].
      - by apply table_attempt_omitted.
      - apply Hbefore. lia. }
    exists (ECall MetricsTable ticker :: ERun MetricsTable ticker :: pre), msg, post.
    unfold run_trace. by rewrite Htr.
  - intros Hs df Hrun.
    destruct (fetch_sound P MetricsTable ticker w Hs) as [_ Hprod].
    destruct (Hprod df Hrun) as [Hempty | [c Hatt]]; [by left | right].
    by apply (table_attempt_complete P _ _ Hatt).
Qed.

Lemma omitted_line_item_fails_attempt_witness :
  raised (table_attempt debt_free_once (mkTicker "AAPL" 0)) = true /\
  (exists pre msg post,
     new_events initial_world (snd (metrics_table_safe debt_free_once "AAPL" initial_world))
     = pre ++ [EAttempt "AAPL" (contacts initial_world + 0); EWarning msg; ESleep 60;
               EAttempt "AAPL" (contacts initial_world + 0 + 1)] ++ post) /\
  (outcome debt_free_once MetricsTable "AAPL" 0 = empty_frame \/
   forall item, In item (balance_items ++ income_items) ->
                In item (index (outcome debt_free_once MetricsTable "AAPL" 0))).
Proof.
  destruct (omitted_line_item_fails_attempt debt_free_once "AAPL" initial_world)
    as (Hfail & Hretry & Hcomplete).
  assert (Homit : omits (balance_sheet debt_free_once (mkTicker "AAPL" 0)) balance_items).
  { eexists _, "Total Debt". split; [reflexivity|]. split; [simpl; auto|].
    simpl. intros [H|[H|[]]]; discriminate. }
  split; [apply Hfail; by left|]. split.
  - apply (Hretry 0%nat); [lia | reflexivity | intros j Hj; lia | by left].
  - apply Hcomplete; [apply cache_sound_initial | reflexivity].
Defined.

(** * Determinism *)

Lemma attempt_same_answers (P1 P2 : provider) (f : fn_id) (tk1 tk2 : Ticker) :
  same_answers P1 P2 tk1 tk2 -> attempt P1 f tk1 = attempt P2 f tk2.
Proof.
  intros (Hh & Hi & Hf & Hb). destruct f; simpl.
  - unfold index_attempt. by rewrite Hh.
  - unfold stock_attempt. by rewrite Hh, Hi.
  - unfold table_attempt. by rewrite Hf, Hb.
Qed.

Lemma first_success_ext {A : Type} (ticker : string) (att1 att2 : Ticker -> result A)
    (n c1 c2 : nat) :
  (forall k, (k < n)%nat -> att1 (mkTicker ticker (c1 + k)) = att2 (mkTicker ticker (c2 + k))) ->
  first_success ticker att1 n c1 = first_success ticker att2 n c2 /\
  length (failures ticker att1 n c1) = length (failures ticker att2 n c2).
Proof.
  revert c1 c2. induction n as [|n IH]; intros c1 c2 H; simpl; [done|].
  pose proof (H O ltac:(lia)) as H0. rewrite !Nat.add_0_r in H0. rewrite H0.
  destruct (att2 (mkTicker ticker c2)); [done|].
  destruct (IH (S c1) (S c2)) as [Hs Hl].
  - intros k Hk. replace (S c1 + k)%nat with (c1 + S k)%nat by lia.
    replace (S c2 + k)%nat with (c2 + S k)%nat by lia. apply H. lia.
  - split; [done | simpl; by rewrite Hl].
Qed.

(** C9: a fetch is determined by what the provider answers on its five
    attempts (and, for the decorated function, by what the store offers):
    two runs for the same symbol in which the provider answers alike,
    attempt by attempt, return equal results and make the same delays,
    whatever else differs between the two worlds. *)
Theorem fetch_deterministic (f : fn_id) (P1 P2 : provider) (ticker : string)
    (w1 w2 : world) :
  (forall k, (k < 5)%nat ->
     same_answers P1 P2 (mkTicker ticker (contacts w1 + k))
                        (mkTicker ticker (contacts w2 + k))) ->
  cache_hit (store f w1) ticker (clock w1) = cache_hit (store f w2) ticker (clock w2) ->
  fst (wrapped P1 f ticker w1) = fst (wrapped P2 f ticker w2) /\
  fst (fetch P1 f ticker w1) = fst (fetch P2 f ticker w2) /\
  delays (new_events w1 (snd (fetch P1 f ticker w1)))
  = delays (new_events w2 (snd (fetch P2 f ticker w2))).
Proof.
  intros Hsame Hcache.
  destruct (first_success_ext ticker (attempt P1 f) (attempt P2 f) 5
              (contacts w1) (contacts w2)) as [Hs Hl].
  { intros k Hk. apply attempt_same_answers. by apply Hsame. }
  assert (Hout : outcome P1 f ticker (contacts w1) = outcome P2 f ticker (contacts w2))
    by (unfold outcome; by rewrite Hs).
  split; [by rewrite !wrapped_run; simpl; rewrite Hout|].
  destruct (cache_hit (store f w2) ticker (clock w2)) as [v|] eqn:Hc2.
  - rewrite (fetch_hit _ _ _ _ _ Hcache), (fetch_hit _ _ _ _ _ Hc2). simpl.
    split; [done|].
    assert (H1 : new_events w1 (emit (ECall f ticker) w1) = [ECall f ticker])
      by (by apply new_events_app).
    assert (H2 : new_events w2 (emit (ECall f ticker) w2) = [ECall f ticker])
      by (by apply new_events_app).
    by rewrite H1, H2.
  - rewrite (fetch_miss _ _ _ _ Hcache), (fetch_miss _ _ _ _ Hc2).
    split; [simpl; by rewrite Hout|].
    assert (Hsnd1 : forall P w, snd (Ok (outcome P f ticker (contacts w)),
                                     miss_world P f ticker w) = miss_world P f ticker w)
      by done.
    rewrite !Hsnd1.
    rewrite (new_events_app _ _ _ (log_miss_world P1 f ticker w1)).
    rewrite (new_events_app _ _ _ (log_miss_world P2 f ticker w2)).
    change (delays ([ECall f ticker; ERun f ticker] ++ run_trace P1 f ticker (contacts w1))
            = delays ([ECall f ticker; ERun f ticker] ++ run_trace P2 f ticker (contacts w2))).
    rewrite !delays_app. unfold run_trace. by rewrite !delays_loop_trace, Hl.
Qed.

Lemma fetch_deterministic_witness :
  fst (fetch flaky FetchStock "MSFT" initial_world)
  = fst (fetch flaky FetchStock "MSFT" (emit (ETitle "Stocks Dashboard") (advance 7 initial_world))).
Proof.
  apply (fetch_deterministic FetchStock flaky flaky "MSFT" initial_world
           (emit (ETitle "Stocks Dashboard") (advance 7 initial_world))).
  - intros k Hk. repeat split; reflexivity.
  - reflexivity.
Defined.

(** * The dashboards *)

Lemma append_log_nil (w : world) : append_log [] w = w.
Proof. destruct w. unfold append_log. simpl. by rewrite app_nil_r. Qed.

Lemma append_log_app (tr1 tr2 : list event) (w : world) :
  append_log tr2 (append_log tr1 w) = append_log (tr1 ++ tr2) w.
Proof. unfold append_log. simpl. by rewrite app_assoc. Qed.

Lemma renders_ret {A} (a : A) : renders (mret a).
Proof. intros w. exists []. by rewrite append_log_nil. Qed.

Lemma renders_lift {A} (r : result A) : renders (lift r).
Proof. intros w. exists []. by rewrite append_log_nil. Qed.

Lemma renders_bind {A B} (m : M A) (k : A -> M B) :
  renders m -> (forall a, renders (k a)) -> renders (m ≫= k).
Proof.
  intros Hm Hk w. destruct (Hm w) as (tr1 & Hw1 & Ho1).
  unfold mbind, M_bind. destruct (m w) as [[a|e] w1]; simpl in Hw1; subst.
  - destruct (Hk a (append_log tr1 w)) as (tr2 & Hw2 & Ho2).
    exists (tr1 ++ tr2). rewrite Hw2, append_log_app. split; [done|].
    by rewrite forallb_app, Ho1, Ho2.
  - by exists tr1.
Qed.

Lemma renders_emit {A} (e : event) (a : A) :
  is_output e = true -> renders (fun w => (Ok a, emit e w)).
Proof. intros He w. exists [e]. split; [done|]. simpl. by rewrite He. Qed.

Lemma renders_if {A} (b : bool) (m1 m2 : M A) :
  renders m1 -> renders m2 -> renders (if b then m1 else m2).
Proof. by destruct b. Qed.

Local Ltac renders_tac :=
  repeat first
    [ apply renders_bind; [|intros ?]
    | apply renders_if
    | apply renders_ret
    | apply renders_lift
    | by apply renders_emit ].

Lemma renders_render_stock (sel : string) (stock_data : DataFrame)
    (metrics : gmap string pyval) (metr : DataFrame) :
  renders (render_stock sel stock_data metrics metr).
Proof. unfold render_stock. renders_tac. Qed.

Lemma renders_render_index (sel : string) (index_data : DataFrame) :
  renders (render_index sel index_data).
Proof. unfold render_index. renders_tac. Qed.

Lemma display_index_unfold (P : provider) (w : world) :
  display_index_dashboard P w =
  (index_data ← fetch_index_data_safe P (selected_index w);
   render_index (selected_index w) index_data)
    (before_fetch "Industry Indices Dashboard" "Retry Fetch Index Data" w).
Proof.
  unfold display_index_dashboard, before_fetch.
  unfold mbind at 1 2 3 4. unfold M_bind at 1 2 3 4.
  unfold st_title, st_selectbox, st_button. cbv beta iota.
  change (clicked (emit (ETitle "Industry Indices Dashboard") w) "Retry Fetch Index Data")
    with (clicked w "Retry Fetch Index Data").
  by destruct (clicked w "Retry Fetch Index Data").
Qed.

Lemma display_stock_unfold (P : provider) (w : world) :
  display_stock_dashboard P w =
  ('(stock_data, metrics) ← fetch_stock_data_safe P (selected_stock w);
   metr ← metrics_table_safe P (selected_stock w);
   render_stock (selected_stock w) stock_data metrics metr)
    (before_fetch "Stocks Dashboard" "Retry Fetch Stock Data" w).
Proof.
  unfold display_stock_dashboard, before_fetch.
  unfold mbind at 1 2 3 4. unfold M_bind at 1 2 3 4.
  unfold st_title, st_selectbox, st_button. cbv beta iota.
  change (clicked (emit (ETitle "Stocks Dashboard") w) "Retry Fetch Stock Data")
    with (clicked w "Retry Fetch Stock Data").
  by destruct (clicked w "Retry Fetch Stock Data").
Qed.

Lemma calls_of_app (f : fn_id) (ticker : string) (tr1 tr2 : list event) :
  calls_of f ticker (tr1 ++ tr2) = (calls_of f ticker tr1 + calls_of f ticker tr2)%nat.
Proof. unfold calls_of. by rewrite List.filter_app, length_app. Qed.

Lemma calls_of_no_calls (f : fn_id) (ticker : string) (tr : list event) :
  no_calls tr = true -> calls_of f ticker tr = O.
Proof.
  unfold no_calls, calls_of. induction tr as [|e tr IH]; simpl; [done|].
  intros H. apply andb_prop in H as [He Htr].
  destruct e; simpl in *; try discriminate; by apply IH.
Qed.

Lemma calls_of_self (f : fn_id) (ticker : string) :
  calls_of f ticker [ECall f ticker] = 1%nat.
Proof. unfold calls_of. simpl. rewrite String.eqb_refl. by destruct f. Qed.

Lemma no_calls_output (tr : list event) : forallb is_output tr = true -> no_calls tr = true.
Proof.
  unfold no_calls. induction tr as [|e tr IH]; simpl; [done|].
  intros H. apply andb_prop in H as [He Htr]. rewrite (IH Htr).
  by destruct e.
Qed.

Lemma no_calls_failure_events (ticker : string) (warn : exn -> string) (c : nat)
    (es : list exn) :
  no_calls (failure_events ticker warn c es) = true.
Proof. revert c. induction es as [|e es IH]; intros c; [done|]. apply IH. Qed.

Lemma no_calls_run_trace (P : provider) (f : fn_id) (ticker : string) (c : nat) :
  no_calls (run_trace P f ticker c) = true.
Proof.
  unfold run_trace, loop_trace, no_calls.
  rewrite forallb_app. fold (no_calls (failure_events ticker (warning_text f ticker) c
    (failures ticker (attempt P f) 5 c))).
  rewrite no_calls_failure_events. unfold closing_event.
  by destruct (first_success _ _ _ _).
Qed.

(** A fetch logs its invocation first, and invokes no other decorated
    function. *)
Lemma fetch_log (P : provider) (f : fn_id) (ticker : string) (w : world) :
  exists v tr,
    fetch P f ticker w = (Ok v, snd (fetch P f ticker w)) /\
    log (snd (fetch P f ticker w)) = log w ++ ECall f ticker :: tr /\
    no_calls tr = true.
Proof.
  destruct (cache_hit (store f w) ticker (clock w)) as [v|] eqn:Hc.
  - rewrite (fetch_hit _ _ _ _ _ Hc). by exists v, [].
  - rewrite (fetch_miss _ _ _ _ Hc). eexists _, _. split; [done|].
    split; [apply log_miss_world|]. simpl. apply no_calls_run_trace.
Qed.

Lemma log_before_fetch (title button : string) (w : world) :
  log (before_fetch title button w) =
  log w ++ ETitle title :: (if clicked w button then [ECacheClear] else []).
Proof.
  unfold before_fetch. destruct (clicked w button); simpl; [|done].
  by rewrite <- app_assoc.
Qed.

(** C10: every run of display_stock_dashboard invokes fetch_stock_data_safe
    and then metrics_table_safe for the selected symbol, each exactly once,
    and only then tests whether the stock history is empty: whatever the
    history, the invocation of metrics_table_safe (with the retries and
    delays of a miss) is complete before the warning or the rendering, and
    an empty history leaves nothing after it but the warning. *)
Theorem snapshot_fetched_before_emptiness_check (P : provider) (w : world) :
  exists stock_data metrics w2 metr w3 opening tr1 tr2 shown,
    fetch_stock_data_safe P (selected_stock w)
      (before_fetch "Stocks Dashboard" "Retry Fetch Stock Data" w)
    = (Ok (stock_data, metrics), w2) /\
    metrics_table_safe P (selected_stock w) w2 = (Ok metr, w3) /\
    display_stock_dashboard P w
    = render_stock (selected_stock w) stock_data metrics metr w3 /\
    snd (display_stock_dashboard P w) = append_log shown w3 /\
    new_events w (snd (display_stock_dashboard P w))
    = opening ++ ECall FetchStock (selected_stock w) :: tr1
      ++ ECall MetricsTable (selected_stock w) :: tr2 ++ shown /\
    no_calls opening = true /\ no_calls tr1 = true /\ no_calls tr2 = true /\
    forallb is_output shown = true /\
    (empty stock_data = true -> shown = [EWarning "No stock data available."]) /\
    calls_of MetricsTable (selected_stock w)
      (new_events w (snd (display_stock_dashboard P w))) = 1%nat.
Proof.
  set (sel := selected_stock w).
  set (w1 := before_fetch "Stocks Dashboard" "Retry Fetch Stock Data" w).
  destruct (fetch_log P FetchStock sel w1) as ([stock_data metrics] & tr1 & Hrun1 & Hlog1 & Hn1).
  set (w2 := snd (fetch P FetchStock sel w1)) in *.
  destruct (fetch_log P MetricsTable sel w2) as (metr & tr2 & Hrun2 & Hlog2 & Hn2).
  set (w3 := snd (fetch P MetricsTable sel w2)) in *.
  destruct (renders_render_stock sel stock_data metrics metr w3) as (shown & Hshown & Hout).
  assert (Hdisplay : display_stock_dashboard P w
                     = render_stock sel stock_data metrics metr w3).
  { rewrite display_stock_unfold. fold sel w1.
    unfold mbind at 1. unfold M_bind at 1.
    change (fetch_stock_data_safe P sel w1) with (fetch P FetchStock sel w1).
    rewrite Hrun1. unfold mbind at 1. unfold M_bind at 1.
    change (metrics_table_safe P sel w2) with (fetch P MetricsTable sel w2).
    by rewrite Hrun2. }
  assert (Hevents : new_events w (snd (display_stock_dashboard P w))
                    = (ETitle "Stocks Dashboard"
                       :: (if clicked w "Retry Fetch Stock Data" then [ECacheClear] else []))
                      ++ ECall FetchStock sel :: tr1
                      ++ ECall MetricsTable sel :: tr2 ++ shown).
  { apply new_events_app. rewrite Hdisplay, Hshown. unfold append_log. simpl.
    rewrite Hlog2, Hlog1. unfold w1. rewrite log_before_fetch.
    rewrite <- !app_assoc. simpl. by rewrite <- ?app_assoc. }
  exists stock_data, metrics, w2, metr, w3,
    (ETitle "Stocks Dashboard"
     :: (if clicked w "Retry Fetch Stock Data" then [ECacheClear] else [])),
    tr1, tr2, shown.
  split; [exact Hrun1|]. split; [exact Hrun2|]. split; [exact Hdisplay|].
  split; [by rewrite Hdisplay|]. split; [exact Hevents|].
  split; [by destruct (clicked w "Retry Fetch Stock Data")|].
  split; [done|]. split; [done|]. split; [done|]. split.
  - intros Hempty. unfold render_stock in Hshown. rewrite Hempty in Hshown.
    unfold st_warning, emit, append_log in Hshown. simpl in Hshown.
    inversion Hshown as [Hl]. by apply app_inv_head in Hl.
  - rewrite Hevents.
    change (ECall FetchStock sel :: tr1 ++ ECall MetricsTable sel :: tr2 ++ shown)
      with ([ECall FetchStock sel] ++ tr1 ++ [ECall MetricsTable sel] ++ tr2 ++ shown).
    rewrite !calls_of_app, calls_of_self.
    rewrite (calls_of_no_calls _ _ tr1 Hn1), (calls_of_no_calls _ _ tr2 Hn2).
    rewrite (calls_of_no_calls _ _ shown (no_calls_output _ Hout)).
    rewrite calls_of_no_calls by (by destruct (clicked w "Retry Fetch Stock Data")).
    reflexivity.
Qed.

(** * Manual invalidation *)

Lemma store_append_log (g : fn_id) (tr : list event) (w : world) :
  store g (append_log tr w) = store g w.
Proof. by destruct g. Qed.

Lemma store_cache_clear (g : fn_id) (ticker : string) (w : world) :
  store g (snd (cache_clear w)) !! ticker = None.
Proof. by destruct g. Qed.

(** A fetch touches one entry at most: its own. *)
Lemma fetch_frame (P : provider) (f g : fn_id) (ticker t : string) (w : world) :
  g <> f \/ t <> ticker ->
  store g (snd (fetch P f ticker w)) !! t = store g w !! t.
Proof.
  intros Hother. destruct (cache_hit (store f w) ticker (clock w)) as [v|] eqn:Hc.
  - rewrite (fetch_hit _ _ _ _ _ Hc). simpl. by rewrite store_emit.
  - rewrite (fetch_miss _ _ _ _ Hc). simpl. unfold miss_world.
    destruct (decide (f = g)) as [<-|Hne].
    + rewrite store_set_store_eq, store_run_world, !store_emit.
      destruct Hother as [H|H]; [done|]. by rewrite lookup_insert_ne.
    + rewrite store_set_store_ne by done. by rewrite store_run_world, !store_emit.
Qed.

(** A miss contacts the provider. *)
Lemma fetch_miss_contacts (P : provider) (f : fn_id) (ticker : string) (w : world) :
  cache_hit (store f w) ticker (clock w) = None ->
  (contacts w < contacts (snd (fetch P f ticker w)))%nat /\
  (1 <= provider_attempts (new_events w (snd (fetch P f ticker w))))%nat.
Proof.
  intros Hc. rewrite (fetch_miss _ _ _ _ Hc).
  assert (Hsnd : snd (Ok (outcome P f ticker (contacts w)), miss_world P f ticker w)
                 = miss_world P f ticker w) by done.
  rewrite Hsnd. split.
  - rewrite contacts_miss_world.
    destruct (first_success ticker (attempt P f) 5 (contacts w)) eqn:H; [lia|].
    pose proof (first_success_None _ _ _ _ H) as Hall.
    destruct (all_fail_first_success _ _ _ _ Hall) as [_ Hlen]. lia.
  - rewrite (new_events_app _ _ _ (log_miss_world P f ticker w)).
    change (ECall f ticker :: ERun f ticker :: run_trace P f ticker (contacts w))
      with ([ECall f ticker; ERun f ticker] ++ run_trace P f ticker (contacts w)).
    rewrite provider_attempts_app.
    pose proof (provider_attempts_run_trace P f ticker (contacts w)). lia.
Qed.

Lemma fetch_contacts_mono (P : provider) (f : fn_id) (ticker : string) (w : world) :
  (contacts w <= contacts (snd (fetch P f ticker w)))%nat.
Proof.
  destruct (cache_hit (store f w) ticker (clock w)) as [v|] eqn:Hc.
  - by rewrite (fetch_hit _ _ _ _ _ Hc).
  - destruct (fetch_miss_contacts P f ticker w Hc). lia.
Qed.

Lemma cache_hit_empty (f : fn_id) (ticker : string) (w : world) :
  store f w !! ticker = None -> cache_hit (store f w) ticker (clock w) = None.
Proof. unfold cache_hit. by intros ->. Qed.

(** C7: [st.cache_data.clear()] empties the store of every decorated
    function, for every symbol; a fetch made right after it, whatever the
    function and the symbol, contacts the provider.  A dashboard run with
    its retry button pressed clears the stores before it fetches: when it
    ends, the only entries are those it has just fetched for the selected
    symbol, and the provider has been contacted once more per fetch at
    least.  ([contacts] counts the handles built on the provider, one per
    attempt.) *)
Theorem manual_invalidation_is_global (P : provider) (w : world) :
  (forall g t, store g (snd (cache_clear w)) !! t = None) /\
  (forall f ticker,
     (contacts (snd (cache_clear w))
      < contacts (snd (fetch P f ticker (snd (cache_clear w)))))%nat /\
     (1 <= provider_attempts
             (new_events (snd (cache_clear w))
                (snd (fetch P f ticker (snd (cache_clear w))))))%nat) /\
  (clicked w "Retry Fetch Index Data" = true ->
   (forall g t, is_Some (store g (snd (display_index_dashboard P w)) !! t) ->
                g = FetchIndex /\ t = selected_index w) /\
   (contacts w + 1 <= contacts (snd (display_index_dashboard P w)))%nat) /\
  (clicked w "Retry Fetch Stock Data" = true ->
   (forall g t, is_Some (store g (snd (display_stock_dashboard P w)) !! t) ->
                g <> FetchIndex /\ t = selected_stock w) /\
   (contacts w + 2 <= contacts (snd (display_stock_dashboard P w)))%nat).
Proof.
  split; [intros g t; apply store_cache_clear|]. split.
  { intros f ticker. apply fetch_miss_contacts, cache_hit_empty, store_cache_clear. }
  split.
  - intros Hclick. rewrite display_index_unfold.
    set (sel := selected_index w).
    set (w1 := before_fetch "Industry Indices Dashboard" "Retry Fetch Index Data" w).
    assert (Hempty : forall g t, store g w1 !! t = None).
    { intros g t. unfold w1, before_fetch. rewrite Hclick. apply store_cache_clear. }
    assert (Hc1 : contacts w1 = contacts w).
    { unfold w1, before_fetch. by rewrite Hclick. }
    destruct (fetch_log P FetchIndex sel w1) as (v & tr & Hrun & _).
    pose proof (fetch_miss_contacts P FetchIndex sel w1
                  (cache_hit_empty _ _ _ (Hempty FetchIndex sel))) as [Hlt _].
    set (w2 := snd (fetch P FetchIndex sel w1)) in *.
    destruct (renders_render_index sel v w2) as (shown & Hshown & _).
    assert (Hfinal : snd ((index_data ← fetch_index_data_safe P sel;
                           render_index sel index_data) w1) = append_log shown w2).
    { unfold mbind, M_bind.
      change (fetch_index_data_safe P sel w1) with (fetch P FetchIndex sel w1).
      by rewrite Hrun. }
    rewrite Hfinal. split.
    + intros g t [x Hx]. rewrite store_append_log in Hx.
      destruct (decide (g = FetchIndex)) as [->|Hg];
        [destruct (decide (t = sel)) as [->|Ht]; [done|] |].
      * unfold w2 in Hx. rewrite fetch_frame, Hempty in Hx by auto. done.
      * unfold w2 in Hx. rewrite fetch_frame, Hempty in Hx by auto. done.
    + change (contacts (append_log shown w2)) with (contacts w2). lia.
  - intros Hclick. rewrite display_stock_unfold.
    set (sel := selected_stock w).
    set (w1 := before_fetch "Stocks Dashboard" "Retry Fetch Stock Data" w).
    assert (Hempty : forall g t, store g w1 !! t = None).
    { intros g t. unfold w1, before_fetch. rewrite Hclick. apply store_cache_clear. }
    assert (Hc1 : contacts w1 = contacts w).
    { unfold w1, before_fetch. by rewrite Hclick. }
    destruct (fetch_log P FetchStock sel w1) as ([sd m] & tr1 & Hrun1 & _).
    pose proof (fetch_miss_contacts P FetchStock sel w1
                  (cache_hit_empty _ _ _ (Hempty FetchStock sel))) as [Hlt1 _].
    set (w2 := snd (fetch P FetchStock sel w1)) in *.
    assert (Hempty2 : store MetricsTable w2 !! sel = None).
    { unfold w2. rewrite fetch_frame by (left; done). apply Hempty. }
    destruct (fetch_log P MetricsTable sel w2) as (metr & tr2 & Hrun2 & _).
    pose proof (fetch_miss_contacts P MetricsTable sel w2
                  (cache_hit_empty _ _ _ Hempty2)) as [Hlt2 _].
    set (w3 := snd (fetch P MetricsTable sel w2)) in *.
    destruct (renders_render_stock sel sd m metr w3) as (shown & Hshown & _).
    assert (Hfinal : snd (('(stock_data, metrics) ← fetch_stock_data_safe P sel;
                           metr ← metrics_table_safe P sel;
                           render_stock sel stock_data metrics metr) w1)
                     = append_log shown w3).
    { unfold mbind at 1. unfold M_bind at 1.
      change (fetch_stock_data_safe P sel w1) with (fetch P FetchStock sel w1).
      rewrite Hrun1. unfold mbind at 1. unfold M_bind at 1.
      change (metrics_table_safe P sel w2) with (fetch P MetricsTable sel w2).
      by rewrite Hrun2. }
    rewrite Hfinal. split.
    + intros g t [x Hx]. rewrite store_append_log in Hx.
      destruct (decide (t = sel)) as [->|Ht].
      * split; [|done]. intros ->.
        unfold w3 in Hx. rewrite fetch_frame in Hx by (left; done).
        unfold w2 in Hx. rewrite fetch_frame, Hempty in Hx by (left; done). done.
      * unfold w3 in Hx. rewrite fetch_frame in Hx by auto.
        unfold w2 in Hx. rewrite fetch_frame, Hempty in Hx by auto. done.
    + change (contacts (append_log shown w3)) with (contacts w3). lia.
Qed.

Lemma manual_invalidation_is_global_witness :
  is_Some (stock_cache (press "Retry Fetch Index Data"
                          (snd (fetch_stock_data_safe steady "MSFT" initial_world)))
           !! "MSFT") /\
  (forall g t,
     is_Some (store g (snd (display_index_dashboard steady
                              (press "Retry Fetch Index Data"
                                 (snd (fetch_stock_data_safe steady "MSFT" initial_world)))))
              !! t) ->
     g = FetchIndex /\ t = "^DJI") /\
  (forall f ticker,
     (1 <= provider_attempts
             (new_events (snd (cache_clear initial_world))
                (snd (fetch steady f ticker (snd (cache_clear initial_world))))))%nat).
Proof.
  destruct (manual_invalidation_is_global steady
              (press "Retry Fetch Index Data"
                 (snd (fetch_stock_data_safe steady "MSFT" initial_world))))
    as (_ & _ & Hindex & _).
  destruct (manual_invalidation_is_global steady initial_world) as (_ & Hagain & _).
  split; [vm_compute; eauto|]. split.
  - apply Hindex. reflexivity.
  - intros f ticker. apply Hagain.
Defined.

(** * More on the retry loop and the cache *)

Lemma first_success_after_failures {A : Type} (ticker : string)
    (att : Ticker -> result A) (n c k : nat) (v : A) :
  (k < n)%nat ->
  (forall j, (j < k)%nat -> raised (att (mkTicker ticker (c + j))) = true) ->
  att (mkTicker ticker (c + k)) = Ok v ->
  first_success ticker att n c = Some v /\ length (failures ticker att n c) = k.
Proof.
  revert n c. induction k as [|k IH]; intros n c Hk Hfail Hok.
  - destruct n as [|n]; [lia|]. simpl. rewrite Nat.add_0_r in Hok. by rewrite Hok.
  - destruct n as [|n]; [lia|]. simpl.
    pose proof (Hfail O ltac:(lia)) as H0. rewrite Nat.add_0_r in H0.
    destruct (att (mkTicker ticker c)) as [|e]; [done|].
    destruct (IH n (S c)) as [Hs Hl]; [lia | | |].
    + intros j Hj. replace (S c + j)%nat with (c + S j)%nat by lia. apply Hfail. lia.
    + by replace (S c + k)%nat with (c + S k)%nat by lia.
    + split; [done | simpl; lia].
Qed.

Lemma no_error_failure_events (ticker : string) (warn : exn -> string) (c : nat)
    (es : list exn) :
  existsb is_error (failure_events ticker warn c es) = false.
Proof. revert c. induction es as [|e es IH]; intros c; [done|]. apply IH. Qed.

(** X1. A fetch that has to run, and whose first [k] attempts fail while
    attempt [k] (counting from 0, [k < 5]) succeeds with [v], returns [v]
    after exactly [k] delays of 60 seconds and [k+1] contacts, shows no
    error message, and stores [v] stamped with the time of the return. *)
Theorem retry_until_success (P : provider) (f : fn_id) (ticker : string) (w : world)
    (k : nat) (v : payload f) :
  cache_hit (store f w) ticker (clock w) = None ->
  (k < 5)%nat ->
  (forall j, (j < k)%nat ->
     raised (attempt P f (mkTicker ticker (contacts w + j))) = true) ->
  attempt P f (mkTicker ticker (contacts w + k)) = Ok v ->
  fst (fetch P f ticker w) = Ok v /\
  delays (new_events w (snd (fetch P f ticker w))) = repeat 60%Z k /\
  provider_attempts (new_events w (snd (fetch P f ticker w))) = S k /\
  existsb is_error (new_events w (snd (fetch P f ticker w))) = false /\
  clock (snd (fetch P f ticker w)) = (clock w + 60 * Z.of_nat k)%Z /\
  store f (snd (fetch P f ticker w)) !! ticker = Some (v, (clock w + 60 * Z.of_nat k)%Z).
Proof.
  intros Hmiss Hk Hfail Hok.
  destruct (first_success_after_failures ticker (attempt P f) 5 (contacts w) k v
              Hk Hfail Hok) as [Hs Hl].
  rewrite (fetch_miss _ _ _ _ Hmiss).
  assert (Hsnd : snd (Ok (outcome P f ticker (contacts w)), miss_world P f ticker w)
                 = miss_world P f ticker w) by done.
  rewrite Hsnd, (new_events_app _ _ _ (log_miss_world P f ticker w)).
  change (ECall f ticker :: ERun f ticker :: run_trace P f ticker (contacts w))
    with ([ECall f ticker; ERun f ticker] ++ run_trace P f ticker (contacts w)).
  assert (Hout : outcome P f ticker (contacts w) = v) by (unfold outcome; by rewrite Hs).
  split; [simpl; by rewrite Hout|].
  split; [rewrite delays_app; unfold run_trace; by rewrite delays_loop_trace, Hl|].
  split.
  { rewrite provider_attempts_app. unfold run_trace.
    rewrite attempts_loop_trace, Hl, Hs.
    change (provider_attempts [ECall f ticker; ERun f ticker]) with O. lia. }
  split.
  { rewrite existsb_app. unfold run_trace, loop_trace, closing_event.
    rewrite existsb_app, no_error_failure_events, Hs. reflexivity. }
  split; [by rewrite clock_miss_world, Hl|].
  unfold miss_world. rewrite store_set_store_eq, lookup_insert_eq, Hout.
  change (clock (run_world P f ticker (emit (ERun f ticker) (emit (ECall f ticker) w))))
    with (clock w + 60 * Z.of_nat (length (failures ticker (attempt P f) 5 (contacts w))))%Z.
  by rewrite Hl.
Qed.

Lemma retry_until_success_witness :
  fst (fetch flaky FetchIndex "^GSPC" initial_world)
  = Ok (outcome flaky FetchIndex "^GSPC" 0) /\
  delays (new_events initial_world (snd (fetch flaky FetchIndex "^GSPC" initial_world)))
  = repeat 60%Z 1.
Proof.
  destruct (retry_until_success flaky FetchIndex "^GSPC" initial_world 1
              (outcome flaky FetchIndex "^GSPC" 0)) as (Hv & Hd & _).
  - reflexivity.
  - lia.
  - intros j Hj. assert (j = 0)%nat as -> by lia. reflexivity.
  - reflexivity.
  - split; [exact Hv | exact Hd].
Defined.

(** X2. A failure is cached like a success: once a run has used up its
    five attempts, the empty result is stored, and for the next 3600
    seconds a fetch of the same function and symbol returns it without
    contacting the provider, whatever the provider would answer by
    then. *)
Theorem failure_is_cached (P P' : provider) (f : fn_id) (ticker : string)
    (w w2 : world) :
  cache_hit (store f w) ticker (clock w) = None ->
  (forall k, (k < 5)%nat ->
     raised (attempt P f (mkTicker ticker (contacts w + k))) = true) ->
  store f w2 !! ticker = store f (snd (fetch P f ticker w)) !! ticker ->
  (clock w2 - clock (snd (fetch P f ticker w)) <= ttl)%Z ->
  fetch P' f ticker w2 = (Ok (sentinel f), emit (ECall f ticker) w2) /\
  contacts (snd (fetch P' f ticker w2)) = contacts w2 /\
  clock (snd (fetch P' f ticker w2)) = clock w2.
Proof.
  intros Hmiss Hfail Hsame Hwindow.
  rewrite (fetch_miss _ _ _ _ Hmiss) in Hsame, Hwindow.
  assert (Hsnd : snd (Ok (outcome P f ticker (contacts w)), miss_world P f ticker w)
                 = miss_world P f ticker w) by done.
  rewrite Hsnd in Hsame, Hwindow.
  destruct (exhausted_run P f ticker (contacts w) Hfail) as [Hout _].
  assert (Hhit : cache_hit (store f w2) ticker (clock w2) = Some (sentinel f)).
  { unfold cache_hit. rewrite Hsame. unfold miss_world at 1.
    rewrite store_set_store_eq, lookup_insert_eq, Hout.
    unfold miss_world in Hwindow. rewrite clock_set_store in Hwindow.
    unfold fresh.
    destruct (Z.leb_spec
      (clock w2 - clock (run_world P f ticker (emit (ERun f ticker) (emit (ECall f ticker) w))))
      ttl); [done | lia]. }
  by rewrite (fetch_hit _ _ _ _ _ Hhit).
Qed.

Lemma failure_is_cached_witness :
  fetch steady FetchStock "AAPL"
    (advance 600 (snd (fetch down FetchStock "AAPL" initial_world)))
  = (Ok (sentinel FetchStock),
     emit (ECall FetchStock "AAPL")
       (advance 600 (snd (fetch down FetchStock "AAPL" initial_world)))).
Proof.
  apply (failure_is_cached down steady FetchStock "AAPL" initial_world
           (advance 600 (snd (fetch down FetchStock "AAPL" initial_world)))).
  - reflexivity.
  - intros k Hk. reflexivity.
  - vm_compute. reflexivity.
  - vm_compute. discriminate.
Defined.

(** X3. An entry older than 3600 seconds is not used: the fetch runs the
    function again, contacts the provider, and replaces the entry with
    the new result, stamped with the time of the return. *)
Theorem stale_entry_is_refetched (P : provider) (f : fn_id) (ticker : string)
    (w : world) (v : payload f) (created : Z) :
  store f w !! ticker = Some (v, created) ->
  (ttl < clock w - created)%Z ->
  fst (fetch P f ticker w) = Ok (outcome P f ticker (contacts w)) /\
  (contacts w < contacts (snd (fetch P f ticker w)))%nat /\
  store f (snd (fetch P f ticker w)) !! ticker
  = Some (outcome P f ticker (contacts w), clock (snd (fetch P f ticker w))).
Proof.
  intros Hentry Hold.
  assert (Hmiss : cache_hit (store f w) ticker (clock w) = None).
  { unfold cache_hit. rewrite Hentry. unfold fresh.
    destruct (Z.leb_spec (clock w - created) ttl); [lia | done]. }
  split; [by rewrite (fetch_miss _ _ _ _ Hmiss)|].
  split; [by apply fetch_miss_contacts|].
  rewrite (fetch_miss _ _ _ _ Hmiss). simpl. unfold miss_world.
  by rewrite store_set_store_eq, lookup_insert_eq, clock_set_store.
Qed.

Lemma stale_entry_is_refetched_witness :
  (contacts (advance 3601 (snd (fetch steady FetchIndex "^DJI" initial_world)))
   < contacts (snd (fetch steady FetchIndex "^DJI"
                      (advance 3601 (snd (fetch steady FetchIndex "^DJI" initial_world))))))%nat.
Proof.
  destruct (stale_entry_is_refetched steady FetchIndex "^DJI"
              (advance 3601 (snd (fetch steady FetchIndex "^DJI" initial_world)))
              (outcome steady FetchIndex "^DJI" 0) 0) as (_ & Hc & _).
  - reflexivity.
  - vm_compute. reflexivity.
  - exact Hc.
Defined.

(** X4. A fetch touches no entry but its own: the entries of the other
    functions, and of the same function for other symbols, are what they
    were; the clock and the count of contacts never go back, the log only
    grows, and the widgets are left alone. *)
Theorem fetch_leaves_other_entries (P : provider) (f g : fn_id) (ticker t : string)
    (w : world) :
  g <> f \/ t <> ticker ->
  store g (snd (fetch P f ticker w)) !! t = store g w !! t /\
  (clock w <= clock (snd (fetch P f ticker w)))%Z /\
  (contacts w <= contacts (snd (fetch P f ticker w)))%nat /\
  (exists tr, log (snd (fetch P f ticker w)) = log w ++ tr) /\
  choice (snd (fetch P f ticker w)) = choice w /\
  clicked (snd (fetch P f ticker w)) = clicked w.
Proof.
  intros Hother. split; [by apply fetch_frame|].
  split.
  { destruct (cache_hit (store f w) ticker (clock w)) as [v|] eqn:Hc.
    - rewrite (fetch_hit _ _ _ _ _ Hc). simpl. lia.
    - rewrite (fetch_miss _ _ _ _ Hc). simpl. rewrite clock_miss_world. lia. }
  split; [apply fetch_contacts_mono|].
  split.
  { destruct (fetch_log P f ticker w) as (v & tr & _ & Hlog & _). eauto. }
  destruct (cache_hit (store f w) ticker (clock w)) as [v|] eqn:Hc.
  - by rewrite (fetch_hit _ _ _ _ _ Hc).
  - rewrite (fetch_miss _ _ _ _ Hc). by destruct f.
Qed.

Lemma fetch_leaves_other_entries_witness :
  store FetchStock (snd (fetch steady FetchIndex "^DJI"
                           (snd (fetch steady FetchStock "AAPL" initial_world)))) !! "AAPL"
  = store FetchStock (snd (fetch steady FetchStock "AAPL" initial_world)) !! "AAPL".
Proof.
  apply (fetch_leaves_other_entries steady FetchIndex FetchStock "^DJI" "AAPL"
           (snd (fetch steady FetchStock "AAPL" initial_world))).
  left. discriminate.
Defined.

(** * The derived columns, in value *)

Lemma index_setitem (df : DataFrame) (l : string) (col : list cell) :
  index (setitem df l col) = index df.
Proof. unfold setitem. by destruct (existsb _ _). Qed.

Lemma length_rolling (n : nat) (stat : list Q -> cell) (xs : list cell) :
  length (rolling n stat xs) = length xs.
Proof. unfold rolling. by rewrite length_map, length_seq. Qed.

Lemma length_ewm_go (alpha : Q) (xs : list cell) (weighted : cell) (old_wt : Q) :
  length (ewm_go alpha weighted old_wt xs) = length xs.
Proof.
  revert weighted old_wt. induction xs as [|cur rest IH]; intros weighted old_wt; [done|].
  simpl. destruct weighted, cur; simpl; by rewrite IH.
Qed.

Lemma length_ewm_mean (span : nat) (xs : list cell) :
  length (ewm_mean span xs) = length xs.
Proof. destruct xs; [done|]. simpl. by rewrite length_ewm_go. Qed.










(** X7. fetch_index_data_safe adds its three columns and changes nothing
    else: the row labels and every other column of a returned frame are
    the provider's, and each derived column has one cell per close. *)
Theorem derived_columns_only_added (P : provider) (ticker : string) (w : world)
    (df : DataFrame) :
  cache_sound P w ->
  fst (fetch_index_data_safe P ticker w) = Ok df ->
  df <> empty_frame ->
  exists c hist close sma ema vol,
    history P (mkTicker ticker c) = Ok hist /\
    getitem hist "Close" = Ok close /\
    index df = index hist /\
    (forall l, l <> "SMA_20" -> l <> "EMA_20" -> l <> "Volatility" ->
               getitem df l = getitem hist l) /\
    getitem df "SMA_20" = Ok sma /\ getitem df "EMA_20" = Ok ema /\
    getitem df "Volatility" = Ok vol /\
    length sma = length close /\ length ema = length close /\
    length vol = length close.
Proof.
  intros Hs Hrun Hne.
  destruct (fetch_sound P FetchIndex ticker w Hs) as [_ Hprod].
  destruct (Hprod df Hrun) as [Hempty | [c Hatt]]; [done|].
  pose proof Hatt as Hatt'. simpl in Hatt'. unfold index_attempt in Hatt'.
  destruct (history P (mkTicker ticker c)) as [hist|] eqn:Hh; [|done].
  rewrite bind_Ok in Hatt'.
  destruct (getitem hist "Close") as [close|] eqn:Hc; [|done].
  rewrite bind_Ok in Hatt'.
  rewrite getitem_setitem_ne, Hc, bind_Ok in Hatt' by done.
  rewrite 2!getitem_setitem_ne, Hc, bind_Ok in Hatt' by done.
  inversion Hatt' as [Hdf].
  exists c, hist, close, (rolling_mean 20 close), (ewm_mean 20 close),
    (rolling_std 20 close).
  split; [done|]. split; [done|].
  split; [by rewrite !index_setitem|].
  split; [intros l H1 H2 H3; by rewrite !getitem_setitem_ne|].
  split; [by rewrite 2!getitem_setitem_ne, getitem_setitem_eq by done|].
  split; [by rewrite getitem_setitem_ne, getitem_setitem_eq by done|].
  split; [by rewrite getitem_setitem_eq|].
  unfold rolling_mean, rolling_std. by rewrite !length_rolling, length_ewm_mean.
Qed.

Lemma derived_columns_only_added_witness :
  exists c hist,
    history steady (mkTicker "^GSPC" c) = Ok hist /\
    index (outcome steady FetchIndex "^GSPC" 0) = index hist.
Proof.
  destruct (derived_columns_only_added steady "^GSPC" initial_world
              (outcome steady FetchIndex "^GSPC" 0))
    as (c & hist & close & sma & ema & vol & Hh & _ & Hi & _).
  - apply cache_sound_initial.
  - vm_compute. reflexivity.
  - vm_compute. discriminate.
  - exists c, hist. auto.
Defined.

(** * The stock attempt and the snapshot, case by case *)

Lemma dividend_yield_entry_raises (summary : gmap string pyval) :
  raised (dividend_yield_entry summary) = true <->
  exists v, summary !! "dividendYield" = Some v /\ unrenderable v = true.
Proof.
  unfold dividend_yield_entry.
  destruct (summary !! "dividendYield") as [v|] eqn:Hy.
  2: { split; [done | intros (v & Hv & _); discriminate]. }
  change (default PNone (Some v)) with v. change (default (PInt 0) (Some v)) with v.
  assert (Hiff : raised (if truthy v
                         then v' ← py_mul_100 v; s ← py_format_2f v'; Ok (PStr (s ++ "%"))
                         else Ok (PStr "N/A"))
                 = unrenderable v).
  { destruct v as [|b|z|x|s|items|entries].
    - reflexivity.
    - by destruct b.
    - change (truthy (PInt z)) with (negb (z =? 0)%Z).
      destruct (Z.eqb_spec z 0) as [->|Hnz]; [reflexivity|].
      change (raised (s ← int_format_2f (z * 100); Ok (PStr (s ++ "%")))
              = is_infinite (float_of_int (z * 100))).
      unfold int_format_2f. by destruct (is_infinite (float_of_int (z * 100))).
    - by destruct x.
    - change (truthy (PStr s)) with (negb (String.eqb s "")).
      change (unrenderable (PStr s)) with (negb (String.eqb s "")).
      by destruct (String.eqb s "").
    - by destruct items.
    - by destruct entries. }
  rewrite Hiff. split; [eauto|]. intros (v' & Hv & Hu). by inversion Hv; subst.
Qed.

(** X8. An attempt of fetch_stock_data_safe fails in exactly these
    cases: the history query raises, the summary query raises, or the
    summary's dividendYield is a value that is true and that the
    f-string cannot render, which is a non-empty string, a non-empty
    list or dictionary, or an integer whose product with 100 is too
    large for a float; every other yield, NaN and the infinities
    included, is rendered or gives 'N/A'.  When the attempt succeeds,
    the frame returned is the provider's history, unchanged. *)
Theorem stock_attempt_fails_iff (P : provider) (tk : Ticker) :
  (raised (stock_attempt P tk) = true <->
   raised (history P tk) = true \/
   raised (info P tk) = true \/
   exists summary v,
     info P tk = Ok summary /\ summary !! "dividendYield" = Some v /\
     unrenderable v = true) /\
  (forall hist metrics,
     stock_attempt P tk = Ok (hist, metrics) -> history P tk = Ok hist).
Proof.
  split.
  - unfold stock_attempt, stock_metrics.
    destruct (history P tk) as [hist|e]; [|simpl; tauto]. rewrite bind_Ok.
    destruct (info P tk) as [summary|e]; [|simpl; tauto]. rewrite bind_Ok.
    pose proof (dividend_yield_entry_raises summary) as Hdy.
    destruct (dividend_yield_entry summary) as [dy|e]; simpl in *.
    + split; [done|]. intros [H|[H|(s0 & v & Hs & Hy & Hu)]]; try done.
      inversion Hs; subst. apply Hdy. eauto.
    + split; [|done]. intros _. right. right.
      destruct Hdy as [(v & Hy & Hu) _]; [done|]. eauto.
  - intros hist metrics H.
    by destruct (stock_attempt_inv P tk hist metrics H) as (_ & _ & Hh & _).
Qed.

Lemma stock_attempt_fails_iff_witness :
  raised (stock_attempt worded_yield (mkTicker "AAPL" 0)) = true.
Proof.
  destruct (stock_attempt_fails_iff worded_yield (mkTicker "AAPL" 0)) as [[_ Hfails] _].
  apply Hfails. right. right.
  exists (<["dividendYield" := PStr "1.23%"]> ∅), (PStr "1.23%").
  split; [reflexivity|]. split; reflexivity.
Defined.

(** * The shape of the snapshot *)

Lemma filter_labels (l : string) (cs : list (string * list cell)) :
  map fst (List.filter (has_label l) cs) = List.filter (String.eqb l) (map fst cs).
Proof.
  induction cs as [|c cs IH]; [done|]. simpl. unfold has_label at 1.
  rewrite (String.eqb_sym (fst c) l). destruct (String.eqb l (fst c)); simpl; by rewrite IH.
Qed.

Lemma filter_once (l : string) (cs : list (string * list cell)) :
  occurs_once l (map fst cs) ->
  exists col, List.filter (has_label l) cs = [(l, col)].
Proof.
  unfold occurs_once. rewrite <- filter_labels, length_map. intros Hlen.
  pose proof (filter_has_label l cs) as Hall.
  destruct (List.filter (has_label l) cs) as [|[l0 col] [|c' rest]]; try done.
  apply List.Forall_inv in Hall. simpl in Hall. subst l0. by exists col.
Qed.

Lemma select_columns_once (cs : list (string * list cell)) (labels : list string) :
  (forall l, In l labels -> occurs_once l (map fst cs)) ->
  exists found, select_columns cs labels = Ok found /\ map fst found = labels.
Proof.
  induction labels as [|l ls IH]; intros Hall; [by exists []|].
  destruct IH as (rest & Hrest & Hlabels); [intros l' Hl'; apply Hall; by right|].
  destruct (filter_once l cs (Hall l ltac:(by left))) as [col Hf].
  exists ((l, col) :: rest). simpl. rewrite Hf, Hrest. simpl.
  split; [done | by rewrite Hlabels].
Qed.

Lemma getitem_list_once (df : DataFrame) (labels : list string) :
  (forall l, In l labels -> occurs_once l (column_labels df)) ->
  exists found, getitem_list df labels = Ok found /\
                column_labels found = labels /\ index found = index df.
Proof.
  intros Hall. destruct (select_columns_once _ _ Hall) as (cs & Hcs & Hl).
  exists (mkFrame (index df) cs). unfold getitem_list. rewrite Hcs. by simpl.
Qed.

Lemma index_join (left right joined : DataFrame) :
  join left right = Ok joined -> index joined = index left.
Proof.
  unfold join. destruct (existsb _ _); [done|]. intros H. by inversion H.
Qed.

(** X9. When the balance sheet and the income statement each carry
    every selected line item exactly once, and the periods of the income
    statement are distinct, the attempt of metrics_table_safe succeeds;
    the snapshot lists the seven line items in the fixed order of the
    code, whatever their order at the provider, and has one column per
    reporting period of the balance sheet, in the balance sheet's
    order. *)
Theorem snapshot_shape (P : provider) (tk : Ticker) (fin bs : DataFrame) :
  financials P tk = Ok fin -> balance_sheet P tk = Ok bs ->
  (forall item, In item balance_items -> occurs_once item (index bs)) ->
  (forall item, In item income_items -> occurs_once item (index fin)) ->
  NoDup (column_labels fin) ->
  exists df,
    table_attempt P tk = Ok df /\
    index df = ["Total Assets"; "Total Debt"; "Total Revenue"; "EBITDA"; "Basic EPS";
                "Operating Income"; "Operating Expense"] /\
    column_labels df = column_labels bs.
Proof.
  intros Hfin Hbs Hb Hi _. unfold table_attempt.
  rewrite Hfin, bind_Ok, Hbs, bind_Ok.
  destruct (getitem_list_once (transpose bs) balance_items) as (o1 & Ho1 & Hl1 & Hi1);
    [by rewrite column_labels_transpose |].
  destruct (getitem_list_once (transpose fin) income_items) as (o2 & Ho2 & Hl2 & Hi2);
    [by rewrite column_labels_transpose |].
  rewrite Ho1, bind_Ok, Ho2, bind_Ok.
  destruct (join o1 o2) as [o|e] eqn:Hj.
  - rewrite bind_Ok. eexists. split; [done|]. split.
    + change (column_labels o = balance_items ++ income_items).
      by rewrite (join_labels _ _ _ Hj), Hl1, Hl2.
    + by rewrite column_labels_transpose, (index_join _ _ _ Hj), Hi1.
  - unfold join in Hj. rewrite Hl1, Hl2 in Hj. vm_compute in Hj. discriminate.
Qed.

Lemma snapshot_shape_witness :
  exists df,
    table_attempt steady (mkTicker "AAPL" 0) = Ok df /\
    column_labels df = ["2023-09-30"; "2022-09-30"].
Proof.
  destruct (snapshot_shape steady (mkTicker "AAPL" 0) sample_financials sample_balance_sheet)
    as (df & Hdf & _ & Hcols).
  - reflexivity.
  - reflexivity.
  - simpl. intros item [<-|[<-|[]]]; reflexivity.
  - simpl. intros item [<-|[<-|[<-|[<-|[<-|[]]]]]]; reflexivity.
  - apply (bool_decide_unpack _). vm_compute. exact I.
  - exists df. split; [exact Hdf | exact Hcols].
Defined.

(** * The cells of the snapshot *)

Lemma position_lookup (l : string) (ls : list string) (i : nat) :
  position l ls = Some i -> ls !! i = Some l.
Proof.
  revert i. induction ls as [|x ls IH]; intros i H; [done|]. simpl in H.
  destruct (String.eqb_spec x l) as [->|Hne].
  - by inversion H.
  - destruct (position l ls) as [j|]; [|done]. inversion H; subst. by apply IH.
Qed.

Lemma position_None (l : string) (ls : list string) :
  position l ls = None <-> ~ In l ls.
Proof.
  induction ls as [|x ls IH]; simpl; [tauto|].
  destruct (String.eqb_spec x l) as [->|Hne].
  - split; [done | tauto].
  - destruct (position l ls) as [j|]; simpl.
    + split; [done|]. intros H. exfalso.
      assert (Hn : ~ In l ls) by tauto. by apply IH in Hn.
    + split; [|done]. intros _ [H|H]; [done|]. by apply IH in H.
Qed.

(** The first column carrying a label is the one at the label's position. *)
Lemma find_position (p : string) (cs : list (string * list cell)) :
  List.find (has_label p) cs =
  match position p (map fst cs) with
  | Some j => cs !! j
  | None => None
  end.
Proof.
  induction cs as [|c cs IH]; [done|]. simpl. unfold has_label at 1.
  destruct (String.eqb (fst c) p); [done|]. rewrite IH.
  by destruct (position p (map fst cs)).
Qed.

Lemma lookup_combine_seq (l : list string) (s a : nat) (r : string) :
  l !! a = Some r -> combine (seq s (length l)) l !! a = Some ((s + a)%nat, r).
Proof.
  revert s a. induction l as [|x l IH]; intros s a H; [done|]. simpl.
  destruct a as [|a]; simpl in *.
  - inversion H. by rewrite Nat.add_0_r.
  - rewrite (IH (S s) a H). do 2 f_equal. lia.
Qed.

Lemma lookup_transpose (X : DataFrame) (a : nat) (r : string) :
  index X !! a = Some r ->
  columns (transpose X) !! a = Some (r, map (fun c => nth_cell a (snd c)) (columns X)).
Proof.
  unfold transpose. simpl. intros H.
  by rewrite list_lookup_fmap, (lookup_combine_seq _ 0 a r H).
Qed.

Lemma getitem_transpose (X : DataFrame) (r : string) :
  getitem (transpose X) r =
  match position r (index X) with
  | Some a => Ok (map (fun c => nth_cell a (snd c)) (columns X))
  | None => Raise (KeyError r)
  end.
Proof.
  unfold getitem. rewrite find_position.
  change (map fst (columns (transpose X))) with (column_labels (transpose X)).
  rewrite column_labels_transpose.
  destruct (position r (index X)) as [a|] eqn:Hp; [|done].
  by rewrite (lookup_transpose X a r (position_lookup _ _ _ Hp)).
Qed.

Lemma nth_cell_lookup (i : nat) (col : list cell) :
  nth_cell i col = default None (col !! i).
Proof.
  unfold nth_cell. revert i. induction col as [|c col IH]; intros [|i]; simpl; auto.
Qed.

(** Transposing a frame swaps the roles of its labels. *)
Lemma loc_transpose (X : DataFrame) (row col : string) :
  loc (transpose X) col row = loc X row col.
Proof.
  unfold loc. rewrite getitem_transpose.
  change (index (transpose X)) with (column_labels X).
  unfold getitem. rewrite find_position. fold (column_labels X).
  destruct (position row (index X)) as [a|]; destruct (position col (column_labels X)) as [j|] eqn:Hj;
    try done.
  - pose proof (position_lookup _ _ _ Hj) as Hl. unfold column_labels in Hl.
    rewrite list_lookup_fmap in Hl.
    destruct (columns X !! j) as [c|] eqn:Hc; [|done].
    f_equal. rewrite nth_cell_lookup, list_lookup_fmap, Hc. done.
  - by destruct (columns X !! j).
Qed.

Lemma find_app_l (p : string) (cs1 cs2 : list (string * list cell)) :
  In p (map fst cs1) ->
  List.find (has_label p) (cs1 ++ cs2) = List.find (has_label p) cs1.
Proof.
  induction cs1 as [|c cs1 IH]; simpl; [done|]. unfold has_label at 1 3.
  destruct (String.eqb_spec (fst c) p); [done|]. intros [H|H]; [done|]. by apply IH.
Qed.

Lemma find_app_r (p : string) (cs1 cs2 : list (string * list cell)) :
  ~ In p (map fst cs1) ->
  List.find (has_label p) (cs1 ++ cs2) = List.find (has_label p) cs2.
Proof.
  induction cs1 as [|c cs1 IH]; simpl; [done|]. unfold has_label at 1.
  destruct (String.eqb_spec (fst c) p); [tauto|]. intros H. apply IH. tauto.
Qed.

Lemma find_filter_same (p : string) (cs : list (string * list cell)) :
  List.find (has_label p) (List.filter (has_label p) cs) = List.find (has_label p) cs.
Proof.
  induction cs as [|c cs IH]; [done|]. simpl.
  destruct (has_label p c) eqn:Hc; simpl; by rewrite ?Hc.
Qed.

Lemma find_filter_other (p l : string) (cs : list (string * list cell)) :
  l <> p -> List.find (has_label p) (List.filter (has_label l) cs) = None.
Proof.
  intros Hne. induction cs as [|c cs IH]; [done|]. simpl.
  destruct (has_label l c) eqn:Hc; [|done]. simpl.
  unfold has_label in *. apply String.eqb_eq in Hc. rewrite Hc.
  by apply String.eqb_neq in Hne as ->.
Qed.

Lemma find_None_app (p : string) (cs1 cs2 : list (string * list cell)) :
  List.find (has_label p) cs1 = None ->
  List.find (has_label p) (cs1 ++ cs2) = List.find (has_label p) cs2.
Proof.
  induction cs1 as [|c cs1 IH]; simpl; [done|]. by destruct (has_label p c).
Qed.

Lemma find_Some_app (p : string) (cs1 cs2 : list (string * list cell)) c :
  List.find (has_label p) cs1 = Some c ->
  List.find (has_label p) (cs1 ++ cs2) = Some c.
Proof.
  induction cs1 as [|c1 cs1 IH]; simpl; [done|]. by destruct (has_label p c1).
Qed.

(** Selecting columns keeps, under each selected label, the column the
    frame had under it. *)
Lemma find_select_columns (cs found : list (string * list cell)) (labels : list string)
    (p : string) :
  select_columns cs labels = Ok found -> In p labels ->
  List.find (has_label p) found = List.find (has_label p) cs.
Proof.
  revert found. induction labels as [|l ls IH]; intros found H Hp; [done|].
  simpl in H.
  destruct (List.filter (has_label l) cs) as [|c0 cs0] eqn:Hf; [done|].
  destruct (select_columns cs ls) as [rest|] eqn:Hrest; [|done].
  rewrite bind_Ok in H. inversion H; subst found.
  change (List.find (has_label p) ((c0 :: cs0) ++ rest) = List.find (has_label p) cs).
  destruct (String.eqb_spec l p) as [->|Hne].
  - rewrite <- (find_filter_same p cs), Hf.
    assert (Hsome : exists c, List.find (has_label p) (c0 :: cs0) = Some c).
    { assert (Hh : has_label p c0 = true).
      { assert (Hin : In c0 (List.filter (has_label p) cs)) by (rewrite Hf; by left).
        by apply List.filter_In in Hin as [_ ?]. }
      exists c0. simpl. by rewrite Hh. }
    destruct Hsome as [c Hc]. by rewrite (find_Some_app _ _ _ _ Hc), Hc.
  - destruct Hp as [H'|Hp]; [done|].
    rewrite find_None_app.
    + by apply IH.
    + rewrite <- Hf. by apply find_filter_other.
Qed.

Lemma loc_getitem_list (X Y : DataFrame) (labels : list string) (row col : string) :
  getitem_list X labels = Ok Y -> In col labels -> loc Y row col = loc X row col.
Proof.
  unfold getitem_list. intros H Hc.
  destruct (select_columns (columns X) labels) as [cs|] eqn:Hcs; [|done].
  rewrite bind_Ok in H. inversion H; subst Y. unfold loc, getitem. simpl.
  by rewrite (find_select_columns _ _ _ _ Hcs Hc).
Qed.

Lemma loc_join_left (L R J : DataFrame) (row col : string) :
  join L R = Ok J -> In col (column_labels L) -> loc J row col = loc L row col.
Proof.
  unfold join. destruct (existsb _ _); [done|]. intros H Hc. inversion H; subst J.
  unfold loc, getitem. simpl. by rewrite find_app_l.
Qed.

Lemma join_disjoint (L R J : DataFrame) (col : string) :
  join L R = Ok J -> In col (column_labels R) -> ~ In col (column_labels L).
Proof.
  unfold join. destruct (existsb _ _) eqn:He; [done|]. intros _ Hr Hl.
  assert (Ht : existsb (fun l => existsb (String.eqb l) (column_labels R)) (column_labels L)
               = true).
  { apply existsb_exists. exists col. split; [done|]. apply existsb_exists.
    exists col. split; [done | apply String.eqb_refl]. }
  by rewrite Ht in He.
Qed.

Lemma find_map_columns (p : string) (h : string * list cell -> list cell)
    (cs : list (string * list cell)) :
  List.find (has_label p) (map (fun c => (fst c, h c)) cs)
  = option_map (fun c => (fst c, h c)) (List.find (has_label p) cs).
Proof.
  induction cs as [|c cs IH]; [done|]. simpl. unfold has_label at 1 3. simpl.
  by destruct (String.eqb (fst c) p).
Qed.

(** A left join keeps the rows of the left frame: a column of the right
    frame holds, on each of them, the right frame's cell for that row
    label, or NaN when the right frame has no such row. *)
Lemma loc_join_right (L R J : DataFrame) (row col : string) :
  join L R = Ok J -> In col (column_labels R) -> In row (index L) ->
  loc J row col =
  match position row (index R) with Some _ => loc R row col | None => Some None end.
Proof.
  intros Hj Hc Hr. pose proof (join_disjoint _ _ _ _ Hj Hc) as Hnl.
  unfold join in Hj. destruct (existsb _ _); [done|]. inversion Hj; subst J.
  unfold loc, getitem. simpl. rewrite find_app_r by done.
  destruct (position row (index L)) as [i|] eqn:Hi;
    [|by apply position_None in Hi].
  pose proof (position_lookup _ _ _ Hi) as Hli.
  rewrite (find_map_columns col
             (fun c => map (fun r => match position r (index R) with
                                     | Some j => nth_cell j (snd c)
                                     | None => None
                                     end) (index L))).
  destruct (List.find (has_label col) (columns R)) as [c|] eqn:Hf.
  - simpl. rewrite nth_cell_lookup, list_lookup_fmap, Hli. simpl.
    by destruct (position row (index R)).
  - exfalso. rewrite find_position in Hf. fold (column_labels R) in Hf.
    destruct (position col (column_labels R)) as [j|] eqn:Hp.
    + pose proof (position_lookup _ _ _ Hp) as Hl. unfold column_labels in Hl.
      rewrite list_lookup_fmap, Hf in Hl. done.
    + by apply position_None in Hp.
Qed.

(** X10. Every figure of a snapshot built by metrics_table_safe is the
    provider's figure for that line item and period: a balance-sheet line
    holds the balance sheet's cells; an income line holds, for a period of
    the balance sheet, the income statement's cell, or NaN when the
    income statement has no such period. *)
Theorem snapshot_cells (P : provider) (tk : Ticker) (fin bs df : DataFrame) :
  financials P tk = Ok fin -> balance_sheet P tk = Ok bs ->
  table_attempt P tk = Ok df ->
  (forall item period, In item balance_items ->
     loc df item period = loc bs item period) /\
  (forall item period, In item income_items -> In period (column_labels bs) ->
     (In period (column_labels fin) -> loc df item period = loc fin item period) /\
     (~ In period (column_labels fin) -> loc df item period = Some None)).
Proof.
  intros Hfin Hbs. unfold table_attempt. rewrite Hfin, bind_Ok, Hbs, bind_Ok.
  destruct (getitem_list (transpose bs) balance_items) as [o1|] eqn:H1; [|done].
  rewrite bind_Ok.
  destruct (getitem_list (transpose fin) income_items) as [o2|] eqn:H2; [|done].
  rewrite bind_Ok.
  destruct (join o1 o2) as [o|] eqn:Hj; [|done]. rewrite bind_Ok.
  intros Hdf. inversion Hdf; subst df.
  assert (Hi1 : index o1 = column_labels bs).
  { unfold getitem_list in H1.
    destruct (select_columns (columns (transpose bs)) balance_items); [|done].
    rewrite bind_Ok in H1. by inversion H1. }
  assert (Hi2 : index o2 = column_labels fin).
  { unfold getitem_list in H2.
    destruct (select_columns (columns (transpose fin)) income_items); [|done].
    rewrite bind_Ok in H2. by inversion H2. }
  split.
  - intros item period Hitem. rewrite loc_transpose.
    rewrite (loc_join_left _ _ _ _ _ Hj) by (by eapply getitem_list_labels).
    by rewrite (loc_getitem_list _ _ _ _ _ H1 Hitem), loc_transpose.
  - intros item period Hitem Hperiod. rewrite loc_transpose.
    rewrite (loc_join_right _ _ _ _ _ Hj); [| by eapply getitem_list_labels | by rewrite Hi1].
    rewrite Hi2. split.
    + intros Hin. destruct (position period (column_labels fin)) eqn:Hp.
      * by rewrite (loc_getitem_list _ _ _ _ _ H2 Hitem), loc_transpose.
      * by apply position_None in Hp.
    + intros Hout. by apply position_None in Hout as ->.
Qed.

Lemma snapshot_cells_witness :
  loc (outcome steady MetricsTable "AAPL" 0) "Total Debt" "2022-09-30"
  = loc sample_balance_sheet "Total Debt" "2022-09-30".
Proof.
  destruct (snapshot_cells steady (mkTicker "AAPL" 0) sample_financials
              sample_balance_sheet (outcome steady MetricsTable "AAPL" 0))
    as [Hbalance _].
  - reflexivity.
  - reflexivity.
  - vm_compute. reflexivity.
  - apply Hbalance. simpl. auto.
Defined.

(** * The dashboards, run by run *)

Lemma display_index_run (P : provider) (w : world) :
  exists df tr shown,
    fetch_index_data_safe P (selected_index w)
      (before_fetch "Industry Indices Dashboard" "Retry Fetch Index Data" w)
    = (Ok df, snd (fetch_index_data_safe P (selected_index w)
                     (before_fetch "Industry Indices Dashboard" "Retry Fetch Index Data" w))) /\
    display_index_dashboard P w
    = render_index (selected_index w) df
        (snd (fetch_index_data_safe P (selected_index w)
                (before_fetch "Industry Indices Dashboard" "Retry Fetch Index Data" w))) /\
    snd (display_index_dashboard P w)
    = append_log shown
        (snd (fetch_index_data_safe P (selected_index w)
                (before_fetch "Industry Indices Dashboard" "Retry Fetch Index Data" w))) /\
    forallb is_output shown = true /\
    new_events w (snd (display_index_dashboard P w))
    = (ETitle "Industry Indices Dashboard"
       :: (if clicked w "Retry Fetch Index Data" then [ECacheClear] else []))
      ++ ECall FetchIndex (selected_index w) :: tr ++ shown /\
    no_calls tr = true.
Proof.
  set (sel := selected_index w).
  set (w1 := before_fetch "Industry Indices Dashboard" "Retry Fetch Index Data" w).
  destruct (fetch_log P FetchIndex sel w1) as (df & tr & Hrun & Hlog & Hn).
  set (w2 := snd (fetch P FetchIndex sel w1)) in *.
  destruct (renders_render_index sel df w2) as (shown & Hshown & Hout).
  assert (Hdisplay : display_index_dashboard P w = render_index sel df w2).
  { rewrite display_index_unfold. fold sel w1.
    unfold mbind at 1. unfold M_bind at 1.
    change (fetch_index_data_safe P sel w1) with (fetch P FetchIndex sel w1).
    by rewrite Hrun. }
  change (fetch_index_data_safe P sel w1) with (fetch P FetchIndex sel w1).
  fold w2.
  exists df, tr, shown.
  split; [exact Hrun|]. split; [exact Hdisplay|]. split; [by rewrite Hdisplay|].
  split; [exact Hout|]. split; [|exact Hn].
  apply new_events_app. rewrite Hdisplay, Hshown. unfold append_log. simpl.
  rewrite Hlog. unfold w1. rewrite log_before_fetch.
  rewrite <- !app_assoc. simpl. by rewrite <- ?app_assoc.
Qed.

Lemma display_stock_run (P : provider) (w : world) :
  exists stock_data metrics w2 metr w3 tr1 tr2 shown,
    fetch_stock_data_safe P (selected_stock w)
      (before_fetch "Stocks Dashboard" "Retry Fetch Stock Data" w)
    = (Ok (stock_data, metrics), w2) /\
    w2 = snd (fetch_stock_data_safe P (selected_stock w)
                (before_fetch "Stocks Dashboard" "Retry Fetch Stock Data" w)) /\
    metrics_table_safe P (selected_stock w) w2 = (Ok metr, w3) /\
    w3 = snd (metrics_table_safe P (selected_stock w) w2) /\
    display_stock_dashboard P w
    = render_stock (selected_stock w) stock_data metrics metr w3 /\
    snd (display_stock_dashboard P w) = append_log shown w3 /\
    forallb is_output shown = true /\
    new_events w (snd (display_stock_dashboard P w))
    = (ETitle "Stocks Dashboard"
       :: (if clicked w "Retry Fetch Stock Data" then [ECacheClear] else []))
      ++ ECall FetchStock (selected_stock w) :: tr1
      ++ ECall MetricsTable (selected_stock w) :: tr2 ++ shown /\
    no_calls tr1 = true /\ no_calls tr2 = true.
Proof.
  set (sel := selected_stock w).
  set (w1 := before_fetch "Stocks Dashboard" "Retry Fetch Stock Data" w).
  destruct (fetch_log P FetchStock sel w1) as ([stock_data metrics] & tr1 & Hrun1 & Hlog1 & Hn1).
  set (w2 := snd (fetch P FetchStock sel w1)) in *.
  destruct (fetch_log P MetricsTable sel w2) as (metr & tr2 & Hrun2 & Hlog2 & Hn2).
  set (w3 := snd (fetch P MetricsTable sel w2)) in *.
  destruct (renders_render_stock sel stock_data metrics metr w3) as (shown & Hshown & Hout).
  assert (Hdisplay : display_stock_dashboard P w
                     = render_stock sel stock_data metrics metr w3).
  { rewrite display_stock_unfold. fold sel w1.
    unfold mbind at 1. unfold M_bind at 1.
    change (fetch_stock_data_safe P sel w1) with (fetch P FetchStock sel w1).
    rewrite Hrun1. unfold mbind at 1. unfold M_bind at 1.
    change (metrics_table_safe P sel w2) with (fetch P MetricsTable sel w2).
    by rewrite Hrun2. }
  exists stock_data, metrics, w2, metr, w3, tr1, tr2, shown.
  split; [exact Hrun1|]. split; [done|]. split; [exact Hrun2|]. split; [done|].
  split; [exact Hdisplay|]. split; [by rewrite Hdisplay|]. split; [exact Hout|].
  split; [|by split].
  apply new_events_app. rewrite Hdisplay, Hshown. unfold append_log. simpl.
  rewrite Hlog2, Hlog1. unfold w1. rewrite log_before_fetch.
  rewrite <- !app_assoc. simpl. by rewrite <- ?app_assoc.
Qed.

Lemma before_fetch_not_clicked (title button : string) (w : world) :
  clicked w button = false -> before_fetch title button w = emit (ETitle title) w.
Proof. unfold before_fetch. by intros ->. Qed.

Lemma delays_output (tr : list event) : forallb is_output tr = true -> delays tr = [].
Proof.
  unfold delays, omap. induction tr as [|e tr IH]; [done|]. simpl.
  intros H. apply andb_prop in H as [He Htr]. rewrite (IH Htr). by destruct e.
Qed.

(** X11. A rerun of a dashboard without pressing its retry button, while
    what it needs is stored and fresh, contacts nobody and waits for
    nothing: the provider is not contacted, the clock does not move, no
    delay is made and the stores are unchanged. *)
Theorem rerun_uses_cache (P : provider) (w : world) :
  (clicked w "Retry Fetch Index Data" = false ->
   is_Some (cache_hit (index_cache w) (selected_index w) (clock w)) ->
   contacts (snd (display_index_dashboard P w)) = contacts w /\
   clock (snd (display_index_dashboard P w)) = clock w /\
   delays (new_events w (snd (display_index_dashboard P w))) = [] /\
   forall g t, store g (snd (display_index_dashboard P w)) !! t = store g w !! t) /\
  (clicked w "Retry Fetch Stock Data" = false ->
   is_Some (cache_hit (stock_cache w) (selected_stock w) (clock w)) ->
   is_Some (cache_hit (table_cache w) (selected_stock w) (clock w)) ->
   contacts (snd (display_stock_dashboard P w)) = contacts w /\
   clock (snd (display_stock_dashboard P w)) = clock w /\
   delays (new_events w (snd (display_stock_dashboard P w))) = [] /\
   forall g t, store g (snd (display_stock_dashboard P w)) !! t = store g w !! t).
Proof.
  split.
  - intros Hclick [v Hv].
    destruct (display_index_run P w) as (df & tr & shown & _ & _ & Hsnd & Hout & Hev & _).
    rewrite (before_fetch_not_clicked _ _ _ Hclick) in Hsnd.
    assert (Hhit : fetch P FetchIndex (selected_index w)
                     (emit (ETitle "Industry Indices Dashboard") w)
                   = (Ok v, emit (ECall FetchIndex (selected_index w))
                              (emit (ETitle "Industry Indices Dashboard") w)))
      by (by apply fetch_hit).
    change (fetch P FetchIndex) with (fetch_index_data_safe P) in Hhit.
    rewrite Hhit in Hsnd. simpl in Hsnd.
    assert (Hlog : log (snd (display_index_dashboard P w))
                   = log w ++ [ETitle "Industry Indices Dashboard";
                               ECall FetchIndex (selected_index w)] ++ shown).
    { rewrite Hsnd. unfold append_log. simpl. by rewrite <- !app_assoc. }
    rewrite (new_events_app _ _ _ Hlog), Hsnd.
    split; [done|]. split; [done|]. split.
    + rewrite delays_app, (delays_output _ Hout). reflexivity.
    + intros g t. by destruct g.
  - intros Hclick [v Hv] [m Hm].
    destruct (display_stock_run P w)
      as (sd & metrics & w2 & metr & w3 & tr1 & tr2 & shown
          & _ & Hw2 & _ & Hw3 & _ & Hsnd & Hout & _).
    rewrite (before_fetch_not_clicked _ _ _ Hclick) in Hw2.
    assert (Hhit1 : fetch P FetchStock (selected_stock w)
                      (emit (ETitle "Stocks Dashboard") w)
                    = (Ok v, emit (ECall FetchStock (selected_stock w))
                               (emit (ETitle "Stocks Dashboard") w)))
      by (by apply fetch_hit).
    change (fetch P FetchStock) with (fetch_stock_data_safe P) in Hhit1.
    rewrite Hhit1 in Hw2. simpl in Hw2.
    assert (Hhit2 : fetch P MetricsTable (selected_stock w) w2
                    = (Ok m, emit (ECall MetricsTable (selected_stock w)) w2))
      by (apply fetch_hit; by subst w2).
    change (fetch P MetricsTable) with (metrics_table_safe P) in Hhit2.
    rewrite Hhit2 in Hw3. simpl in Hw3.
    assert (Hlog : log (snd (display_stock_dashboard P w))
                   = log w ++ [ETitle "Stocks Dashboard";
                               ECall FetchStock (selected_stock w);
                               ECall MetricsTable (selected_stock w)] ++ shown).
    { rewrite Hsnd, Hw3, Hw2. unfold append_log. simpl. by rewrite <- !app_assoc. }
    rewrite (new_events_app _ _ _ Hlog), Hsnd, Hw3, Hw2.
    split; [done|]. split; [done|]. split.
    + rewrite delays_app, (delays_output _ Hout). reflexivity.
    + intros g t. by destruct g.
Qed.

Lemma rerun_uses_cache_witness :
  contacts (snd (display_index_dashboard steady
                   (snd (display_index_dashboard steady initial_world))))
  = contacts (snd (display_index_dashboard steady initial_world)).
Proof.
  destruct (rerun_uses_cache steady (snd (display_index_dashboard steady initial_world)))
    as [Hindex _].
  destruct Hindex as (Hc & _).
  - reflexivity.
  - vm_compute. eauto.
  - exact Hc.
Defined.

Lemma exhausted_fetch_world (P : provider) (f : fn_id) (ticker : string) (w : world) :
  store f w !! ticker = None ->
  (forall k, (k < 5)%nat ->
     raised (attempt P f (mkTicker ticker (contacts w + k))) = true) ->
  fetch P f ticker w = (Ok (sentinel f), miss_world P f ticker w) /\
  clock (miss_world P f ticker w) = (clock w + 300)%Z /\
  contacts (miss_world P f ticker w) = (contacts w + 5)%nat /\
  delays (run_trace P f ticker (contacts w)) = repeat 60%Z 5.
Proof.
  intros Hnone Hfail.
  destruct (exhausted_run P f ticker (contacts w) Hfail) as (Hout & Hlen & _).
  destruct (all_fail_first_success ticker (attempt P f) 5 (contacts w) Hfail) as [Hs _].
  rewrite (fetch_miss _ _ _ _ (cache_hit_empty _ _ _ Hnone)), Hout.
  split; [done|]. split; [rewrite clock_miss_world, Hlen; lia|].
  split; [by rewrite contacts_miss_world, Hlen, Hs|].
  unfold run_trace. by rewrite delays_loop_trace, Hlen.
Qed.

Lemma store_before_fetch (title button : string) (g : fn_id) (t : string) (w : world) :
  clicked w button = true \/ store g w !! t = None ->
  store g (before_fetch title button w) !! t = None.
Proof.
  unfold before_fetch. destruct (clicked w button).
  - intros _. apply store_cache_clear.
  - intros [H|H]; [done|]. by rewrite store_emit.
Qed.

Lemma before_fetch_frame (title button : string) (w : world) :
  clock (before_fetch title button w) = clock w /\
  contacts (before_fetch title button w) = contacts w.
Proof. unfold before_fetch. by destruct (clicked w button). Qed.

(** X12. With the provider down and nothing stored for the selected
    symbol (or the retry button pressed), the index dashboard blocks for
    300 seconds, five delays of 60, and after the fetch shows the warning
    "No data available." and nothing else, and returns normally; the
    stock dashboard runs both of its fetches to exhaustion, blocks for
    600 seconds, ten delays, returns normally, and the last thing it
    shows is the warning "No stock data available.". *)
Theorem dashboards_with_provider_down (P : provider) (w : world) :
  (clicked w "Retry Fetch Index Data" = true \/
   index_cache w !! selected_index w = None ->
   (forall k, (k < 5)%nat ->
      raised (index_attempt P (mkTicker (selected_index w) (contacts w + k))) = true) ->
   display_index_dashboard P w
   = (Ok tt, emit (EWarning "No data available.")
               (snd (fetch_index_data_safe P (selected_index w)
                       (before_fetch "Industry Indices Dashboard"
                          "Retry Fetch Index Data" w)))) /\
   clock (snd (display_index_dashboard P w)) = (clock w + 300)%Z /\
   delays (new_events w (snd (display_index_dashboard P w))) = repeat 60%Z 5) /\
  (clicked w "Retry Fetch Stock Data" = true \/
   (stock_cache w !! selected_stock w = None /\
    table_cache w !! selected_stock w = None) ->
   (forall k, (k < 5)%nat ->
      raised (stock_attempt P (mkTicker (selected_stock w) (contacts w + k))) = true) ->
   (forall k, (k < 5)%nat ->
      raised (table_attempt P (mkTicker (selected_stock w) (contacts w + 5 + k))) = true) ->
   fst (display_stock_dashboard P w) = Ok tt /\
   (exists tr, new_events w (snd (display_stock_dashboard P w))
               = tr ++ [EWarning "No stock data available."]) /\
   clock (snd (display_stock_dashboard P w)) = (clock w + 600)%Z /\
   delays (new_events w (snd (display_stock_dashboard P w))) = repeat 60%Z 10).
Proof.
  split.
  - intros Hstore Hfail.
    set (sel := selected_index w) in *.
    set (w1 := before_fetch "Industry Indices Dashboard" "Retry Fetch Index Data" w).
    destruct (before_fetch_frame "Industry Indices Dashboard" "Retry Fetch Index Data" w)
      as [Hclock Hcontacts]. fold w1 in Hclock, Hcontacts.
    destruct (exhausted_fetch_world P FetchIndex sel w1) as (Hrun & Hc & _ & Hd).
    { by apply (store_before_fetch _ _ FetchIndex). }
    { by rewrite Hcontacts. }
    change (fetch P FetchIndex sel w1) with (fetch_index_data_safe P sel w1) in Hrun.
    assert (Hdisplay : display_index_dashboard P w
                       = (Ok tt, emit (EWarning "No data available.")
                                   (miss_world P FetchIndex sel w1))).
    { rewrite display_index_unfold. fold sel w1.
      unfold mbind at 1. unfold M_bind at 1. by rewrite Hrun. }
    rewrite Hrun, Hdisplay. split; [done|].
    split; [change (clock (miss_world P FetchIndex sel w1) = (clock w + 300)%Z); lia|].
    assert (Hlog : log (emit (EWarning "No data available.") (miss_world P FetchIndex sel w1))
                   = log w ++ (ETitle "Industry Indices Dashboard"
                               :: (if clicked w "Retry Fetch Index Data"
                                   then [ECacheClear] else []))
                     ++ [ECall FetchIndex sel; ERun FetchIndex sel]
                     ++ run_trace P FetchIndex sel (contacts w1)
                     ++ [EWarning "No data available."]).
    { change (log (emit (EWarning "No data available.") (miss_world P FetchIndex sel w1)))
        with (log (miss_world P FetchIndex sel w1) ++ [EWarning "No data available."]).
      rewrite log_miss_world. unfold w1 at 1. rewrite log_before_fetch.
      rewrite <- !app_assoc. simpl. by rewrite <- ?app_assoc. }
    cbn [snd]. rewrite (new_events_app _ _ _ Hlog), !delays_app, Hd.
    by destruct (clicked w "Retry Fetch Index Data").
  - intros Hstore Hfail1 Hfail2.
    set (sel := selected_stock w) in *.
    set (w1 := before_fetch "Stocks Dashboard" "Retry Fetch Stock Data" w).
    destruct (before_fetch_frame "Stocks Dashboard" "Retry Fetch Stock Data" w)
      as [Hclock Hcontacts]. fold w1 in Hclock, Hcontacts.
    destruct (exhausted_fetch_world P FetchStock sel w1) as (Hrun1 & Hc1 & Hn1 & Hd1).
    { apply (store_before_fetch _ _ FetchStock). tauto. }
    { by rewrite Hcontacts. }
    set (w2 := miss_world P FetchStock sel w1) in *.
    assert (Hnone2 : store MetricsTable w2 !! sel = None).
    { assert (Hw2 : w2 = snd (fetch P FetchStock sel w1)) by (by rewrite Hrun1).
      rewrite Hw2, fetch_frame by (left; done).
      apply (store_before_fetch _ _ MetricsTable). tauto. }
    destruct (exhausted_fetch_world P MetricsTable sel w2 Hnone2) as (Hrun2 & Hc2 & _ & Hd2).
    { by rewrite Hn1, Hcontacts. }
    set (w3 := miss_world P MetricsTable sel w2) in *.
    assert (Hdisplay : display_stock_dashboard P w
                       = (Ok tt, emit (EWarning "No stock data available.") w3)).
    { rewrite display_stock_unfold. fold sel w1.
      unfold mbind at 1. unfold M_bind at 1.
      change (fetch_stock_data_safe P sel w1) with (fetch P FetchStock sel w1).
      rewrite Hrun1.
      change (sentinel FetchStock) with (empty_frame, (∅ : gmap string pyval)).
      cbv beta iota.
      unfold mbind at 1. unfold M_bind at 1.
      change (metrics_table_safe P sel w2) with (fetch P MetricsTable sel w2).
      by rewrite Hrun2. }
    assert (Hlog : log (emit (EWarning "No stock data available.") w3)
                   = log w ++ ((ETitle "Stocks Dashboard"
                                :: (if clicked w "Retry Fetch Stock Data"
                                    then [ECacheClear] else []))
                     ++ [ECall FetchStock sel; ERun FetchStock sel]
                     ++ run_trace P FetchStock sel (contacts w1)
                     ++ [ECall MetricsTable sel; ERun MetricsTable sel]
                     ++ run_trace P MetricsTable sel (contacts w2))
                     ++ [EWarning "No stock data available."]).
    { change (log (emit (EWarning "No stock data available.") w3))
        with (log w3 ++ [EWarning "No stock data available."]).
      unfold w3. rewrite log_miss_world. unfold w2 at 1. rewrite log_miss_world.
      unfold w1 at 1. rewrite log_before_fetch.
      rewrite <- !app_assoc. simpl. by rewrite <- ?app_assoc. }
    rewrite Hdisplay. split; [done|]. cbn [snd].
    rewrite (new_events_app _ _ _ Hlog).
    split; [eauto|]. split; [change (clock w3 = (clock w + 600)%Z); lia|].
    rewrite !delays_app, Hd1, Hd2.
    by destruct (clicked w "Retry Fetch Stock Data").
Qed.

Lemma dashboards_with_provider_down_witness :
  clock (snd (display_stock_dashboard down initial_world)) = 600%Z /\
  clock (snd (display_index_dashboard down initial_world)) = 300%Z.
Proof.
  destruct (dashboards_with_provider_down down initial_world) as [Hindex Hstock].
  split.
  - destruct Hstock as (_ & _ & Hc & _).
    + right. split; reflexivity.
    + intros k Hk. reflexivity.
    + intros k Hk. reflexivity.
    + exact Hc.
  - destruct Hindex as (_ & Hc & _).
    + right. reflexivity.
    + intros k Hk. reflexivity.
    + exact Hc.
Defined.

Lemma filter_has_label_present (l : string) (cs : list (string * list cell)) :
  In l (map fst cs) -> List.filter (has_label l) cs <> [].
Proof.
  induction cs as [|c cs IH]; simpl; [done|]. unfold has_label at 1.
  destruct (String.eqb_spec (fst c) l); [done|]. intros [H|H]; [done|]. by apply IH.
Qed.

Lemma select_columns_present (cs : list (string * list cell)) (labels : list string) :
  (forall l, In l labels -> In l (map fst cs)) ->
  exists found, select_columns cs labels = Ok found.
Proof.
  induction labels as [|l ls IH]; intros Hall; [by exists []|].
  destruct IH as [rest Hrest]; [intros l' Hl'; apply Hall; by right|].
  pose proof (filter_has_label_present l cs (Hall l ltac:(by left))) as Hne.
  simpl. destruct (List.filter (has_label l) cs) as [|c0 cs0]; [done|].
  rewrite Hrest. eauto.
Qed.

Lemma select_columns_key_error (cs : list (string * list cell)) (labels : list string)
    (l : string) :
  In l labels -> ~ In l (map fst cs) ->
  exists missing,
    select_columns cs labels = Raise (KeyError missing) /\
    In missing labels /\ ~ In missing (map fst cs).
Proof.
  intros Hl Hmiss. induction labels as [|l0 ls IH]; [done|]. simpl.
  destruct (List.filter (has_label l0) cs) as [|c0 cs0] eqn:Hf.
  - exists l0. split; [done|]. split; [by left|].
    intros Hin. by apply filter_has_label_present in Hin.
  - destruct Hl as [-> | Hl].
    + by rewrite filter_has_label_nil in Hf.
    + destruct (IH Hl) as (missing & Hr & Hin & Hout). exists missing.
      rewrite Hr. split; [done|]. split; [by right | done].
Qed.

Lemma emit_append_log (e : event) (w : world) : emit e w = append_log [e] w.
Proof. reflexivity. Qed.

(** X13. Once fetch_index_data_safe has returned a frame with rows and
    columns, display_index_dashboard shows "Data for <symbol>", a table of
    the eight columns and a chart of three, provided the frame has the
    eight columns; if one is missing it raises a KeyError right after
    the heading, and nothing catches it: the dashboard has no handler. *)
Theorem index_dashboard_needs_its_columns (P : provider) (w : world) (df : DataFrame) :
  fst (fetch_index_data_safe P (selected_index w)
         (before_fetch "Industry Indices Dashboard" "Retry Fetch Index Data" w)) = Ok df ->
  empty df = false ->
  ((forall l, In l index_columns -> In l (column_labels df)) ->
   exists table chart,
     getitem_list df index_columns = Ok table /\
     getitem_list df ["Close"; "SMA_20"; "EMA_20"] = Ok chart /\
     display_index_dashboard P w
     = (Ok tt,
        append_log [EWrite ("Data for " ++ selected_index w); EDataframe table;
                    ELineChart chart]
          (snd (fetch_index_data_safe P (selected_index w)
                  (before_fetch "Industry Indices Dashboard"
                     "Retry Fetch Index Data" w))))) /\
  (forall l, In l index_columns -> ~ In l (column_labels df) ->
   exists msg,
     display_index_dashboard P w
     = (Raise (KeyError msg),
        append_log [EWrite ("Data for " ++ selected_index w)]
          (snd (fetch_index_data_safe P (selected_index w)
                  (before_fetch "Industry Indices Dashboard"
                     "Retry Fetch Index Data" w))))).
Proof.
  intros Hfetch Hrows.
  destruct (display_index_run P w) as (df' & tr & shown & Hrun & Hdisplay & _).
  rewrite Hrun in Hfetch. inversion Hfetch; subst df'. clear Hfetch.
  set (w2 := snd (fetch_index_data_safe P (selected_index w) _)) in *.
  rewrite Hdisplay. unfold render_index. rewrite Hrows.
  split.
  - intros Hall.
    destruct (select_columns_present (columns df) index_columns Hall) as [cs Hcs].
    destruct (select_columns_present (columns df) ["Close"; "SMA_20"; "EMA_20"])
      as [cs' Hcs'].
    { intros l Hl. apply Hall. unfold index_columns. simpl in *. tauto. }
    exists (mkFrame (index df) cs), (mkFrame (index df) cs').
    assert (H1 : getitem_list df index_columns = Ok (mkFrame (index df) cs))
      by (unfold getitem_list; by rewrite Hcs).
    assert (H2 : getitem_list df ["Close"; "SMA_20"; "EMA_20"] = Ok (mkFrame (index df) cs'))
      by (unfold getitem_list; by rewrite Hcs').
    split; [done|]. split; [done|].
    unfold mbind, M_bind, st_write, st_dataframe, st_line_chart, lift.
    fold index_columns. rewrite H1, H2. cbv beta iota.
    rewrite !emit_append_log, !append_log_app. reflexivity.
  - intros l Hl Hmiss.
    destruct (select_columns_key_error (columns df) index_columns l Hl Hmiss)
      as (missing & Hr & Hin & Hout).
    exists missing.
    assert (H1 : getitem_list df index_columns = Raise (KeyError missing))
      by (unfold getitem_list; by rewrite Hr).
    unfold mbind, M_bind, st_write, lift. fold index_columns. by rewrite H1.
Qed.

Lemma index_dashboard_needs_its_columns_witness :
  exists msg,
    fst (display_index_dashboard close_only initial_world) = Raise (KeyError msg).
Proof.
  destruct (index_dashboard_needs_its_columns close_only initial_world
              (outcome close_only FetchIndex "^DJI" 0)) as [_ Hraise].
  - vm_compute. reflexivity.
  - reflexivity.
  - destruct (Hraise "Open") as (msg & Hrun).
    + simpl. auto.
    + vm_compute. intros [H|[H|[H|[H|[]]]]]; discriminate.
    + exists msg. by rewrite Hrun.
Defined.

(** X14. Once both fetches have returned and the stock history has rows
    and columns, display_stock_dashboard shows, in this order, the
    heading, the table of Open, High, Low, Close and Volume, the title
    "Financials for <symbol>", the snapshot, the four metrics (each the
    mapping's entry, or 'N/A' when the mapping has no such key) and the
    chart of the closes, provided the history has the five columns and
    only one of them is labelled Close; if one of the five is missing it
    raises a KeyError right after the heading, the snapshot is not
    shown, and nothing catches the exception. *)
Theorem stock_dashboard_needs_its_columns (P : provider) (w : world)
    (stock_data : DataFrame) (metrics : gmap string pyval) (w2 : world)
    (metr : DataFrame) (w3 : world) :
  fetch_stock_data_safe P (selected_stock w)
    (before_fetch "Stocks Dashboard" "Retry Fetch Stock Data" w)
  = (Ok (stock_data, metrics), w2) ->
  metrics_table_safe P (selected_stock w) w2 = (Ok metr, w3) ->
  empty stock_data = false ->
  ((forall l, In l stock_columns -> In l (column_labels stock_data)) ->
   occurs_once "Close" (column_labels stock_data) ->
   exists table close,
     getitem_list stock_data stock_columns = Ok table /\
     getitem stock_data "Close" = Ok close /\
     display_stock_dashboard P w
     = (Ok tt,
        append_log
          [EWrite ("Data for " ++ selected_stock w); EDataframe table;
           ETitle ("Financials for " ++ selected_stock w); EDataframe metr;
           EMetric "PE Ratio" (default (PStr "N/A") (metrics !! "PE Ratio"));
           EMetric "Dividend Yield" (default (PStr "N/A") (metrics !! "Dividend Yield"));
           EMetric "Beta" (default (PStr "N/A") (metrics !! "Beta"));
           EMetric "Market Cap" (default (PStr "N/A") (metrics !! "Market Cap"));
           ELineChart (mkFrame (index stock_data) [("Close", close)])]
          w3)) /\
  (forall l, In l stock_columns -> ~ In l (column_labels stock_data) ->
   exists msg,
     display_stock_dashboard P w
     = (Raise (KeyError msg),
        append_log [EWrite ("Data for " ++ selected_stock w)] w3)).
Proof.
  intros Hrun1 Hrun2 Hrows.
  assert (Hdisplay : display_stock_dashboard P w
                     = render_stock (selected_stock w) stock_data metrics metr w3).
  { rewrite display_stock_unfold.
    unfold mbind at 1. unfold M_bind at 1. rewrite Hrun1.
    unfold mbind at 1. unfold M_bind at 1. by rewrite Hrun2. }
  rewrite Hdisplay. unfold render_stock. rewrite Hrows.
  split.
  - intros Hall _.
    destruct (select_columns_present (columns stock_data) stock_columns Hall) as [cs Hcs].
    assert (H1 : getitem_list stock_data stock_columns = Ok (mkFrame (index stock_data) cs))
      by (unfold getitem_list; by rewrite Hcs).
    assert (Hclose : exists close, getitem stock_data "Close" = Ok close).
    { unfold getitem. rewrite find_position. fold (column_labels stock_data).
      destruct (position "Close" (column_labels stock_data)) as [j|] eqn:Hp.
      - pose proof (position_lookup _ _ _ Hp) as Hl. unfold column_labels in Hl.
        rewrite list_lookup_fmap in Hl.
        destruct (columns stock_data !! j) as [c|]; [eauto | done].
      - apply position_None in Hp. exfalso. apply Hp, Hall.
        unfold stock_columns. simpl. tauto. }
    destruct Hclose as [close Hclose].
    exists (mkFrame (index stock_data) cs), close.
    split; [done|]. split; [done|].
    assert (Hseries : series_frame stock_data "Close"
                      = Ok (mkFrame (index stock_data) [("Close", close)]))
      by (unfold series_frame; by rewrite Hclose).
    unfold mbind, M_bind, st_write, st_dataframe, st_title, st_metric, st_line_chart, lift.
    fold stock_columns. rewrite H1, Hseries. cbv beta iota.
    rewrite !emit_append_log, !append_log_app. reflexivity.
  - intros l Hl Hmiss.
    destruct (select_columns_key_error (columns stock_data) stock_columns l Hl Hmiss)
      as (missing & Hr & Hin & Hout).
    exists missing.
    assert (H1 : getitem_list stock_data stock_columns = Raise (KeyError missing))
      by (unfold getitem_list; by rewrite Hr).
    unfold mbind, M_bind, st_write, lift. fold stock_columns. by rewrite H1.
Qed.

Lemma stock_dashboard_needs_its_columns_witness :
  fst (display_stock_dashboard steady initial_world) = Ok tt /\
  exists msg,
    fst (display_stock_dashboard close_only initial_world) = Raise (KeyError msg).
Proof.
  split.
  - destruct (stock_dashboard_needs_its_columns steady initial_world
                (fst (outcome steady FetchStock "AAPL" 0))
                (snd (outcome steady FetchStock "AAPL" 0))
                (snd (fetch_stock_data_safe steady "AAPL"
                        (before_fetch "Stocks Dashboard" "Retry Fetch Stock Data"
                           initial_world)))
                (outcome steady MetricsTable "AAPL" 1)
                (snd (metrics_table_safe steady "AAPL"
                        (snd (fetch_stock_data_safe steady "AAPL"
                                (before_fetch "Stocks Dashboard" "Retry Fetch Stock Data"
                                   initial_world))))))
      as [Hshown _].
    + vm_compute. reflexivity.
    + vm_compute. reflexivity.
    + reflexivity.
    + destruct Hshown as (table & close & _ & _ & Hrun).
      * simpl. intros l [<-|[<-|[<-|[<-|[<-|[]]]]]]; vm_compute; auto 10.
      * reflexivity.
      * by rewrite Hrun.
  - destruct (stock_dashboard_needs_its_columns close_only initial_world
                (fst (outcome close_only FetchStock "AAPL" 0))
                (snd (outcome close_only FetchStock "AAPL" 0))
                (snd (fetch_stock_data_safe close_only "AAPL"
                        (before_fetch "Stocks Dashboard" "Retry Fetch Stock Data"
                           initial_world)))
                (outcome close_only MetricsTable "AAPL" 1)
                (snd (metrics_table_safe close_only "AAPL"
                        (snd (fetch_stock_data_safe close_only "AAPL"
                                (before_fetch "Stocks Dashboard" "Retry Fetch Stock Data"
                                   initial_world))))))
      as [_ Hraise].
    + vm_compute. reflexivity.
    + vm_compute. reflexivity.
    + reflexivity.
    + destruct (Hraise "Open") as (msg & Hrun).
      * simpl. auto.
      * vm_compute. intros [H|[]]; discriminate.
      * exists msg. by rewrite Hrun.
Defined.

Lemma main_unfold (P : provider) (w : world) :
  main P w =
  (if String.eqb (selected_dashboard w) "Industry Indices"
   then display_index_dashboard P else display_stock_dashboard P)
    (emit (ETitle "Dashboard Selection") w).
Proof. reflexivity. Qed.

Lemma calls_of_one (f g : fn_id) (t s : string) :
  calls_of f t [ECall g s] = if decide (f = g /\ t = s) then 1%nat else O.
Proof.
  unfold calls_of. simpl.
  destruct (decide (f = g /\ t = s)) as [[-> ->]|Hne].
  - rewrite String.eqb_refl. by destruct g.
  - destruct f, g; try done; destruct (String.eqb_spec s t) as [->|]; try done;
      exfalso; by apply Hne.
Qed.

Lemma calls_of_cons (f : fn_id) (t : string) (e : event) (tr : list event) :
  calls_of f t (e :: tr) = (calls_of f t [e] + calls_of f t tr)%nat.
Proof. apply (calls_of_app f t [e] tr). Qed.

Lemma calls_of_call (f g : fn_id) (t s : string) (tr : list event) :
  calls_of f t (ECall g s :: tr)
  = ((if decide (f = g /\ t = s) then 1 else 0) + calls_of f t tr)%nat.
Proof. by rewrite calls_of_cons, calls_of_one. Qed.

Lemma nth_in_or_default {A} (n : nat) (l : list A) (d : A) : In d l -> In (nth n l d) l.
Proof.
  intros Hd. destruct (Nat.lt_ge_cases n (length l)) as [Hlt|Hge].
  - by apply nth_In.
  - by rewrite nth_overflow.
Qed.

Lemma display_index_log (P : provider) (w : world) :
  exists tr, log (snd (display_index_dashboard P w)) = log w ++ tr.
Proof.
  destruct (display_index_run P w) as (df & tr & shown & _ & _ & Hs & _).
  destruct (fetch_log P FetchIndex (selected_index w)
              (before_fetch "Industry Indices Dashboard" "Retry Fetch Index Data" w))
    as (v & tr0 & _ & Hl & _).
  assert (Hl' : log (snd (fetch_index_data_safe P (selected_index w)
                            (before_fetch "Industry Indices Dashboard"
                               "Retry Fetch Index Data" w)))
                = log (before_fetch "Industry Indices Dashboard"
                         "Retry Fetch Index Data" w)
                  ++ ECall FetchIndex (selected_index w) :: tr0) by exact Hl.
  clear Hl. rename Hl' into Hl.
  rewrite Hs. unfold append_log. cbn [log]. rewrite Hl, log_before_fetch.
  rewrite <- !app_assoc. eauto.
Qed.

Lemma display_stock_log (P : provider) (w : world) :
  exists tr, log (snd (display_stock_dashboard P w)) = log w ++ tr.
Proof.
  destruct (display_stock_run P w)
    as (sd & metrics & w2 & metr & w3 & tr1 & tr2 & shown
        & _ & Hw2 & _ & Hw3 & _ & Hs & _).
  destruct (fetch_log P FetchStock (selected_stock w)
              (before_fetch "Stocks Dashboard" "Retry Fetch Stock Data" w))
    as (v1 & t1 & _ & Hl1 & _).
  assert (Hl1' : log w2
                 = log (before_fetch "Stocks Dashboard" "Retry Fetch Stock Data" w)
                   ++ ECall FetchStock (selected_stock w) :: t1)
    by (rewrite Hw2; exact Hl1).
  destruct (fetch_log P MetricsTable (selected_stock w) w2) as (v2 & t2 & _ & Hl2 & _).
  assert (Hl2' : log w3 = log w2 ++ ECall MetricsTable (selected_stock w) :: t2)
    by (rewrite Hw3; exact Hl2).
  clear Hl1 Hl2. rename Hl1' into Hl1. rename Hl2' into Hl2.
  rewrite Hs. unfold append_log. cbn [log]. rewrite Hl2, Hl1, log_before_fetch.
  rewrite <- !app_assoc. eauto.
Qed.

Lemma new_events_after_emit (e : event) (w w' : world) :
  (exists tr, log w' = log (emit e w) ++ tr) ->
  new_events w w' = e :: new_events (emit e w) w'.
Proof.
  intros [tr Htr]. rewrite (new_events_app (emit e w) w' tr Htr).
  apply new_events_app. rewrite Htr. simpl. by rewrite <- app_assoc.
Qed.

(** X15. A run of main invokes the decorated functions of one dashboard
    only, each exactly once and for the selected symbol, which is one
    of the symbols of the fixed lists: on 'Industry Indices'
    fetch_index_data_safe alone, otherwise fetch_stock_data_safe and
    metrics_table_safe and never fetch_index_data_safe. *)
Theorem main_invokes_one_dashboard (P : provider) (w : world) (t : string) :
  In (selected_index w) ["^DJI"; "^GSPC"; "^IXIC"; "^RUT"] /\
  In (selected_stock w) ["AAPL"; "MSFT"; "GOOGL"; "AMZN"; "TSLA"] /\
  (selected_dashboard w = "Industry Indices" ->
   calls_of FetchIndex t (new_events w (snd (main P w)))
   = (if decide (t = selected_index w) then 1%nat else O) /\
   calls_of FetchStock t (new_events w (snd (main P w))) = O /\
   calls_of MetricsTable t (new_events w (snd (main P w))) = O) /\
  (selected_dashboard w <> "Industry Indices" ->
   calls_of FetchIndex t (new_events w (snd (main P w))) = O /\
   calls_of FetchStock t (new_events w (snd (main P w)))
   = (if decide (t = selected_stock w) then 1%nat else O) /\
   calls_of MetricsTable t (new_events w (snd (main P w)))
   = (if decide (t = selected_stock w) then 1%nat else O)).
Proof.
  split; [apply nth_in_or_default; simpl; tauto|].
  split; [apply nth_in_or_default; simpl; tauto|].
  set (w0 := emit (ETitle "Dashboard Selection") w).
  assert (Hpre : forall w', new_events w w' = ETitle "Dashboard Selection" :: new_events w0 w' ->
            forall f, calls_of f t (new_events w w') = calls_of f t (new_events w0 w')).
  { intros w' -> f. rewrite calls_of_cons. by destruct f. }
  split.
  - intros Hsel. rewrite main_unfold, Hsel. simpl String.eqb. cbv iota. fold w0.
    destruct (display_index_run P w0) as (df & tr & shown & _ & _ & _ & Hout & Hev & Hn).
    assert (Hnew : new_events w (snd (display_index_dashboard P w0))
                   = ETitle "Dashboard Selection"
                     :: new_events w0 (snd (display_index_dashboard P w0)))
      by apply new_events_after_emit, display_index_log.
    rewrite !(Hpre _ Hnew), Hev.
    assert (Hhead : forall f,
              calls_of f t (ETitle "Industry Indices Dashboard"
                 :: (if clicked w0 "Retry Fetch Index Data" then [ECacheClear] else [])) = O).
    { intros f. by destruct (clicked w0 "Retry Fetch Index Data"), f. }
    assert (Htail : forall f, calls_of f t (tr ++ shown) = O).
    { intros f. by rewrite calls_of_app, (calls_of_no_calls _ _ _ Hn),
        (calls_of_no_calls _ _ _ (no_calls_output _ Hout)). }
    rewrite !calls_of_app, !Hhead.
    rewrite !calls_of_call, !Htail.
    change (selected_index w0) with (selected_index w).
    split; [|split].
    + destruct (decide (t = selected_index w)) as [->|Hne].
      * by rewrite decide_True.
      * rewrite decide_False; [done|]. by intros [_ ?].
    + by rewrite decide_False by (by intros [? _]).
    + by rewrite decide_False by (by intros [? _]).
  - intros Hsel. rewrite main_unfold.
    destruct (String.eqb_spec (selected_dashboard w) "Industry Indices") as [?|_]; [done|].
    fold w0.
    destruct (display_stock_run P w0)
      as (sd & metrics & w2 & metr & w3 & tr1 & tr2 & shown
          & _ & _ & _ & _ & _ & Hs & Hout & Hev & Hn1 & Hn2).
    assert (Hnew : new_events w (snd (display_stock_dashboard P w0))
                   = ETitle "Dashboard Selection"
                     :: new_events w0 (snd (display_stock_dashboard P w0)))
      by apply new_events_after_emit, display_stock_log.
    rewrite !(Hpre _ Hnew), Hev.
    assert (Hhead : forall f,
              calls_of f t (ETitle "Stocks Dashboard"
                 :: (if clicked w0 "Retry Fetch Stock Data" then [ECacheClear] else [])) = O).
    { intros f. by destruct (clicked w0 "Retry Fetch Stock Data"), f. }
    assert (Htail : forall f, calls_of f t (tr2 ++ shown) = O).
    { intros f. by rewrite calls_of_app, (calls_of_no_calls _ _ _ Hn2),
        (calls_of_no_calls _ _ _ (no_calls_output _ Hout)). }
    rewrite !calls_of_app, !Hhead.
    rewrite !calls_of_call, !calls_of_app, !(calls_of_no_calls _ _ _ Hn1).
    rewrite !calls_of_call, !Htail.
    change (selected_stock w0) with (selected_stock w).
    split; [|split].
    + rewrite !decide_False; [done | by intros [? _] | by intros [? _]].
    + destruct (decide (t = selected_stock w)) as [->|Hne].
      * rewrite decide_True by done. by rewrite decide_False by (by intros [? _]).
      * rewrite !decide_False; [done | by intros [? _] | by intros [_ ?]].
    + destruct (decide (t = selected_stock w)) as [->|Hne].
      * rewrite decide_False by (by intros [? _]). by rewrite decide_True.
      * rewrite !decide_False; [done | by intros [_ ?] | by intros [? _]].
Qed.

Lemma main_invokes_one_dashboard_witness :
  calls_of FetchIndex "^DJI" (new_events initial_world (snd (main steady initial_world)))
  = 1%nat /\
  calls_of FetchStock "AAPL" (new_events initial_world (snd (main steady initial_world)))
  = O.
Proof.
  destruct (main_invokes_one_dashboard steady initial_world "^DJI") as (_ & _ & Hi & _).
  destruct (main_invokes_one_dashboard steady initial_world "AAPL") as (_ & _ & Hs & _).
  split.
  - destruct Hi as (H & _); [reflexivity|]. exact H.
  - destruct Hs as (_ & H & _); [reflexivity|]. exact H.
Defined.
